(** * ScholarAI multi-agent research pipeline: a shallow embedding

    The development follows the Python sources of the advanced track
    (agents/topic_splitter.py, agents/researcher_agent.py,
    agents/synthesizer_agent.py, agents/critic_agent.py,
    agents/orchestrator.py and tools/web_search.py).

    What lies outside the repository is kept abstract:
    - the language model: every agent owns a tape of pending replies, one
      reply is consumed per chat completion, and an exhausted tape is an API
      failure;
    - [json.loads]: a parameter [json_loads] of the development;
    - the tool-calling conversation of a researcher (model calls and web
      searches): for the orchestrator its outcome is given per researcher;
      the loop itself is modelled apart, over the completions the model
      gives and the search client, a parameter [client_search];
    - the thread pool: the order in which futures complete is a list of future
      ids supplied by the environment.

    Python floats (progress values, relevance scores) are modelled as exact
    rationals, Python strings as Rocq strings (one [ascii] per character). *)

From Stdlib Require Import QArith Lqa.
From stdpp Require Import base strings list gmap sorting pretty.

Local Open Scope Z_scope.

(** ** Exceptions and fallible computations *)

Inductive exn_kind :=
| ValueError | JSONDecodeError | TypeError | AttributeError
| ValidationError | RuntimeError | APIError.

(** An exception object: its class and [str(e)]. *)
Record exn := Exn { exn_class : exn_kind; exn_str : string }.

Inductive result (A : Type) :=
| Ok (a : A)
| Raise (e : exn).
Arguments Ok {A} a.
Arguments Raise {A} e.

Definition result_bind {A B} (r : result A) (k : A -> result B) : result B :=
  match r with
  | Ok a => k a
  | Raise e => Raise e
  end.

Declare Scope result_scope.
Delimit Scope result_scope with res.
Notation "x <- e ;; k" := (result_bind e (fun x => k))
  (at level 100, e at next level, right associativity) : result_scope.

Fixpoint result_map {A B} (f : A -> result B) (l : list A) : result (list B) :=
  match l with
  | [] => Ok []
  | a :: l' =>
      (b <- f a ;;
       bs <- result_map f l' ;;
       Ok (b :: bs))%res
  end.

Definition is_ok {A} (r : result A) : bool :=
  match r with Ok _ => true | Raise _ => false end.

(** ** JSON values, as [json.loads] builds them *)

#[warnings="-register-all"]
Inductive json :=
| JNull
| JBool (b : bool)
| JInt (z : Z)
| JFloat (q : Q)
| JStr (s : string)
| JArr (items : list json)
| JObj (fields : list (string * json)).

Fixpoint assoc (key : string) (fields : list (string * json)) : option json :=
  match fields with
  | [] => None
  | (k, v) :: rest => if String.eqb k key then Some v else assoc key rest
  end.

(** [d.get(key, dflt)]: defined on dicts only. *)
Definition py_get (d : json) (key : string) (dflt : json) : result json :=
  match d with
  | JObj fields => Ok (default dflt (assoc key fields))
  | _ => Raise (Exn AttributeError "object has no attribute 'get'")
  end.

Definition chars (s : string) : list json :=
  (fun a => JStr (String a EmptyString)) <$> String.list_ascii_of_string s.

(** [for x in v]: lists give their items, dicts their keys, strings their
    characters; nothing else is iterable. *)
Definition py_iter (v : json) : result (list json) :=
  match v with
  | JArr items => Ok items
  | JObj fields => Ok ((fun kv => JStr kv.1) <$> fields)
  | JStr s => Ok (chars s)
  | _ => Raise (Exn TypeError "object is not iterable")
  end.

(** [v[:n]]: lists and strings can be sliced; a dict or a number raises. *)
Definition py_slice_to (n : nat) (v : json) : result json :=
  match v with
  | JArr items => Ok (JArr (take n items))
  | JStr s => Ok (JStr (String.substring 0 n s))
  | _ => Raise (Exn TypeError "object is not subscriptable by a slice")
  end.

(** ** String operations used by the researcher *)

Fixpoint find_from (c : Ascii.ascii) (s : string) (i : Z) : Z :=
  match s with
  | EmptyString => -1
  | String a s' => if Ascii.eqb a c then i else find_from c s' (i + 1)
  end.

(** [s.find(c)] *)
Definition str_find (c : Ascii.ascii) (s : string) : Z := find_from c s 0.

Fixpoint rfind_from (c : Ascii.ascii) (s : string) (i last : Z) : Z :=
  match s with
  | EmptyString => last
  | String a s' => rfind_from c s' (i + 1) (if Ascii.eqb a c then i else last)
  end.

(** [s.rfind(c)] *)
Definition str_rfind (c : Ascii.ascii) (s : string) : Z := rfind_from c s 0 (-1).

(** [s[i:j]] for [0 <= i <= j]. *)
Definition str_slice (i j : Z) (s : string) : string :=
  String.substring (Z.to_nat i) (Z.to_nat (j - i)) s.

(** ** Field validation of the Pydantic models

    Modelled from the spec: models/report.py is not among the sources.  Each
    field accepts the JSON values of its declared type (spec, section 3) and
    rejects every other value with a validation error. *)

Definition invalid {A} : result A := Raise (Exn ValidationError "validation error").

Definition as_str (v : json) : result string :=
  match v with JStr s => Ok s | _ => invalid end.

Definition as_int (v : json) : result Z :=
  match v with JInt z => Ok z | _ => invalid end.

Definition as_optional_float (v : json) : result (option Q) :=
  match v with
  | JNull => Ok None
  | JInt z => Ok (Some (inject_Z z))
  | JFloat q => Ok (Some q)
  | _ => invalid
  end.

Definition as_optional_str (v : json) : result (option string) :=
  match v with
  | JNull => Ok None
  | JStr s => Ok (Some s)
  | _ => invalid
  end.

Definition as_list_str (v : json) : result (list string) :=
  match v with
  | JArr items => result_map as_str items
  | _ => invalid
  end.

(** ** Data model (models/report.py)

    Modelled from the spec: the record declarations are missing from the
    sources; fields are those the agents read and write, with the types of
    section 3 of the spec. *)

Record Source := {
  title : string;
  url : string;
  snippet : string;
  score : option Q;
  why_matters : option string }.

Record KeyFinding := {
  finding : string;
  citations : list string }.

Record Subtopic := {
  name : string;
  description : string;
  search_queries : list string }.

Record SubtopicFindings := {
  subtopic : string;
  summary : string;
  key_insights : list KeyFinding;
  sources : list Source;
  researcher_notes : string;
  metadata : list (string * json) }.

Record CriticIssue := {
  category : string;
  severity : string;
  issue_description : string;
  location : string;
  suggestion : string }.

Record CriticReview := {
  decision : string;
  overall_score : Z;
  issues_found : list CriticIssue;
  strengths : list string;
  revision_instructions : string;
  iteration : Z }.

Record MultiAgentReport := {
  topic : string;
  subtopics : list string;
  executive_summary : string;
  subtopic_findings : list SubtopicFindings;
  overall_insights : list KeyFinding;
  consensus_points : list string;
  conflicts_and_gaps : string;
  all_sources : list Source;
  top_sources : list Source;
  revision_count : Z;
  critic_review : option CriticReview;
  report_metadata : list (string * json) }.

(** [review.iteration = i] *)
Definition set_iteration (i : Z) (r : CriticReview) : CriticReview :=
  {| decision := decision r; overall_score := overall_score r;
     issues_found := issues_found r; strengths := strengths r;
     revision_instructions := revision_instructions r; iteration := i |}.

(** [report.critic_review = review] *)
Definition set_critic_review (rv : CriticReview) (r : MultiAgentReport) : MultiAgentReport :=
  {| topic := topic r; subtopics := subtopics r;
     executive_summary := executive_summary r;
     subtopic_findings := subtopic_findings r;
     overall_insights := overall_insights r;
     consensus_points := consensus_points r;
     conflicts_and_gaps := conflicts_and_gaps r;
     all_sources := all_sources r; top_sources := top_sources r;
     revision_count := revision_count r;
     critic_review := Some rv;
     report_metadata := report_metadata r |}.

(** [report.revision_count = n] *)
Definition set_revision_count (n : Z) (r : MultiAgentReport) : MultiAgentReport :=
  {| topic := topic r; subtopics := subtopics r;
     executive_summary := executive_summary r;
     subtopic_findings := subtopic_findings r;
     overall_insights := overall_insights r;
     consensus_points := consensus_points r;
     conflicts_and_gaps := conflicts_and_gaps r;
     all_sources := all_sources r; top_sources := top_sources r;
     revision_count := n;
     critic_review := critic_review r;
     report_metadata := report_metadata r |}.

(** A result of the search tool (tools/web_search.py builds exactly these
    four keys). *)
Record search_hit := {
  hit_title : string;
  hit_url : string;
  hit_snippet : string;
  hit_score : Q }.

(** ** The environment: model replies, researcher conversations, observations *)

Inductive role := SplitterRole | SynthesizerRole | CriticRole.

(** The outcome of one researcher's tool-calling conversation
    (ResearcherAgent.research_subtopic, up to the final message): either a
    model or search call raised, or the conversation ended with the search
    results gathered so far, the final message and the queries issued. *)
Inductive session :=
| SessionRaises (e : exn)
| SessionEnds (hits : list search_hit) (final_message : string)
    (queries_used : list string).

Inductive call :=
| AnalyzeTopic
| ResearchSubtopic (agent : nat)
| Synthesize
| Revise
| Review.

(** What an observer sees of a run: agent methods entered and progress
    callbacks made, oldest first. *)
Inductive event :=
| Called (c : call)
| Progress (p : Q) (message : string).

Record world := {
  splitter_replies : list string;
  synthesizer_replies : list string;
  critic_replies : list string;
  sessions : nat -> session;
  trace : list event }.

Definition set_trace (t : list event) (w : world) : world :=
  {| splitter_replies := splitter_replies w;
     synthesizer_replies := synthesizer_replies w;
     critic_replies := critic_replies w;
     sessions := sessions w; trace := t |}.

Definition replies (r : role) (w : world) : list string :=
  match r with
  | SplitterRole => splitter_replies w
  | SynthesizerRole => synthesizer_replies w
  | CriticRole => critic_replies w
  end.

Definition set_replies (r : role) (l : list string) (w : world) : world :=
  match r with
  | SplitterRole =>
      {| splitter_replies := l; synthesizer_replies := synthesizer_replies w;
         critic_replies := critic_replies w; sessions := sessions w;
         trace := trace w |}
  | SynthesizerRole =>
      {| splitter_replies := splitter_replies w; synthesizer_replies := l;
         critic_replies := critic_replies w; sessions := sessions w;
         trace := trace w |}
  | CriticRole =>
      {| splitter_replies := splitter_replies w;
         synthesizer_replies := synthesizer_replies w;
         critic_replies := l; sessions := sessions w; trace := trace w |}
  end.

(** Stateful, fallible computations; the world survives an exception. *)
Definition M (A : Type) : Type := world -> result A * world.

Definition ret {A} (a : A) : M A := fun w => (Ok a, w).
Definition raise {A} (e : exn) : M A := fun w => (Raise e, w).
Definition lift {A} (r : result A) : M A := fun w => (r, w).

Definition bind {A B} (m : M A) (k : A -> M B) : M B :=
  fun w =>
    match m w with
    | (Ok a, w') => k a w'
    | (Raise e, w') => (Raise e, w')
    end.

Declare Scope orch_scope.
Delimit Scope orch_scope with M.
Notation "x <- e ;; k" := (bind e (fun x => k))
  (at level 100, e at next level, right associativity) : orch_scope.
Notation "e ;; k" := (bind e (fun _ => k))
  (at level 100, right associativity) : orch_scope.

Definition emit (e : event) : M unit :=
  fun w => (Ok tt, set_trace (trace w ++ [e]) w).

(** [client.chat.completions.create(...)] followed by
    [response.choices[0].message.content], the content being a string. *)
Definition chat (r : role) : M string :=
  fun w =>
    match replies r w with
    | [] => (Raise (Exn APIError "the completion request failed"), w)
    | text :: rest => (Ok text, set_replies r rest w)
    end.

(** [progress_callback(progress, message)] when a callback was supplied. *)
Definition update_progress (callback : bool) (p : Q) (message : string) : M unit :=
  if callback then emit (Progress p message) else ret tt.

Definition progress_values (t : list event) : list Q :=
  omap (fun e => match e with Progress p _ => Some p | Called _ => None end) t.

(** The progress values never go down. *)
Fixpoint nondecreasing (l : list Q) : bool :=
  match l with
  | p :: (q :: _) as rest => Qle_bool p q && nondecreasing rest
  | _ => true
  end.

(** Every progress value lies between 0 and 1. *)
Definition within_unit_interval (l : list Q) : bool :=
  forallb (fun p => Qle_bool 0 p && Qle_bool p 1) l.

Definition calls (t : list event) : list call :=
  omap (fun e => match e with Called c => Some c | Progress _ _ => None end) t.

Definition count_calls (c : call -> bool) (t : list event) : nat :=
  length (filter (fun x => c x = true) (calls t)).

Definition is_revise (c : call) : bool :=
  match c with Revise => true | _ => false end.
Definition is_review (c : call) : bool :=
  match c with Review => true | _ => false end.

(** ** The orchestrator's configuration (agents/orchestrator.py) *)

Record MultiAgentOrchestrator := {
  num_subtopics : Z;
  max_sources_per_subtopic : Z;
  max_workers : Z;
  enable_critic : bool;
  max_revisions : Z;
  critic_strictness : string;
  (** [self.critic]: the critic agent (its strictness), or [None] *)
  critic : option string }.

(** [MultiAgentOrchestrator.__init__] with an API key present. *)
Definition new_orchestrator (num_subtopics_ max_sources_ max_workers_ : Z)
    (enable_critic_ : bool) (max_revisions_ : Z) (critic_strictness_ : string)
    : MultiAgentOrchestrator :=
  {| num_subtopics := num_subtopics_;
     max_sources_per_subtopic := max_sources_;
     max_workers := max_workers_;
     enable_critic := enable_critic_;
     max_revisions := max_revisions_;
     critic_strictness := critic_strictness_;
     critic := if enable_critic_ then Some critic_strictness_ else None |}.

(** ** The completions of a researcher (agents/researcher_agent.py) *)

(** [tool_call.function]: its name and its arguments, a JSON text. *)
Record tool_call := {
  function_name : string;
  function_arguments : string }.

(** [response.choices[0].message]; no tool calls is the empty list. *)
Record completion := {
  tool_calls : list tool_call;
  content : string }.

(** ** Sample data

    Concrete documents, decoder and environments on which the statements
    below are exercised.  [sample_loads] agrees with [json.loads] on the
    documents listed in [sample_documents] and on every text that is not a
    JSON document. *)

Definition dq : string := String (Ascii.ascii_of_nat 34) EmptyString.
Definition quoted (s : string) : string := dq +:+ s +:+ dq.

(** The document [{"decision": "REVISION_NEEDED"}]. *)
Definition needs_revision_text : string :=
  "{" +:+ quoted "decision" +:+ ": " +:+ quoted "REVISION_NEEDED" +:+ "}".

(** The document [{"subtopics": [{"name": "Cost trends"}]}]. *)
Definition one_subtopic_text : string :=
  "{" +:+ quoted "subtopics" +:+ ": [{" +:+ quoted "name" +:+ ": "
      +:+ quoted "Cost trends" +:+ "}]}".

(** The document [{"subtopics": [{"name": "Battery chemistry"},
    {"name": "Grid-scale deployment"}, {"name": "Cost trends"}]}]. *)
Definition three_subtopics_text : string :=
  "{" +:+ quoted "subtopics" +:+ ": [{" +:+ quoted "name" +:+ ": "
      +:+ quoted "Battery chemistry" +:+ "}, {" +:+ quoted "name" +:+ ": "
      +:+ quoted "Grid-scale deployment" +:+ "}, {" +:+ quoted "name" +:+ ": "
      +:+ quoted "Cost trends" +:+ "}]}".

(** The document [{"subtopics": []}]. *)
Definition no_subtopics_text : string :=
  "{" +:+ quoted "subtopics" +:+ ": []}".

Definition sample_documents : list (string * json) :=
  [ ("{}", JObj []);
    (needs_revision_text, JObj [("decision", JStr "REVISION_NEEDED")]);
    (one_subtopic_text,
     JObj [("subtopics", JArr [JObj [("name", JStr "Cost trends")]])]);
    (three_subtopics_text,
     JObj [("subtopics",
            JArr [JObj [("name", JStr "Battery chemistry")];
                  JObj [("name", JStr "Grid-scale deployment")];
                  JObj [("name", JStr "Cost trends")]])]);
    (no_subtopics_text, JObj [("subtopics", JArr [])]) ].

Definition sample_loads (text : string) : option json :=
  assoc text sample_documents.

Definition sample_hit (u : string) : search_hit :=
  {| hit_title := "A source"; hit_url := u; hit_snippet := "An excerpt";
     hit_score := 0.5%Q |}.

(** Researcher 2 fails; the others end with two search results each, one of
    them shared, and a final message that embeds no JSON. *)
Definition sample_sessions (i : nat) : session :=
  match i with
  | 1%nat => SessionRaises (Exn RuntimeError "Web search failed: timeout")
  | _ =>
      SessionEnds [sample_hit "https://example.org/shared";
                   sample_hit ("https://example.org/" +:+ pretty i)]
        "No structured answer." ["storage"]
  end.

Definition sample_world (splitter synthesizer critic_ : list string) : world :=
  {| splitter_replies := splitter;
     synthesizer_replies := synthesizer;
     critic_replies := critic_;
     sessions := sample_sessions;
     trace := [] |}.

(** Every researcher ends with two search results, one of them shared. *)
Definition returning_sessions (i : nat) : session :=
  SessionEnds [sample_hit "https://example.org/shared";
               sample_hit ("https://example.org/" +:+ pretty i)]
    "No structured answer." ["storage"].

Definition returning_world (splitter synthesizer critic_ : list string) : world :=
  {| splitter_replies := splitter;
     synthesizer_replies := synthesizer;
     critic_replies := critic_;
     sessions := returning_sessions;
     trace := [] |}.

(** Every researcher raises an exception that carries no text, as
    [RuntimeError()] does. *)
Definition silent_world : world :=
  {| splitter_replies := [];
     synthesizer_replies := [];
     critic_replies := [];
     sessions := fun _ => SessionRaises (Exn RuntimeError "");
     trace := [] |}.

Definition sample_source (u t : string) : Source :=
  {| title := t; url := u; snippet := ""; score := None; why_matters := None |}.

Definition sample_findings (n : string) (l : list Source) : SubtopicFindings :=
  {| subtopic := n; summary := ""; key_insights := []; sources := l;
     researcher_notes := ""; metadata := [] |}.

Definition sample_report (count : Z) : MultiAgentReport :=
  {| topic := "Renewable energy storage";
     subtopics := ["Cost trends"];
     executive_summary := "Draft";
     subtopic_findings :=
       [sample_findings "Cost trends" [sample_source "https://example.org/a" "A"]];
     overall_insights := [];
     consensus_points := [];
     conflicts_and_gaps := "";
     all_sources := [sample_source "https://example.org/a" "A"];
     top_sources := [];
     revision_count := count;
     critic_review := None;
     report_metadata := [] |}.

(** Two findings that share a URL. *)
Definition sample_batch : list SubtopicFindings :=
  [ sample_findings "Battery chemistry"
      [sample_source "https://example.org/a" "A";
       sample_source "https://example.org/b" "B"];
    sample_findings "Cost trends"
      [sample_source "https://example.org/a" "A again";
       sample_source "https://example.org/c" "C"] ].

Definition sample_subtopic (n : string) : Subtopic :=
  {| name := n; description := ""; search_queries := [] |}.

Definition sample_subtopics : list Subtopic :=
  [ sample_subtopic "Battery chemistry";
    sample_subtopic "Grid-scale deployment";
    sample_subtopic "Cost trends" ].

(** Runs a sample to its value and keeps the equation. *)
Ltac evaluate_run res w H :=
  match goal with
  | |- ∃ _ _, ?lhs = _ ∧ _ =>
      let H' := fresh in
      destruct lhs as [res w] eqn:H; pose proof H as H'; vm_compute in H';
      injection H' as <- <-
  end.

(** The document [{"decision": "NEEDS_WORK"}], a decision the orchestrator
    does not know. *)
Definition undecided_text : string :=
  "{" +:+ quoted "decision" +:+ ": " +:+ quoted "NEEDS_WORK" +:+ "}".

Definition extended_documents : list (string * json) :=
  (undecided_text, JObj [("decision", JStr "NEEDS_WORK")]) :: sample_documents.

Definition extended_loads (text : string) : option json :=
  assoc text extended_documents.

(** The document [{"summary": "Costs fall."}]. *)
Definition summary_text : string :=
  "{" +:+ quoted "summary" +:+ ": " +:+ quoted "Costs fall." +:+ "}".

(** The document [{"query": "storage"}], the arguments of a tool call. *)
Definition storage_query_text : string :=
  "{" +:+ quoted "query" +:+ ": " +:+ quoted "storage" +:+ "}".

Definition researcher_documents : list (string * json) :=
  (summary_text, JObj [("summary", JStr "Costs fall.")])
  :: (storage_query_text, JObj [("query", JStr "storage")])
  :: sample_documents.

Definition researcher_loads (text : string) : option json :=
  assoc text researcher_documents.

(** A search client that knows one query: its response holds a complete
    entry and an entry with a URL only; every other query fails. *)
Definition sample_client (key : string) (query max_results : json) : result json :=
  match query with
  | JStr "storage" =>
      Ok (JObj [("results",
                 JArr [JObj [("title", JStr "Grid storage");
                             ("url", JStr "https://example.org/grid");
                             ("content", JStr "An overview");
                             ("score", JFloat 0.9)];
                       JObj [("url", JStr "https://example.org/bare")]])])
  | _ => Raise (Exn APIError "rate limit exceeded")
  end.

(** A conversation in which the model first asks for a search and for a
    tool the researcher does not have, and then answers. *)
Definition sample_completions : list completion :=
  [ {| tool_calls :=
         [ {| function_name := "web_search";
              function_arguments := storage_query_text |};
           {| function_name := "calculator"; function_arguments := "{}" |} ];
       content := "" |};
    {| tool_calls := []; content := "No structured answer." |};
    {| tool_calls := []; content := "Never asked for." |} ].

Section Pipeline.

Set Default Proof Using "Type".

(** [json.loads]: [None] stands for [json.JSONDecodeError]. *)
Variable json_loads : string -> option json.
(** [datetime.utcnow().isoformat()], taken as a fixed reading. *)
Variable utcnow : string.
(** The model name the orchestrator hands to every agent. *)
Variable model : string.
(** The value of [CriticReview.iteration] when the constructor is not given
    one (declared in models/report.py). *)
Variable default_iteration : Z.

Definition loads (text : string) : result json :=
  match json_loads text with
  | Some v => Ok v
  | None => Raise (Exn JSONDecodeError "invalid JSON document")
  end.

(** *** agents/topic_splitter.py *)

Record analysis := {
  main_topic_analysis : json;
  analysis_subtopics : list Subtopic }.

Definition subtopic_of (st_data : json) : result Subtopic :=
  (n <- py_get st_data "name" (JStr "") ;;
   d <- py_get st_data "description" (JStr "") ;;
   q <- py_get st_data "search_queries" (JArr []) ;;
   n <- as_str n ;;
   d <- as_str d ;;
   q <- as_list_str q ;;
   Ok {| name := n; description := d; search_queries := q |})%res.

Definition parse_analysis (result_data : json) : result analysis :=
  (sts <- py_get result_data "subtopics" (JArr []) ;;
   items <- py_iter sts ;;
   subtopics <- result_map subtopic_of items ;;
   a <- py_get result_data "main_topic_analysis" (JStr "") ;;
   Ok {| main_topic_analysis := a; analysis_subtopics := subtopics |})%res.

Definition analyze_topic (topic : string) : M analysis :=
  (emit (Called AnalyzeTopic) ;;
   result_text <- chat SplitterRole ;;
   lift (result_data <- loads result_text ;; parse_analysis result_data)%res)%M.

(** *** agents/researcher_agent.py *)

Definition key_finding_of (insight_data : json) : result KeyFinding :=
  (f <- py_get insight_data "finding" (JStr "") ;;
   c <- py_get insight_data "citations" (JArr []) ;;
   f <- as_str f ;;
   c <- as_list_str c ;;
   Ok {| finding := f; citations := c |})%res.

Definition source_of_hit (s : search_hit) : Source :=
  {| title := hit_title s; url := hit_url s; snippet := hit_snippet s;
     score := Some (hit_score s); why_matters := None |}.

Definition open_brace : Ascii.ascii := Ascii.ascii_of_nat 123.
Definition close_brace : Ascii.ascii := Ascii.ascii_of_nat 125.

(** The [try] block of [_parse_findings]: the first-to-last brace span is
    decoded, and the empty dict stands in when there is no span or the
    decoder raises. *)
Definition extract_result_data (analysis_text : string) : json :=
  let json_start := str_find open_brace analysis_text in
  let json_end := str_rfind close_brace analysis_text + 1 in
  if bool_decide (json_start ≠ -1) && bool_decide (json_end > json_start) then
    match json_loads (str_slice json_start json_end analysis_text) with
    | Some v => v
    | None => JObj []
    end
  else JObj [].

Definition _parse_findings (agent_id : string) (st : Subtopic)
    (hits : list search_hit) (analysis_text : string)
    (queries_used : list string) : result SubtopicFindings :=
  let result_data := extract_result_data analysis_text in
  (insights <- py_get result_data "key_insights" (JArr []) ;;
   items <- py_iter insights ;;
   parsed <- result_map key_finding_of items ;;
   insights <-
     match parsed, hits with
     | [], _ :: _ =>
         f <- py_get result_data "summary"
                (JStr ("Research findings on " +:+ name st)) ;;
         f <- as_str f ;;
         Ok [ {| finding := f; citations := hit_url <$> take 3 hits |} ]
     | _, _ => Ok parsed
     end ;;
   let source_objects := source_of_hit <$> hits in
   s <- py_get result_data "summary"
          (JStr (if bool_decide (analysis_text = "")
                 then "Research on " +:+ name st
                 else String.substring 0 500 analysis_text)) ;;
   notes <- py_get result_data "researcher_notes" (JStr "") ;;
   s <- as_str s ;;
   notes <- as_str notes ;;
   Ok {| subtopic := name st;
         summary := s;
         key_insights := insights;
         sources := source_objects;
         researcher_notes := notes;
         metadata :=
           [ ("timestamp", JStr utcnow);
             ("agent_id", JStr agent_id);
             ("model", JStr model);
             ("queries_used", JArr (JStr <$> queries_used));
             ("num_sources", JInt (Z.of_nat (length hits))) ] |})%res.

(** [f"Researcher {i + 1}"] *)
Definition agent_id_of (i : nat) : string := "Researcher " +:+ pretty (i + 1)%nat.

(** [ResearcherAgent(..., agent_id).research_subtopic(subtopic, main_topic)]
    for the researcher of index [i]. *)
Definition research_subtopic (w : world) (i : nat) (st : Subtopic)
    : result SubtopicFindings :=
  match sessions w i with
  | SessionRaises e => Raise e
  | SessionEnds hits final_message queries_used =>
      _parse_findings (agent_id_of i) st hits final_message queries_used
  end.

(** *** agents/synthesizer_agent.py *)

Definition source_of (s : json) : result Source :=
  (t <- py_get s "title" (JStr "") ;;
   u <- py_get s "url" (JStr "") ;;
   sn <- py_get s "snippet" (JStr "") ;;
   sc <- py_get s "score" JNull ;;
   wm <- py_get s "why_matters" (JStr "") ;;
   t <- as_str t ;;
   u <- as_str u ;;
   sn <- as_str sn ;;
   sc <- as_optional_float sc ;;
   wm <- as_optional_str wm ;;
   Ok {| title := t; url := u; snippet := sn; score := sc; why_matters := wm |})%res.

(** The loop that removes duplicates by URL. *)
Fixpoint unique_loop (all : list Source) (seen_urls : gset string)
    (unique_sources : list Source) : list Source :=
  match all with
  | [] => unique_sources
  | source :: rest =>
      if decide (url source ∈ seen_urls)
      then unique_loop rest seen_urls unique_sources
      else unique_loop rest ({[url source]} ∪ seen_urls) (unique_sources ++ [source])
  end.

(** All sources of all researchers, in order ([all_sources.extend]). *)
Definition collect_sources (findings : list SubtopicFindings) : list Source :=
  concat (sources <$> findings).

Definition unique_sources_of (findings : list SubtopicFindings) : list Source :=
  unique_loop (collect_sources findings) ∅ [].

Definition _build_report (topic_ : string) (findings : list SubtopicFindings)
    (result_data : json) : result MultiAgentReport :=
  (ins <- py_get result_data "overall_insights" (JArr []) ;;
   items <- py_iter ins ;;
   insights <- result_map key_finding_of items ;;
   top_sources_data <- py_get result_data "top_sources" (JArr []) ;;
   first5 <- py_slice_to 5 top_sources_data ;;
   items <- py_iter first5 ;;
   top <- result_map source_of items ;;
   let unique := unique_sources_of findings in
   es <- py_get result_data "executive_summary" (JStr "") ;;
   cp <- py_get result_data "consensus_points" (JArr []) ;;
   cg <- py_get result_data "conflicts_and_gaps" (JStr "") ;;
   es <- as_str es ;;
   cp <- as_list_str cp ;;
   cg <- as_str cg ;;
   Ok {| topic := topic_;
         subtopics := subtopic <$> findings;
         executive_summary := es;
         subtopic_findings := findings;
         overall_insights := insights;
         consensus_points := cp;
         conflicts_and_gaps := cg;
         all_sources := unique;
         top_sources := top;
         revision_count := 0;
         critic_review := None;
         report_metadata :=
           [ ("timestamp", JStr utcnow);
             ("model", JStr model);
             ("num_researchers", JInt (Z.of_nat (length findings)));
             ("total_sources", JInt (Z.of_nat (length unique))) ] |})%res.

Definition synthesize (topic_ : string) (findings : list SubtopicFindings)
    (style tone : string) : M MultiAgentReport :=
  (emit (Called Synthesize) ;;
   result_text <- chat SynthesizerRole ;;
   lift (result_data <- loads result_text ;;
         _build_report topic_ findings result_data)%res)%M.

Definition revise (report : MultiAgentReport) (instructions style tone : string)
    : M MultiAgentReport :=
  (emit (Called Revise) ;;
   result_text <- chat SynthesizerRole ;;
   lift (result_data <- loads result_text ;;
         revised <- _build_report (topic report) (subtopic_findings report)
                      result_data ;;
         Ok (set_revision_count (revision_count report + 1) revised))%res)%M.

(** *** agents/critic_agent.py *)

Definition issue_of (issue_data : json) : result CriticIssue :=
  (c <- py_get issue_data "category" (JStr "completeness") ;;
   sv <- py_get issue_data "severity" (JStr "moderate") ;;
   d <- py_get issue_data "description" (JStr "") ;;
   l <- py_get issue_data "location" (JStr "") ;;
   sg <- py_get issue_data "suggestion" (JStr "") ;;
   c <- as_str c ;;
   sv <- as_str sv ;;
   d <- as_str d ;;
   l <- as_str l ;;
   sg <- as_str sg ;;
   Ok {| category := c; severity := sv; issue_description := d;
         location := l; suggestion := sg |})%res.

Definition parse_review (result_data : json) : result CriticReview :=
  (found <- py_get result_data "issues_found" (JArr []) ;;
   items <- py_iter found ;;
   issues <- result_map issue_of items ;;
   d <- py_get result_data "decision" (JStr "APPROVED") ;;
   sc <- py_get result_data "overall_score" (JInt 7) ;;
   st <- py_get result_data "strengths" (JArr []) ;;
   ri <- py_get result_data "revision_instructions" (JStr "") ;;
   d <- as_str d ;;
   sc <- as_int sc ;;
   st <- as_list_str st ;;
   ri <- as_str ri ;;
   Ok {| decision := d; overall_score := sc; issues_found := issues;
         strengths := st; revision_instructions := ri;
         iteration := default_iteration |})%res.

Definition review (report : MultiAgentReport) : M CriticReview :=
  (emit (Called Review) ;;
   result_text <- chat CriticRole ;;
   lift (result_data <- loads result_text ;; parse_review result_data)%res)%M.

(** *** agents/orchestrator.py *)

Variable self : MultiAgentOrchestrator.

(** [self.critic.review(report)] *)
Definition critic_review_of (report : MultiAgentReport) : M CriticReview :=
  match critic self with
  | Some _ => review report
  | None => raise (Exn AttributeError "'NoneType' object has no attribute 'review'")
  end.

(** [0.8 + (0.15 * iteration / (self.max_revisions + 1))] *)
Definition critic_progress (i : Z) : Q :=
  (0.8 + 0.15 * inject_Z i / inject_Z (max_revisions self + 1))%Q.

(** The [while] loop of [_run_critic_loop].  [fuel] bounds the number of
    iterations still to run; [_run_critic_loop] starts it with
    [max_revisions] units, which the loop never exhausts while its condition
    holds (see [critic_loop_fuel]). *)
Fixpoint critic_loop (style tone : string) (callback : bool) (fuel : nat)
    (iteration_ : Z) (current_report : MultiAgentReport) : M MultiAgentReport :=
  if bool_decide (iteration_ < max_revisions self) then
    match fuel with
    | O => ret current_report
    | S fuel' =>
        let iteration_ := iteration_ + 1 in
        (update_progress callback (critic_progress iteration_)
           ("Critic reviewing report (iteration " +:+ pretty iteration_ +:+ ")...") ;;
         rv <- critic_review_of current_report ;;
         let rv := set_iteration iteration_ rv in
         if String.eqb (decision rv) "APPROVED" then
           let current_report := set_critic_review rv current_report in
           update_progress callback 0.95%Q
             ("Report approved by critic (score: " +:+ pretty (overall_score rv)
                +:+ "/10)") ;;
           ret current_report
         else if String.eqb (decision rv) "REVISION_NEEDED" then
           if bool_decide (iteration_ >= max_revisions self) then
             let current_report := set_critic_review rv current_report in
             update_progress callback 0.95%Q
               ("Max revisions reached. Final score: "
                  +:+ pretty (overall_score rv) +:+ "/10") ;;
             ret current_report
           else
             update_progress callback (critic_progress iteration_)
               "Revising report based on critic feedback..." ;;
             revised <- revise current_report (revision_instructions rv) style tone ;;
             critic_loop style tone callback fuel' iteration_ revised
         else critic_loop style tone callback fuel' iteration_ current_report)%M
    end
  else ret current_report.

Definition _run_critic_loop (report : MultiAgentReport) (style tone : string)
    (callback : bool) : M MultiAgentReport :=
  critic_loop style tone callback (Z.to_nat (max_revisions self)) 0 report.

(** The placeholder built in the [except] branch of the collection loop. *)
Definition error_finding (st : Subtopic) (e : exn) : SubtopicFindings :=
  {| subtopic := name st;
     summary := "Research failed: " +:+ exn_str e;
     key_insights := [];
     sources := [];
     researcher_notes := "Error during research: " +:+ exn_str e;
     metadata := [ ("error", JStr (exn_str e)) ] |}.

(** [executor.submit] for every subtopic: futures are named by their
    submission number, and [future_to_subtopic] maps each to its index and
    subtopic. *)
Fixpoint submit_from (i : nat) (subtopics_ : list Subtopic)
    (future_to_subtopic : gmap nat (nat * Subtopic))
    : M (gmap nat (nat * Subtopic)) :=
  match subtopics_ with
  | [] => ret future_to_subtopic
  | st :: rest =>
      (emit (Called (ResearchSubtopic i)) ;;
       submit_from (S i) rest (<[i := (i, st)]> future_to_subtopic))%M
  end.

(** [future.result()]: what the task submitted as future [i] did. *)
Definition future_result (i : nat) (st : Subtopic) : M (result SubtopicFindings) :=
  fun w => (Ok (research_subtopic w i st), w).

(** [0.2 + (0.6 * completed / len(subtopics))] *)
Definition research_progress (completed : Z) (n : nat) : Q :=
  (0.2 + 0.6 * inject_Z completed / inject_Z (Z.of_nat n))%Q.

(** The [for future in as_completed(future_to_subtopic)] loop.  The
    callback itself is taken not to raise. *)
Fixpoint collect (future_to_subtopic : gmap nat (nat * Subtopic)) (n : nat)
    (callback : bool) (as_completed : list nat)
    (findings : list (nat * SubtopicFindings)) (completed : Z)
    : M (list (nat * SubtopicFindings)) :=
  match as_completed with
  | [] => ret findings
  | future :: rest =>
      match future_to_subtopic !! future with
      | None => collect future_to_subtopic n callback rest findings completed
      | Some (idx, st) =>
          (r <- future_result future st ;;
           match r with
           | Ok res =>
               let findings := findings ++ [(idx, res)] in
               let completed := completed + 1 in
               update_progress callback (research_progress completed n)
                 ("Completed research on: " +:+ name st) ;;
               collect future_to_subtopic n callback rest findings completed
           | Raise e =>
               let findings := findings ++ [(idx, error_finding st e)] in
               let completed := completed + 1 in
               collect future_to_subtopic n callback rest findings completed
           end)%M
      end
  end.

(** [findings.sort(key=lambda x: x[0])]: a stable sort on the index. *)
Fixpoint insert_by_index {A} (x : nat * A) (l : list (nat * A)) : list (nat * A) :=
  match l with
  | [] => [x]
  | y :: l' =>
      if bool_decide (x.1 ≤ y.1)%nat then x :: y :: l'
      else y :: insert_by_index x l'
  end.

Fixpoint sort_by_index {A} (l : list (nat * A)) : list (nat * A) :=
  match l with
  | [] => []
  | x :: l' => insert_by_index x (sort_by_index l')
  end.

(** [as_completed] is the order in which the futures complete. *)
Definition _research_in_parallel (topic_ : string) (subtopics_ : list Subtopic)
    (callback : bool) (as_completed : list nat) : M (list SubtopicFindings) :=
  (future_to_subtopic <- submit_from 0 subtopics_ ∅ ;;
   findings <- collect future_to_subtopic (length subtopics_) callback
                 as_completed [] 0 ;;
   ret (snd <$> sort_by_index findings))%M.

Definition run (topic_ style tone : string) (callback : bool)
    (as_completed : list nat) : M MultiAgentReport :=
  (update_progress callback 0.1%Q "Analyzing topic and generating subtopics..." ;;
   a <- analyze_topic topic_ ;;
   let subtopics_ := analysis_subtopics a in
   match subtopics_ with
   | [] => raise (Exn ValueError "Topic splitter failed to generate subtopics")
   | _ :: _ =>
       update_progress callback 0.2%Q
         ("Generated " +:+ pretty (length subtopics_)
            +:+ " subtopics. Starting research...") ;;
       findings <- _research_in_parallel topic_ subtopics_ callback as_completed ;;
       update_progress callback 0.7%Q "Synthesizing findings into final report..." ;;
       report <- synthesize topic_ findings style tone ;;
       report <-
         (if enable_critic self && bool_decide (is_Some (critic self))
          then _run_critic_loop report style tone callback
          else ret report) ;;
       update_progress callback 1.0%Q "Research complete!" ;;
       ret report
   end)%M.

(** The [for i, subtopic in enumerate(subtopics)] loop of [run_sequential]. *)
Fixpoint research_each (callback : bool) (n i : nat) (subtopics_ : list Subtopic)
    (subtopic_findings_ : list SubtopicFindings) : M (list SubtopicFindings) :=
  match subtopics_ with
  | [] => ret subtopic_findings_
  | st :: rest =>
      (update_progress callback
         (0.2 + 0.6 * inject_Z (Z.of_nat i) / inject_Z (Z.of_nat n))%Q
         ("Researching: " +:+ name st) ;;
       emit (Called (ResearchSubtopic i)) ;;
       findings <- (fun w => (research_subtopic w i st, w)) ;;
       research_each callback n (S i) rest (subtopic_findings_ ++ [findings]))%M
  end.

Definition run_sequential (topic_ style tone : string) (callback : bool)
    : M MultiAgentReport :=
  (update_progress callback 0.1%Q "Analyzing topic..." ;;
   a <- analyze_topic topic_ ;;
   let subtopics_ := analysis_subtopics a in
   findings <- research_each callback (length subtopics_) 0 subtopics_ [] ;;
   update_progress callback 0.8%Q "Synthesizing..." ;;
   report <- synthesize topic_ findings style tone ;;
   update_progress callback 1.0%Q "Complete!" ;;
   ret report)%M.

(** *** agents/topic_splitter.py: [split_topic]

    The method the orchestrator does not call: the same request as
    [analyze_topic], of which only the subtopics are returned. *)

Definition parse_subtopics (result_data : json) : result (list Subtopic) :=
  (sts <- py_get result_data "subtopics" (JArr []) ;;
   items <- py_iter sts ;;
   result_map subtopic_of items)%res.

Definition split_topic (topic : string) : M (list Subtopic) :=
  (result_text <- chat SplitterRole ;;
   lift (result_data <- loads result_text ;; parse_subtopics result_data)%res)%M.

(** *** tools/web_search.py

    Search results are kept as the dicts the tool builds. *)

(** [os.getenv("TAVILY_API_KEY")] *)
Variable TAVILY_API_KEY : option string.

(** [TavilyClient(api_key).search(query=query, max_results=max_results,
    ...)]: the response, or the exception the client raises. *)
Variable client_search : string -> json -> json -> result json.

(** [x or y] on optional strings: [None] and the empty string are falsy. *)
Definition py_or (x y : option string) : option string :=
  match x with
  | Some s => if bool_decide (s = "") then y else x
  | None => y
  end.

(** [WebSearchTool.__init__]: the tool is given by the key it holds. *)
Definition new_WebSearchTool (api_key : option string) : result string :=
  match py_or api_key TAVILY_API_KEY with
  | Some k =>
      if bool_decide (k = "")
      then Raise (Exn ValueError "TAVILY_API_KEY not found in environment variables")
      else Ok k
  | None => Raise (Exn ValueError "TAVILY_API_KEY not found in environment variables")
  end.

(** The dict built for one entry of the response. *)
Definition search_result_of (item : json) : result json :=
  (t <- py_get item "title" (JStr "") ;;
   u <- py_get item "url" (JStr "") ;;
   c <- py_get item "content" (JStr "") ;;
   s <- py_get item "score" (JFloat 0) ;;
   Ok (JObj [("title", t); ("url", u); ("snippet", c); ("score", s)]))%res.

(** [WebSearchTool.search]: the [try] block and its [except Exception]. *)
Definition search (tool : string) (query max_results : json) : result (list json) :=
  match (response <- client_search tool query max_results ;;
         results <- py_get response "results" (JArr []) ;;
         items <- py_iter results ;;
         result_map search_result_of items)%res with
  | Ok results => Ok results
  | Raise e => Raise (Exn RuntimeError ("Web search failed: " +:+ exn_str e))
  end.

(** [web_search(query, k)] *)
Definition web_search (query k : json) : result (list json) :=
  (tool <- new_WebSearchTool None ;; search tool query k)%res.

(** *** agents/researcher_agent.py: the tool loop of [research_subtopic] *)

(** The [for tool_call in response.choices[0].message.tool_calls] loop. *)
Fixpoint call_tools (max_sources : Z) (tcs : list tool_call)
    (all_sources queries_used : list json) : result (list json * list json) :=
  match tcs with
  | [] => Ok (all_sources, queries_used)
  | tc :: rest =>
      if String.eqb (function_name tc) "web_search" then
        (args <- loads (function_arguments tc) ;;
         query <- py_get args "query" JNull ;;
         k <- py_get args "k" (JInt max_sources) ;;
         let queries_used := queries_used ++ [query] in
         search_results <- web_search query k ;;
         call_tools max_sources rest (all_sources ++ search_results) queries_used)%res
      else call_tools max_sources rest all_sources queries_used
  end.

(** The [while response.choices[0].message.tool_calls] loop.  [pending]
    holds the completions the model still gives; a request when none is left
    fails. *)
Fixpoint agent_loop (max_sources : Z) (pending : list completion)
    (response : completion) (all_sources queries_used : list json)
    : result (list json * list json * string) :=
  match tool_calls response with
  | [] => Ok (all_sources, queries_used, content response)
  | _ :: _ =>
      match call_tools max_sources (tool_calls response) all_sources queries_used with
      | Raise e => Raise e
      | Ok (all_sources, queries_used) =>
          match pending with
          | [] => Raise (Exn APIError "the completion request failed")
          | response :: pending =>
              agent_loop max_sources pending response all_sources queries_used
          end
      end
  end.

(** [research_subtopic] up to the call of [_parse_findings]: the sources
    collected, the queries used and the final message. *)
Definition research_session (max_sources : Z) (completions : list completion)
    : result (list json * list json * string) :=
  match completions with
  | [] => Raise (Exn APIError "the completion request failed")
  | response :: pending => agent_loop max_sources pending response [] []
  end.

(** ** Specifications *)

(** The deduplication as the specification words it: each source is kept
    unless an earlier source has the same URL. *)
Fixpoint dedup_by_url_spec (l : list Source) : list Source :=
  match l with
  | [] => []
  | s :: rest => s :: filter (fun x => url x ≠ url s) (dedup_by_url_spec rest)
  end.

(** The first source of [l] that carries the URL [u]. *)
Definition first_with_url (u : string) (l : list Source) : option Source :=
  snd <$> list_find (fun x => url x = u) l.

(** What the collection loop stores for future [i]: the researcher's value,
    or the error placeholder when the task raised. *)
Definition finding_of (w : world) (i : nat) (st : Subtopic) : SubtopicFindings :=
  match research_subtopic w i st with
  | Ok res => res
  | Raise e => error_finding st e
  end.

(** A reply from which [review] builds a review with decision [d]. *)
Definition review_reply (d : string) (text : string) : Prop :=
  ∃ data rv, json_loads text = Some data ∧ parse_review data = Ok rv ∧ decision rv = d.

(** A reply from which the synthesizer builds a report. *)
Definition synthesis_reply (text : string) : Prop :=
  ∃ data, json_loads text = Some data ∧ is_ok (_build_report "" [] data) = true.

(** [grow l w]: the world [w] after the events [l] were observed. *)
Definition grow (l : list event) (w : world) : world := set_trace (trace w ++ l) w.

(** The order the findings are sorted by. *)
Definition index_le {A} (x y : nat * A) : Prop := (x.1 ≤ y.1)%nat.

Definition is_progress (e : event) : Prop :=
  match e with Progress _ _ => True | Called _ => False end.

(** The events of submitting the researchers [i], ..., [i + n - 1]. *)
Definition submissions (i n : nat) : list event :=
  (fun k => Called (ResearchSubtopic k)) <$> seq i n.

(** The entry the collection loop appends for a completed future. *)
Definition collected (futures : gmap nat (nat * Subtopic)) (w : world)
    (future : nat) : option (nat * SubtopicFindings) :=
  (fun p => (p.1, finding_of w future p.2)) <$> futures !! future.

(** The progress events of the critic loop, when a callback was supplied. *)
Definition reviewing (callback : bool) (i : Z) : list event :=
  if callback
  then [Progress (critic_progress i)
          ("Critic reviewing report (iteration " +:+ pretty i +:+ ")...")]
  else [].

Definition revising (callback : bool) (i : Z) : list event :=
  if callback
  then [Progress (critic_progress i) "Revising report based on critic feedback..."]
  else [].

Definition approved (callback : bool) (rv : CriticReview) : list event :=
  if callback
  then [Progress 0.95%Q
          ("Report approved by critic (score: " +:+ pretty (overall_score rv)
             +:+ "/10)")]
  else [].

Definition exhausted (callback : bool) (rv : CriticReview) : list event :=
  if callback
  then [Progress 0.95%Q
          ("Max revisions reached. Final score: " +:+ pretty (overall_score rv)
             +:+ "/10")]
  else [].

(** ** Replies with missing fields: a reply of the expected shape in which
    any field may be missing, at any level; the fields that are present
    carry values of their type. *)

Definition field {A} (key : string) (enc : A -> json) (v : option A)
    : list (string * json) :=
  match v with
  | Some x => [(key, enc x)]
  | None => []
  end.

Definition JStrs (l : list string) : json := JArr (JStr <$> l).

Record insight_fields := {
  ins_finding : option string;
  ins_citations : option (list string) }.

Definition insight_json (p : insight_fields) : json :=
  JObj (field "finding" JStr (ins_finding p)
        ++ field "citations" JStrs (ins_citations p)).

Definition insight_filled (p : insight_fields) : KeyFinding :=
  {| finding := default "" (ins_finding p);
     citations := default [] (ins_citations p) |}.

Record subtopic_fields := {
  st_name : option string;
  st_description : option string;
  st_search_queries : option (list string) }.

Definition subtopic_json (p : subtopic_fields) : json :=
  JObj (field "name" JStr (st_name p)
        ++ field "description" JStr (st_description p)
        ++ field "search_queries" JStrs (st_search_queries p)).

Definition subtopic_filled (p : subtopic_fields) : Subtopic :=
  {| name := default "" (st_name p);
     description := default "" (st_description p);
     search_queries := default [] (st_search_queries p) |}.

Record splitter_fields := {
  sp_analysis : option string;
  sp_subtopics : option (list subtopic_fields) }.

Definition splitter_json (p : splitter_fields) : json :=
  JObj (field "main_topic_analysis" JStr (sp_analysis p)
        ++ field "subtopics" (fun l => JArr (subtopic_json <$> l)) (sp_subtopics p)).

Definition splitter_filled (p : splitter_fields) : analysis :=
  {| main_topic_analysis := JStr (default "" (sp_analysis p));
     analysis_subtopics := subtopic_filled <$> default [] (sp_subtopics p) |}.

Record source_fields := {
  src_title : option string;
  src_url : option string;
  src_snippet : option string;
  src_score : option Q;
  src_why_matters : option string }.

Definition source_json (p : source_fields) : json :=
  JObj (field "title" JStr (src_title p)
        ++ field "url" JStr (src_url p)
        ++ field "snippet" JStr (src_snippet p)
        ++ field "score" JFloat (src_score p)
        ++ field "why_matters" JStr (src_why_matters p)).

Definition source_filled (p : source_fields) : Source :=
  {| title := default "" (src_title p);
     url := default "" (src_url p);
     snippet := default "" (src_snippet p);
     score := src_score p;
     why_matters := Some (default "" (src_why_matters p)) |}.

Record synthesis_fields := {
  syn_executive_summary : option string;
  syn_overall_insights : option (list insight_fields);
  syn_consensus_points : option (list string);
  syn_conflicts_and_gaps : option string;
  syn_top_sources : option (list source_fields) }.

Definition synthesis_json (p : synthesis_fields) : json :=
  JObj (field "executive_summary" JStr (syn_executive_summary p)
        ++ field "overall_insights" (fun l => JArr (insight_json <$> l))
             (syn_overall_insights p)
        ++ field "consensus_points" JStrs (syn_consensus_points p)
        ++ field "conflicts_and_gaps" JStr (syn_conflicts_and_gaps p)
        ++ field "top_sources" (fun l => JArr (source_json <$> l))
             (syn_top_sources p)).

Definition synthesis_filled (topic_ : string) (findings : list SubtopicFindings)
    (p : synthesis_fields) : MultiAgentReport :=
  {| topic := topic_;
     subtopics := subtopic <$> findings;
     executive_summary := default "" (syn_executive_summary p);
     subtopic_findings := findings;
     overall_insights := insight_filled <$> default [] (syn_overall_insights p);
     consensus_points := default [] (syn_consensus_points p);
     conflicts_and_gaps := default "" (syn_conflicts_and_gaps p);
     all_sources := unique_sources_of findings;
     top_sources := source_filled <$> take 5 (default [] (syn_top_sources p));
     revision_count := 0;
     critic_review := None;
     report_metadata :=
       [ ("timestamp", JStr utcnow);
         ("model", JStr model);
         ("num_researchers", JInt (Z.of_nat (length findings)));
         ("total_sources", JInt (Z.of_nat (length (unique_sources_of findings)))) ] |}.

Record issue_fields := {
  iss_category : option string;
  iss_severity : option string;
  iss_description : option string;
  iss_location : option string;
  iss_suggestion : option string }.

Definition issue_json (p : issue_fields) : json :=
  JObj (field "category" JStr (iss_category p)
        ++ field "severity" JStr (iss_severity p)
        ++ field "description" JStr (iss_description p)
        ++ field "location" JStr (iss_location p)
        ++ field "suggestion" JStr (iss_suggestion p)).

Definition issue_filled (p : issue_fields) : CriticIssue :=
  {| category := default "completeness" (iss_category p);
     severity := default "moderate" (iss_severity p);
     issue_description := default "" (iss_description p);
     location := default "" (iss_location p);
     suggestion := default "" (iss_suggestion p) |}.

Record review_fields := {
  rev_decision : option string;
  rev_overall_score : option Z;
  rev_issues_found : option (list issue_fields);
  rev_strengths : option (list string);
  rev_revision_instructions : option string }.

Definition review_json (p : review_fields) : json :=
  JObj (field "decision" JStr (rev_decision p)
        ++ field "overall_score" JInt (rev_overall_score p)
        ++ field "issues_found" (fun l => JArr (issue_json <$> l))
             (rev_issues_found p)
        ++ field "strengths" JStrs (rev_strengths p)
        ++ field "revision_instructions" JStr (rev_revision_instructions p)).

Definition review_filled (p : review_fields) : CriticReview :=
  {| decision := default "APPROVED" (rev_decision p);
     overall_score := default 7 (rev_overall_score p);
     issues_found := issue_filled <$> default [] (rev_issues_found p);
     strengths := default [] (rev_strengths p);
     revision_instructions := default "" (rev_revision_instructions p);
     iteration := default_iteration |}.

Record research_fields := {
  res_summary : option string;
  res_key_insights : option (list insight_fields);
  res_researcher_notes : option string }.

Definition research_json (p : research_fields) : json :=
  JObj (field "summary" JStr (res_summary p)
        ++ field "key_insights" (fun l => JArr (insight_json <$> l))
             (res_key_insights p)
        ++ field "researcher_notes" JStr (res_researcher_notes p)).

(** The findings of a researcher whose final message carries the fields
    [p] ([p] without any field when the message is not JSON). *)
Definition research_filled (agent_id : string) (st : Subtopic)
    (hits : list search_hit) (analysis_text : string)
    (queries_used : list string) (p : research_fields) : SubtopicFindings :=
  {| subtopic := name st;
     summary :=
       default (if bool_decide (analysis_text = "")
                then "Research on " +:+ name st
                else String.substring 0 500 analysis_text) (res_summary p);
     key_insights :=
       match insight_filled <$> default [] (res_key_insights p), hits with
       | [], _ :: _ =>
           [ {| finding := default ("Research findings on " +:+ name st)
                             (res_summary p);
                citations := hit_url <$> take 3 hits |} ]
       | parsed, _ => parsed
       end;
     sources := source_of_hit <$> hits;
     researcher_notes := default "" (res_researcher_notes p);
     metadata :=
       [ ("timestamp", JStr utcnow);
         ("agent_id", JStr agent_id);
         ("model", JStr model);
         ("queries_used", JArr (JStr <$> queries_used));
         ("num_sources", JInt (Z.of_nat (length hits))) ] |}.

Definition no_fields : research_fields :=
  {| res_summary := None; res_key_insights := None; res_researcher_notes := None |}.

(** The final message holds no brace span, or a span the decoder rejects. *)
Definition not_json (analysis_text : string) : Prop :=
  let json_start := str_find open_brace analysis_text in
  let json_end := str_rfind close_brace analysis_text + 1 in
  json_start = -1 ∨ json_end <= json_start
  ∨ json_loads (str_slice json_start json_end analysis_text) = None.

(** A reply from which [review] builds a review whose decision is neither
    of the two the loop knows. *)
Definition unknown_review_reply (text : string) : Prop :=
  ∃ data rv, json_loads text = Some data ∧ parse_review data = Ok rv
             ∧ decision rv ≠ "APPROVED" ∧ decision rv ≠ "REVISION_NEEDED".

(** The calls the critic loop makes. *)
Definition critic_call (c : call) : Prop := c = Review ∨ c = Revise.

(** What every report built by the synthesizer satisfies. *)
Definition built_report (r : MultiAgentReport) : Prop :=
  subtopics r = subtopic <$> subtopic_findings r
  ∧ all_sources r = unique_sources_of (subtopic_findings r)
  ∧ (length (top_sources r) ≤ 5)%nat.


(** The dicts [WebSearchTool.search] returns: the four keys, in this order. *)
Definition search_result_shape (r : json) : Prop :=
  ∃ t u c s, r = JObj [("title", t); ("url", u); ("snippet", c); ("score", s)].

(** What [search] builds from the entry [item] of a response. *)
Definition search_result_for (item r : json) : Prop :=
  ∃ fields,
    item = JObj fields
    ∧ r = JObj [ ("title", default (JStr "") (assoc "title" fields));
                 ("url", default (JStr "") (assoc "url" fields));
                 ("snippet", default (JStr "") (assoc "content" fields));
                 ("score", default (JFloat 0) (assoc "score" fields)) ].

(** The tool calls the researcher answers with a search. *)
Definition web_search_calls (tcs : list tool_call) : list tool_call :=
  filter (fun tc => function_name tc = "web_search") tcs.

(** The progress the sequential loop reports before subtopic [i] of [n]. *)
Definition sequential_progress (n i : nat) : Q :=
  (0.2 + 0.6 * inject_Z (Z.of_nat i) / inject_Z (Z.of_nat n))%Q.

(** Everything a sequential run over [n] subtopics reports when it runs to
    its end. *)
Definition sequential_progress_values (n : nat) : list Q :=
  0.1%Q :: (sequential_progress n <$> seq 0 n) ++ [0.8%Q; 1.0%Q].

(** A progress value between 0 and 1. *)
Definition unit_interval (p : Q) : Prop := (0 <= p)%Q ∧ (p <= 1)%Q.

(** ** Results about the monads *)

Lemma result_bind_ok {A B} (r : result A) (k : A -> result B) b :
  result_bind r k = Ok b -> ∃ a, r = Ok a ∧ k a = Ok b.
Proof. destruct r as [a|e]; simpl; [eauto | discriminate]. Qed.

Lemma bind_ok {A B} (m : M A) (k : A -> M B) w b w' :
  bind m k w = (Ok b, w') -> ∃ a w1, m w = (Ok a, w1) ∧ k a w1 = (Ok b, w').
Proof.
  unfold bind. destruct (m w) as [[a|e] w1]; [eauto | discriminate].
Qed.

Lemma result_map_length {A B} (f : A -> result B) l bs :
  result_map f l = Ok bs -> length bs = length l.
Proof.
  revert bs. induction l as [|a l IH]; intros bs; simpl.
  - by intros [= <-].
  - destruct (f a); simpl; [|discriminate].
    destruct (result_map f l); simpl; [|discriminate].
    intros [= <-]. simpl. by rewrite (IH _ eq_refl).
Qed.

(** ** Deduplication of sources *)

(** The loop computes the specification, whatever has been seen so far. *)
Lemma unique_loop_spec (all : list Source) (seen : gset string) (acc : list Source) :
  unique_loop all seen acc
  = acc ++ filter (fun x => url x ∉ seen) (dedup_by_url_spec all).
Proof.
  revert seen acc. induction all as [|s rest IH]; intros seen acc; simpl.
  - by rewrite app_nil_r.
  - destruct (decide (url s ∈ seen)) as [Hin|Hin].
    + rewrite IH, filter_cons. destruct (decide (url s ∉ seen)); [done|].
      f_equal. symmetry. apply list_filter_filter_l. intros x Hx Heq. by rewrite Heq in Hx.
    + rewrite IH, filter_cons. destruct (decide (url s ∉ seen)); [|done].
      rewrite <- app_assoc. simpl. do 2 f_equal.
      rewrite list_filter_filter. apply list_filter_iff. intros x.
      rewrite not_elem_of_union, not_elem_of_singleton. by split; intros [? ?].
Qed.

Lemma unique_sources_of_spec findings :
  unique_sources_of findings = dedup_by_url_spec (collect_sources findings).
Proof.
  unfold unique_sources_of. rewrite unique_loop_spec. simpl.
  induction (dedup_by_url_spec (collect_sources findings)) as [|x l IH]; [done|].
  rewrite filter_cons. destruct (decide (url x ∉ (∅ : gset string))) as [_|Hx].
  - by rewrite IH.
  - destruct Hx. set_solver.
Qed.

Lemma dedup_spec_urls l u :
  u ∈ url <$> dedup_by_url_spec l ↔ u ∈ url <$> l.
Proof.
  induction l as [|s rest IH]; [done|]. simpl.
  rewrite !elem_of_cons, <- IH. rewrite !list_elem_of_fmap.
  split.
  - intros [->|(x & -> & Hx)]; [by left|]. apply list_elem_of_filter in Hx as [_ Hx].
    right. eauto.
  - intros [->|(x & -> & Hx)]; [by left|].
    destruct (decide (url x = url s)) as [->|Hne]; [by left|].
    right. exists x. split; [done|]. apply list_elem_of_filter. done.
Qed.

Lemma dedup_spec_NoDup l : NoDup (url <$> dedup_by_url_spec l).
Proof.
  induction l as [|s rest IH]; simpl; [constructor|].
  constructor.
  - rewrite list_elem_of_fmap. intros (x & Hu & Hx).
    apply list_elem_of_filter in Hx as [Hne _]. by apply Hne.
  - revert IH. generalize (dedup_by_url_spec rest). intros l' Hl'.
    induction l' as [|y l' IHl']; [constructor|].
    rewrite filter_cons. simpl in Hl'. apply NoDup_cons in Hl' as [Hy Hl'].
    destruct (decide (url y ≠ url s)); [|by auto].
    simpl. constructor; [|by auto].
    rewrite list_elem_of_fmap. intros (x & Hu & Hx).
    apply list_elem_of_filter in Hx as [_ Hx]. apply Hy.
    rewrite list_elem_of_fmap. eauto.
Qed.

Lemma dedup_spec_sublist l : sublist (dedup_by_url_spec l) l.
Proof.
  induction l as [|s rest IH]; simpl; [constructor|].
  constructor. etrans; [apply sublist_filter|done].
Qed.

Lemma first_with_url_cons u s l :
  first_with_url u (s :: l)
  = if decide (url s = u) then Some s else first_with_url u l.
Proof.
  unfold first_with_url. simpl. destruct (decide (url s = u)); [done|].
  destruct (list_find _ l) as [[i x]|]; done.
Qed.

Lemma first_with_url_filter u v l :
  u ≠ v ->
  first_with_url u (filter (fun x => url x ≠ v) l) = first_with_url u l.
Proof.
  intros Hne. induction l as [|s l IH]; [done|].
  rewrite filter_cons. destruct (decide (url s ≠ v)) as [Hs|Hs].
  - rewrite !first_with_url_cons. by destruct (decide (url s = u)).
  - rewrite first_with_url_cons. destruct (decide (url s = u)) as [Heq|]; [|done].
    destruct Hs. congruence.
Qed.

Lemma dedup_spec_first l u :
  first_with_url u (dedup_by_url_spec l) = first_with_url u l.
Proof.
  induction l as [|s rest IH]; [done|]. simpl.
  rewrite !first_with_url_cons. destruct (decide (url s = u)) as [|Hne]; [done|].
  rewrite first_with_url_filter; [done|congruence].
Qed.

Lemma build_report_fields topic_ findings data r :
  _build_report topic_ findings data = Ok r ->
  topic r = topic_ ∧ subtopic_findings r = findings
  ∧ subtopics r = subtopic <$> findings
  ∧ all_sources r = unique_sources_of findings
  ∧ revision_count r = 0 ∧ critic_review r = None.
Proof.
  unfold _build_report. intros H.
  repeat (apply result_bind_ok in H as (? & _ & H)).
  injection H as <-. done.
Qed.

(** C4: the report built by the synthesizer lists, as [all_sources], the
    sources of all findings in order with duplicates removed by URL: it is
    the specification's deduplication, no two entries share a URL, every URL
    of the findings is present, the encounter order is preserved, and the
    entry kept for a URL is the first source that carries it. *)
Theorem build_report_all_sources topic_ findings data r :
  _build_report topic_ findings data = Ok r ->
  all_sources r = dedup_by_url_spec (collect_sources findings)
  ∧ NoDup (url <$> all_sources r)
  ∧ (∀ u, u ∈ url <$> all_sources r ↔ u ∈ url <$> collect_sources findings)
  ∧ sublist (all_sources r) (collect_sources findings)
  ∧ (∀ u, first_with_url u (all_sources r)
          = first_with_url u (collect_sources findings)).
Proof.
  intros H. apply build_report_fields in H as (_ & _ & _ & -> & _).
  rewrite unique_sources_of_spec. split; [done|].
  split; [apply dedup_spec_NoDup|].
  split; [apply dedup_spec_urls|].
  split; [apply dedup_spec_sublist|apply dedup_spec_first].
Qed.

(** ** The world: what a computation may change *)

Lemma grow_nil w : grow [] w = w.
Proof. destruct w. unfold grow, set_trace. simpl. by rewrite app_nil_r. Qed.

Lemma grow_grow l1 l2 w : grow l2 (grow l1 w) = grow (l1 ++ l2) w.
Proof. unfold grow, set_trace. simpl. by rewrite app_assoc. Qed.

Lemma emit_grow e w : emit e w = (Ok tt, grow [e] w).
Proof. done. Qed.

Lemma update_progress_grow callback p message w :
  update_progress callback p message w
  = (Ok tt, grow (if callback then [Progress p message] else []) w).
Proof. destruct callback; simpl; [done|]. by rewrite grow_nil. Qed.

Lemma research_subtopic_sessions w1 w2 i st :
  sessions w1 = sessions w2 -> research_subtopic w1 i st = research_subtopic w2 i st.
Proof. unfold research_subtopic. by intros ->. Qed.

Lemma finding_of_sessions w1 w2 i st :
  sessions w1 = sessions w2 -> finding_of w1 i st = finding_of w2 i st.
Proof. unfold finding_of. intros H. by rewrite (research_subtopic_sessions _ _ _ _ H). Qed.

Lemma calls_app t1 t2 : calls (t1 ++ t2) = calls t1 ++ calls t2.
Proof. apply omap_app. Qed.

Lemma count_calls_app c t1 t2 :
  count_calls c (t1 ++ t2) = (count_calls c t1 + count_calls c t2)%nat.
Proof. unfold count_calls. by rewrite calls_app, filter_app, length_app. Qed.

Lemma progress_values_app t1 t2 :
  progress_values (t1 ++ t2) = progress_values t1 ++ progress_values t2.
Proof. apply omap_app. Qed.

(** ** Sorting by index *)

Lemma insert_by_index_perm {A} (x : nat * A) l : insert_by_index x l ≡ₚ x :: l.
Proof.
  induction l as [|y l IH]; simpl; [done|].
  case_bool_decide; [done|]. rewrite IH. apply Permutation_swap.
Qed.

Lemma sort_by_index_perm {A} (l : list (nat * A)) : sort_by_index l ≡ₚ l.
Proof.
  induction l as [|x l IH]; simpl; [done|].
  by rewrite insert_by_index_perm, IH.
Qed.

Lemma insert_by_index_sorted {A} (x : nat * A) l :
  Sorted index_le l -> Sorted index_le (insert_by_index x l).
Proof.
  induction 1 as [|y l Hl IH Hy]; simpl.
  - by repeat constructor.
  - case_bool_decide as Hxy.
    + constructor; [by constructor|by constructor].
    + constructor; [done|].
      destruct Hy as [|z l Hyz]; simpl.
      * constructor. unfold index_le. lia.
      * case_bool_decide; constructor; [|done]. unfold index_le. lia.
Qed.

Lemma sort_by_index_sorted {A} (l : list (nat * A)) :
  StronglySorted index_le (sort_by_index l).
Proof.
  apply Sorted_StronglySorted.
  - intros x y z. unfold index_le. lia.
  - induction l as [|x l IH]; simpl; [constructor|].
    by apply insert_by_index_sorted.
Qed.

(** Sorting a permutation of an index-sorted list without repeated indices
    gives that list back. *)
Lemma sort_by_index_unique {A} (l sorted : list (nat * A)) :
  l ≡ₚ sorted -> StronglySorted index_le sorted -> NoDup sorted.*1 ->
  sort_by_index l = sorted.
Proof.
  intros Hperm Hsorted Hnodup.
  apply (StronglySorted_unique_strong index_le).
  - intros x1 x2 Hx1 Hx2 H12 H21.
    rewrite sort_by_index_perm, Hperm in Hx1.
    assert (x1.1 = x2.1) as Hkey by (unfold index_le in *; lia).
    clear -Hx1 Hx2 Hkey Hnodup.
    induction sorted as [|y l' IH]; [by apply elem_of_nil in Hx1|].
    simpl in Hnodup. apply NoDup_cons in Hnodup as [Hy Hl'].
    apply elem_of_cons in Hx1 as [->|Hx1]; apply elem_of_cons in Hx2 as [->|Hx2].
    + done.
    + destruct Hy. rewrite Hkey. by apply list_elem_of_fmap_2.
    + destruct Hy. rewrite <- Hkey. by apply list_elem_of_fmap_2.
    + by apply IH.
  - apply sort_by_index_sorted.
  - done.
  - by rewrite sort_by_index_perm.
Qed.

Lemma imap_index_sorted {A B} (f : nat -> A -> B) (l : list A) k :
  StronglySorted index_le (imap (fun i x => ((k + i)%nat, f (k + i)%nat x)) l)
  ∧ (imap (fun i x => ((k + i)%nat, f (k + i)%nat x)) l).*1 = seq k (length l).
Proof.
  revert k. induction l as [|x l IH]; intros k; simpl; [by split; constructor|].
  destruct (IH (S k)) as [Hs Hk].
  assert (imap ((fun i x => ((k + i)%nat, f (k + i)%nat x)) ∘ S) l
          = imap (fun i x => ((S k + i)%nat, f (S k + i)%nat x)) l) as Heq.
  { apply imap_ext. intros i y _. simpl. by rewrite Nat.add_succ_r. }
  rewrite Heq. split.
  - constructor; [done|]. apply Forall_forall. intros [j b] Hin.
    apply (list_elem_of_fmap_2 fst) in Hin. rewrite Hk in Hin.
    apply elem_of_seq in Hin. unfold index_le. simpl in *. lia.
  - rewrite Nat.add_0_r. simpl. f_equal. exact Hk.
Qed.

(** ** Parallel research *)

Lemma submit_from_spec (sts : list Subtopic) i m0 w :
  ∃ m, submit_from i sts m0 w = (Ok m, grow (submissions i (length sts)) w)
       ∧ (∀ k st, sts !! k = Some st -> m !! (i + k)%nat = Some ((i + k)%nat, st))
       ∧ (∀ j, (j < i)%nat -> m !! j = m0 !! j).
Proof.
  revert i m0 w. induction sts as [|st rest IH]; intros i m0 w; simpl.
  - exists m0. unfold submissions. simpl. rewrite grow_nil. by split.
  - unfold bind. rewrite emit_grow.
    destruct (IH (S i) (<[i:=(i, st)]> m0) (grow [Called (ResearchSubtopic i)] w))
      as (m & Hrun & Hin & Hout).
    exists m. rewrite Hrun, grow_grow. split; [done|]. split.
    + intros [|k] st' Hk; simpl in Hk.
      * injection Hk as <-. rewrite Nat.add_0_r, Hout by lia.
        apply lookup_insert_eq.
      * rewrite Nat.add_succ_r. by apply (Hin k).
    + intros j Hj. rewrite Hout by lia. apply lookup_insert_ne. lia.
Qed.

Lemma collect_spec futures n callback as_completed acc completed w :
  ∃ l, collect futures n callback as_completed acc completed w
       = (Ok (acc ++ omap (collected futures w) as_completed), grow l w)
       ∧ Forall is_progress l.
Proof.
  revert acc completed w.
  induction as_completed as [|future rest IH]; intros acc completed w; simpl.
  - exists []. rewrite grow_nil, app_nil_r. by split.
  - unfold collected at 1. destruct (futures !! future) as [[idx st]|] eqn:Hf; simpl.
    + unfold bind, future_result, finding_of.
      destruct (research_subtopic w future st) as [res|e] eqn:Hres.
      * rewrite update_progress_grow.
        match goal with |- context [grow ?l0 w] => set (l1 := l0) end.
        destruct (IH (acc ++ [(idx, res)]) (completed + 1) (grow l1 w))
          as (l & Hrun & Hl).
        exists (l1 ++ l). rewrite Hrun, grow_grow, <- app_assoc. split.
        -- done.
        -- apply Forall_app. split; [|done]. subst l1.
           destruct callback; by repeat constructor.
      * destruct (IH (acc ++ [(idx, error_finding st e)]) (completed + 1) w)
          as (l & Hrun & Hl).
        exists l. rewrite Hrun, <- app_assoc. by split.
    + apply IH.
Qed.

Lemma collected_in_order (sts : list Subtopic) futures w :
  (∀ k st, sts !! k = Some st -> futures !! k = Some (k, st)) ->
  omap (collected futures w) (seq 0 (length sts))
  = imap (fun i st => (i, finding_of w i st)) sts.
Proof.
  induction sts as [|st sts IH] using rev_ind; intros Hf; [done|].
  rewrite length_app, seq_app, omap_app, imap_app. simpl. f_equal.
  - apply IH. intros k st' Hk. apply Hf. by apply lookup_app_l_Some.
  - unfold collected. rewrite (Hf (length sts) st); [|by apply list_lookup_middle].
    simpl. by rewrite Nat.add_0_r.
Qed.

(** Whatever the completion order, the batch returns the findings of the
    subtopics in the order of the subtopics. *)
Lemma research_in_parallel_spec topic_ (sts : list Subtopic) callback as_completed w :
  as_completed ≡ₚ seq 0 (length sts) ->
  ∃ l, _research_in_parallel topic_ sts callback as_completed w
       = (Ok (imap (finding_of w) sts), grow l w)
       ∧ Forall (fun e => is_progress e ∨ ∃ i, e = Called (ResearchSubtopic i)) l.
Proof.
  intros Hperm. unfold _research_in_parallel, bind.
  destruct (submit_from_spec sts 0 ∅ w) as (m & -> & Hin & _).
  set (w1 := grow (submissions 0 (length sts)) w).
  destruct (collect_spec m (length sts) callback as_completed [] 0 w1)
    as (l & -> & Hl).
  exists (submissions 0 (length sts) ++ l). unfold ret, w1. rewrite grow_grow.
  split.
  - do 2 f_equal. simpl. fold w1.
    assert (omap (collected m w1) as_completed
            ≡ₚ imap (fun i st => (i, finding_of w i st)) sts) as Hp.
    { rewrite Hperm, (collected_in_order sts m w1) by done.
      erewrite imap_ext; [done|]. intros i st _. simpl.
      by rewrite (finding_of_sessions w1 w). }
    destruct (imap_index_sorted (finding_of w) sts 0) as [Hs Hk]. simpl in Hs, Hk.
    rewrite (sort_by_index_unique _ _ Hp Hs); [|rewrite Hk; apply NoDup_seq].
    rewrite fmap_imap. by apply imap_ext.
  - apply Forall_app. split.
    + unfold submissions. apply Forall_fmap, Forall_forall. intros i _. right. eauto.
    + eapply Forall_impl; [done|]. intros e He. by left.
Qed.

Lemma finding_of_subtopic w i st : subtopic (finding_of w i st) = name st.
Proof.
  unfold finding_of, research_subtopic.
  destruct (sessions w i) as [e|hits msg qs]; [done|].
  destruct (_parse_findings _ _ _ _ _) as [res|e] eqn:H; [|done].
  unfold _parse_findings in H.
  repeat (apply result_bind_ok in H as (? & _ & H)).
  by injection H as <-.
Qed.

(** C3 (as amended): when the researcher task of one subtopic raises, the
    batch still returns (it raises nothing) a list as long as the batch,
    whose entry for that subtopic is a placeholder with no sources, no key
    insights and a metadata dict that consists of the error entry, holding
    the text of the exception: the entry is always there, and it is empty
    exactly when the exception carries no text; the entry of every subtopic
    whose researcher returned is exactly the value returned. *)
Theorem research_in_parallel_contains_failure topic_ (sts : list Subtopic)
    callback as_completed w k st e :
  as_completed ≡ₚ seq 0 (length sts) ->
  sts !! k = Some st ->
  research_subtopic w k st = Raise e ->
  ∃ fs w',
    _research_in_parallel topic_ sts callback as_completed w = (Ok fs, w')
    ∧ length fs = length sts
    ∧ (∃ f, fs !! k = Some f
            ∧ subtopic f = name st
            ∧ sources f = [] ∧ key_insights f = []
            ∧ metadata f = [("error", JStr (exn_str e))]
            ∧ assoc "error" (metadata f) = Some (JStr (exn_str e))
            ∧ (assoc "error" (metadata f) = Some (JStr "") ↔ exn_str e = ""))
    ∧ (∀ j stj v, sts !! j = Some stj -> research_subtopic w j stj = Ok v ->
                  fs !! j = Some v).
Proof.
  intros Hperm Hk He.
  destruct (research_in_parallel_spec topic_ sts callback as_completed w Hperm)
    as (l & Hrun & _).
  exists (imap (finding_of w) sts), (grow l w).
  split; [done|]. split; [apply length_imap|]. split.
  - exists (error_finding st e). rewrite list_lookup_imap, Hk. simpl.
    unfold finding_of. rewrite He. simpl. split_and!; try done.
    split; [by intros [= Heq]|by intros ->].
  - intros j stj v Hj Hv. rewrite list_lookup_imap, Hj. simpl.
    unfold finding_of. by rewrite Hv.
Qed.

(** ** The synthesizer and the critic, one call at a time *)

Local Arguments parse_review : simpl never.
Local Arguments _build_report : simpl never.
Local Arguments parse_analysis : simpl never.

Lemma build_report_ok_indep t1 f1 t2 f2 data :
  is_ok (_build_report t1 f1 data) = is_ok (_build_report t2 f2 data).
Proof.
  unfold _build_report.
  repeat match goal with
         | |- context [result_bind ?r _] => destruct r; simpl; [|done]
         end.
  done.
Qed.

Lemma review_run report w c rest data rv :
  critic_replies w = c :: rest ->
  json_loads c = Some data ->
  parse_review data = Ok rv ->
  review report w = (Ok rv, set_replies CriticRole rest (grow [Called Review] w)).
Proof.
  intros Hc Hd Hp. unfold review, bind. rewrite emit_grow.
  unfold chat, lift, loads. simpl. rewrite Hc. simpl. rewrite Hd. simpl.
  by rewrite Hp.
Qed.

Lemma revise_run report instructions style tone w s rest :
  synthesizer_replies w = s :: rest ->
  synthesis_reply s ->
  ∃ built,
    _build_report (topic report) (subtopic_findings report)
      (default JNull (json_loads s)) = Ok built
    ∧ revise report instructions style tone w
      = (Ok (set_revision_count (revision_count report + 1) built),
         set_replies SynthesizerRole rest (grow [Called Revise] w)).
Proof.
  intros Hs (data & Hd & Hok).
  rewrite (build_report_ok_indep "" [] (topic report) (subtopic_findings report)) in Hok.
  rewrite Hd. simpl.
  destruct (_build_report _ _ data) as [built|] eqn:Hb; [|done].
  exists built. split; [done|].
  unfold revise, bind. rewrite emit_grow.
  unfold chat, lift, loads. simpl. rewrite Hs. simpl. rewrite Hd. simpl.
  by rewrite Hb.
Qed.

Lemma revise_inv report instructions style tone w revised w' :
  revise report instructions style tone w = (Ok revised, w') ->
  ∃ result_data built,
    _build_report (topic report) (subtopic_findings report) result_data = Ok built
    ∧ revised = set_revision_count (revision_count report + 1) built.
Proof.
  unfold revise. intros H.
  apply bind_ok in H as (_ & w1 & _ & H).
  apply bind_ok in H as (text & w2 & _ & H).
  unfold lift in H. injection H as H _.
  apply result_bind_ok in H as (data & _ & H).
  apply result_bind_ok in H as (built & Hb & H).
  injection H as <-. eauto.
Qed.


(** ** The critic loop *)

Local Arguments critic_progress : simpl never.
Local Arguments pretty : simpl never.

(** One iteration of the loop, once the critic's reply is known. *)
Lemma critic_loop_iteration style tone callback s fuel i current w c rest data rv :
  critic self = Some s ->
  i < max_revisions self ->
  critic_replies w = c :: rest ->
  json_loads c = Some data ->
  parse_review data = Ok rv ->
  critic_loop style tone callback (S fuel) i current w
  = let rv' := set_iteration (i + 1) rv in
    let w1 := set_replies CriticRole rest
                (grow (reviewing callback (i + 1) ++ [Called Review]) w) in
    if String.eqb (decision rv) "APPROVED" then
      (Ok (set_critic_review rv' current), grow (approved callback rv) w1)
    else if String.eqb (decision rv) "REVISION_NEEDED" then
      if bool_decide (i + 1 >= max_revisions self) then
        (Ok (set_critic_review rv' current), grow (exhausted callback rv) w1)
      else
        bind (revise current (revision_instructions rv) style tone)
          (critic_loop style tone callback fuel (i + 1))
          (grow (revising callback (i + 1)) w1)
    else critic_loop style tone callback fuel (i + 1) current w1.
Proof.
  intros Hcritic Hi Hc Hd Hp.
  cbn [critic_loop]. rewrite bool_decide_eq_true_2 by done.
  unfold bind at 1. rewrite update_progress_grow.
  unfold bind at 1. unfold critic_review_of. rewrite Hcritic.
  erewrite review_run; [|exact Hc|exact Hd|exact Hp].
  rewrite grow_grow. cbn zeta.
  change (decision (set_iteration (i + 1) rv)) with (decision rv).
  change (overall_score (set_iteration (i + 1) rv)) with (overall_score rv).
  change (revision_instructions (set_iteration (i + 1) rv))
    with (revision_instructions rv).
  destruct (String.eqb (decision rv) "APPROVED").
  { unfold bind. by rewrite update_progress_grow. }
  destruct (String.eqb (decision rv) "REVISION_NEEDED"); [|done].
  destruct (bool_decide (i + 1 >= max_revisions self)).
  { unfold bind. by rewrite update_progress_grow. }
  unfold bind at 1. by rewrite update_progress_grow.
Qed.

Lemma count_calls_if_progress c (callback : bool) p m :
  count_calls c (if callback then [Progress p m] else []) = 0%nat.
Proof. by destruct callback. Qed.

(** The loop when every review asks for a revision: it runs until the
    budget is spent. *)
Lemma critic_loop_revisions style tone callback s fuel :
  ∀ i current w cs crest ss srest,
    critic self = Some s ->
    i + Z.of_nat (S fuel) = max_revisions self ->
    critic_replies w = cs ++ crest -> length cs = S fuel ->
    Forall (review_reply "REVISION_NEEDED") cs ->
    synthesizer_replies w = ss ++ srest -> length ss = fuel ->
    Forall synthesis_reply ss ->
    ∃ r' w' rv l,
      critic_loop style tone callback (S fuel) i current w = (Ok r', w')
      ∧ trace w' = trace w ++ l
      ∧ count_calls is_revise l = fuel ∧ count_calls is_review l = S fuel
      ∧ revision_count r' = revision_count current + Z.of_nat fuel
      ∧ critic_review r' = Some rv ∧ iteration rv = max_revisions self
      ∧ decision rv = "REVISION_NEEDED"
      ∧ subtopic_findings r' = subtopic_findings current
      ∧ topic r' = topic current
      ∧ critic_replies w' = crest ∧ synthesizer_replies w' = srest.
Proof.
  induction fuel as [|fuel IH]; intros i current w cs crest ss srest
    Hcritic Hi Hcs Hlen Hall Hss Hlens Halls.
  - destruct cs as [|c [|? ?]]; try done. destruct ss; [|done].
    apply Forall_cons in Hall as [(data & rv & Hd & Hp & Hdec) _].
    simpl in Hcs, Hss.
    rewrite (critic_loop_iteration _ _ _ s 0%nat i current w c crest data rv)
      by (done || lia).
    rewrite Hdec. cbn zeta. simpl String.eqb. cbv iota.
    rewrite bool_decide_eq_true_2 by lia.
    eexists _, _, (set_iteration (i + 1) rv), _.
    split; [done|]. split.
    { unfold grow, set_trace. simpl. rewrite <- !app_assoc. done. }
    unfold reviewing, exhausted.
    repeat split; try done; try (by destruct callback); simpl; lia.
  - destruct cs as [|c cs]; [done|]. destruct ss as [|sy ss]; [done|].
    apply Forall_cons in Hall as [(data & rv & Hd & Hp & Hdec) Hall].
    apply Forall_cons in Halls as [Hsy Halls].
    simpl in Hcs, Hss, Hlen, Hlens.
    rewrite (critic_loop_iteration _ _ _ s (S fuel) i current w c (cs ++ crest) data rv)
      by (done || lia).
    rewrite Hdec. cbn zeta. simpl String.eqb. cbv iota.
    rewrite bool_decide_eq_false_2 by lia.
    match goal with |- context [bind _ _ ?w0] => set (w1 := w0) end.
    destruct (revise_run current (revision_instructions rv) style tone w1 sy
                (ss ++ srest) Hss Hsy) as (built & Hb & Hrev).
    unfold bind. rewrite Hrev.
    set (revised := set_revision_count (revision_count current + 1) built).
    set (w2 := set_replies SynthesizerRole (ss ++ srest) (grow [Called Revise] w1)).
    destruct (IH (i + 1) revised w2 cs crest ss srest) as
      (r' & w' & rv' & l & Hrun & Htr & Hnrev & Hnrew & Hcount & Hcr & Hit & Hdc
         & Hfind & Htop & Hcrep & Hsrep); try done; try lia.
    destruct (build_report_fields _ _ _ _ Hb) as (Ht & Hf & _).
    exists r', w', rv', (reviewing callback (i + 1) ++ [Called Review]
                          ++ revising callback (i + 1) ++ [Called Revise] ++ l).
    split; [done|]. split.
    { rewrite Htr. unfold w2, w1, grow, set_trace. simpl.
      rewrite <- !app_assoc. done. }
    rewrite !count_calls_app, Hnrev, Hnrew.
    unfold reviewing, revising. rewrite !count_calls_if_progress.
    repeat split; try done.
    + rewrite Hcount. unfold revised. simpl. lia.
    + by rewrite Hfind.
    + by rewrite Htop.
Qed.

Lemma bind_ext {A B} (m : M A) (k1 k2 : A -> M B) w :
  (∀ a w1, k1 a w1 = k2 a w1) -> bind m k1 w = bind m k2 w.
Proof. intros H. unfold bind. destruct (m w) as [[a|e] w1]; [apply H|done]. Qed.

(** The fuel handed to the loop by [_run_critic_loop] is never the reason
    it stops: any larger budget gives the same run. *)
Lemma critic_loop_fuel style tone callback fuel1 :
  ∀ fuel2 i current w,
    (Z.to_nat (max_revisions self - i) ≤ fuel1)%nat ->
    (Z.to_nat (max_revisions self - i) ≤ fuel2)%nat ->
    critic_loop style tone callback fuel1 i current w
    = critic_loop style tone callback fuel2 i current w.
Proof.
  induction fuel1 as [|fuel1 IH]; intros fuel2 i current w H1 H2.
  - destruct fuel2; [done|]. cbn [critic_loop].
    by rewrite bool_decide_eq_false_2 by lia.
  - destruct fuel2 as [|fuel2].
    { cbn [critic_loop]. by rewrite bool_decide_eq_false_2 by lia. }
    cbn [critic_loop]. case_bool_decide as Hi; [|done].
    apply bind_ext. intros _ w1. apply bind_ext. intros rv w2. cbn zeta.
    destruct (String.eqb _ "APPROVED"); [done|].
    destruct (String.eqb _ "REVISION_NEEDED"); [|apply IH; lia].
    destruct (bool_decide _); [done|].
    apply bind_ext. intros _ w3. apply bind_ext. intros revised w4.
    apply IH; lia.
Qed.

(** Whatever the critic answers, the loop leaves the topic and the subtopic
    findings of the report alone. *)
Lemma critic_loop_frame style tone callback fuel :
  ∀ i current w r' w',
    critic_loop style tone callback fuel i current w = (Ok r', w') ->
    subtopic_findings r' = subtopic_findings current ∧ topic r' = topic current.
Proof.
  induction fuel as [|fuel IH]; intros i current w r' w' H.
  - cbn [critic_loop] in H. destruct (bool_decide _); by injection H as <- _.
  - cbn [critic_loop] in H. destruct (bool_decide (i < _)); [|by injection H as <- _].
    apply bind_ok in H as (_ & w1 & _ & H).
    apply bind_ok in H as (rv & w2 & _ & H). cbn zeta in H.
    destruct (String.eqb _ "APPROVED").
    { apply bind_ok in H as (_ & w3 & _ & H). by injection H as <- _. }
    destruct (String.eqb _ "REVISION_NEEDED"); [|by apply IH in H].
    destruct (bool_decide _).
    { apply bind_ok in H as (_ & w3 & _ & H). by injection H as <- _. }
    apply bind_ok in H as (_ & w3 & _ & H).
    apply bind_ok in H as (revised & w4 & Hrev & H).
    apply IH in H as [-> ->].
    apply revise_inv in Hrev as (data & built & Hb & ->).
    destruct (build_report_fields _ _ _ _ Hb) as (Ht & Hf & _).
    simpl. by rewrite Ht, Hf.
Qed.

(** C2 (as amended): with a budget of [N >= 1] reviews, a critic that asks
    for a revision at every review and a synthesizer whose revisions all
    return, the loop reviews [N] times, revises exactly [N - 1] times, and
    returns a report whose revision count is that of the report it was given
    plus [N - 1] (so [N - 1] for a fresh synthesis), with the review of
    iteration [N] attached and the subtopic findings unchanged. *)
Theorem critic_loop_exhausts_budget report style tone callback w s N
    cs crest ss srest :
  critic self = Some s ->
  max_revisions self = N -> 1 <= N ->
  critic_replies w = cs ++ crest -> Z.of_nat (length cs) = N ->
  Forall (review_reply "REVISION_NEEDED") cs ->
  synthesizer_replies w = ss ++ srest -> Z.of_nat (length ss) = N - 1 ->
  Forall synthesis_reply ss ->
  ∃ r' w' rv l,
    _run_critic_loop report style tone callback w = (Ok r', w')
    ∧ trace w' = trace w ++ l
    ∧ Z.of_nat (count_calls is_revise l) = N - 1
    ∧ Z.of_nat (count_calls is_review l) = N
    ∧ revision_count r' = revision_count report + (N - 1)
    ∧ critic_review r' = Some rv ∧ iteration rv = N
    ∧ decision rv = "REVISION_NEEDED"
    ∧ subtopic_findings r' = subtopic_findings report.
Proof.
  intros Hcritic HN Hpos Hcs Hlen Hall Hss Hlens Halls.
  unfold _run_critic_loop. rewrite HN.
  destruct (Z.to_nat N) as [|fuel] eqn:Hfuel; [lia|].
  destruct (critic_loop_revisions style tone callback s fuel 0 report w
              cs crest ss srest) as
    (r' & w' & rv & l & Hrun & Htr & Hnrev & Hnrew & Hcount & Hcr & Hit & Hdc
       & Hfind & _); try done; try lia.
  exists r', w', rv, l. rewrite Hrun, Hnrev, Hnrew, Hcount, <- HN.
  repeat split; try done; lia.
Qed.

(** C9: with a budget of three reviews, a critic that asks for a revision
    at the first review and approves at the second makes the loop revise
    exactly once, and the review attached to the returned report is the one
    of iteration 2. *)
Theorem critic_loop_early_exit report style tone callback w s
    c1 c2 crest s1 srest :
  critic self = Some s ->
  max_revisions self = 3 ->
  critic_replies w = c1 :: c2 :: crest ->
  review_reply "REVISION_NEEDED" c1 -> review_reply "APPROVED" c2 ->
  synthesizer_replies w = s1 :: srest -> synthesis_reply s1 ->
  ∃ r' w' rv l,
    _run_critic_loop report style tone callback w = (Ok r', w')
    ∧ trace w' = trace w ++ l
    ∧ count_calls is_revise l = 1%nat
    ∧ count_calls is_review l = 2%nat
    ∧ critic_review r' = Some rv ∧ iteration rv = 2
    ∧ decision rv = "APPROVED"
    ∧ revision_count r' = revision_count report + 1.
Proof.
  intros Hcritic HN Hcs (d1 & rv1 & Hd1 & Hp1 & Hdec1) (d2 & rv2 & Hd2 & Hp2 & Hdec2)
    Hss Hs1.
  unfold _run_critic_loop. rewrite HN.
  change (Z.to_nat 3) with 3%nat.
  rewrite (critic_loop_iteration _ _ _ s 2%nat 0 report w c1 (c2 :: crest) d1 rv1)
    by (done || lia).
  rewrite Hdec1. cbn zeta. simpl String.eqb. cbv iota.
  rewrite bool_decide_eq_false_2 by lia.
  match goal with |- context [bind _ _ ?w0] => set (w1 := w0) end.
  destruct (revise_run report (revision_instructions rv1) style tone w1 s1
              srest Hss Hs1) as (built & Hb & Hrev).
  unfold bind. rewrite Hrev.
  set (revised := set_revision_count (revision_count report + 1) built).
  set (w2 := set_replies SynthesizerRole srest (grow [Called Revise] w1)).
  rewrite (critic_loop_iteration _ _ _ s 1%nat (0 + 1) revised w2 c2 crest d2 rv2)
    by (done || lia).
  rewrite Hdec2. cbn zeta. simpl String.eqb. cbv iota.
  eexists _, _, (set_iteration (0 + 1 + 1) rv2), _.
  split; [done|]. split.
  { unfold w2, w1, grow, set_trace. simpl. rewrite <- !app_assoc. done. }
  unfold reviewing, revising, approved.
  repeat split; try done; by destruct callback.
Qed.

(** With a budget of zero or less the loop body never runs: nothing is
    asked of the critic, nothing is observed, and the report comes back as
    given. *)
Lemma run_critic_loop_no_budget report style tone callback w :
  max_revisions self <= 0 ->
  _run_critic_loop report style tone callback w = (Ok report, w).
Proof.
  intros Hmax. unfold _run_critic_loop.
  replace (Z.to_nat (max_revisions self)) with 0%nat by lia.
  cbn [critic_loop]. by rewrite bool_decide_eq_false_2 by lia.
Qed.

(** ** The whole run *)

Lemma analyze_topic_run topic_ w text rest data a :
  splitter_replies w = text :: rest ->
  json_loads text = Some data ->
  parse_analysis data = Ok a ->
  analyze_topic topic_ w
  = (Ok a, set_replies SplitterRole rest (grow [Called AnalyzeTopic] w)).
Proof.
  intros Hs Hd Hp. unfold analyze_topic, bind. rewrite emit_grow.
  unfold chat, lift, loads. simpl. rewrite Hs. simpl. rewrite Hd. simpl.
  by rewrite Hp.
Qed.

Lemma analyze_topic_trace topic_ w r w' :
  analyze_topic topic_ w = (r, w') ->
  trace w' = trace w ++ [Called AnalyzeTopic] ∧ sessions w' = sessions w.
Proof.
  unfold analyze_topic, bind. rewrite emit_grow. unfold chat, lift. simpl.
  destruct (splitter_replies w); simpl; by intros [= <- <-].
Qed.

Lemma synthesize_inv topic_ findings style tone w r w' :
  synthesize topic_ findings style tone w = (Ok r, w') ->
  (∃ data, _build_report topic_ findings data = Ok r)
  ∧ trace w' = trace w ++ [Called Synthesize].
Proof.
  unfold synthesize, bind. rewrite emit_grow. unfold chat, lift, loads. simpl.
  destruct (synthesizer_replies w) as [|text rest]; simpl; [done|].
  destruct (json_loads text) as [data|]; simpl; [|done].
  intros [= H <-]. split; [eauto|done].
Qed.

Lemma research_in_parallel_total topic_ (sts : list Subtopic) callback as_completed w :
  ∃ fs l, _research_in_parallel topic_ sts callback as_completed w = (Ok fs, grow l w)
          ∧ Forall (fun e => is_progress e ∨ ∃ i, e = Called (ResearchSubtopic i)) l.
Proof.
  unfold _research_in_parallel, bind.
  destruct (submit_from_spec sts 0 ∅ w) as (m & -> & _).
  set (w1 := grow (submissions 0 (length sts)) w).
  destruct (collect_spec m (length sts) callback as_completed [] 0 w1)
    as (l & -> & Hl).
  eexists _, (submissions 0 (length sts) ++ l). unfold ret, w1. rewrite grow_grow.
  split; [done|]. apply Forall_app. split.
  - unfold submissions. apply Forall_fmap, Forall_forall. intros i _. right. eauto.
  - eapply Forall_impl; [done|]. intros e He. by left.
Qed.

(** The stages of a run that returns a report. *)
Lemma run_inv topic_ style tone callback as_completed w report w' :
  run topic_ style tone callback as_completed w = (Ok report, w') ->
  ∃ a fs r0 w1 w2 w3 w4 p0 p1 p2 p3,
    Forall is_progress p0 ∧ Forall is_progress p1 ∧ Forall is_progress p2
    ∧ Forall is_progress p3
    ∧ analyze_topic topic_ (grow p0 w) = (Ok a, w1)
    ∧ analysis_subtopics a ≠ []
    ∧ _research_in_parallel topic_ (analysis_subtopics a) callback as_completed
        (grow p1 w1) = (Ok fs, w2)
    ∧ synthesize topic_ fs style tone (grow p2 w2) = (Ok r0, w3)
    ∧ (if enable_critic self && bool_decide (is_Some (critic self))
       then _run_critic_loop r0 style tone callback
       else ret r0) w3 = (Ok report, w4)
    ∧ w' = grow p3 w4.
Proof.
  unfold run. intros H.
  apply bind_ok in H as ([] & w0 & Hp0 & H). rewrite update_progress_grow in Hp0.
  injection Hp0 as <-.
  apply bind_ok in H as (a & w1 & Ha & H).
  destruct (analysis_subtopics a) as [|st sts] eqn:Hsts; [done|].
  apply bind_ok in H as ([] & w1' & Hp1 & H). rewrite update_progress_grow in Hp1.
  injection Hp1 as <-.
  apply bind_ok in H as (fs & w2 & Hfs & H).
  apply bind_ok in H as ([] & w2' & Hp2 & H). rewrite update_progress_grow in Hp2.
  injection Hp2 as <-.
  apply bind_ok in H as (r0 & w3 & Hr0 & H).
  apply bind_ok in H as (r1 & w4 & Hr1 & H).
  apply bind_ok in H as ([] & w4' & Hp3 & H). rewrite update_progress_grow in Hp3.
  injection Hp3 as <-. injection H as <- <-.
  eexists a, fs, r0, w1, w2, w3, w4, _, _, _, _.
  repeat split; [| | | |done|by rewrite Hsts|by rewrite Hsts|done|done];
    destruct callback; by repeat constructor.
Qed.

(** C1: when the splitter returns a non-empty list of subtopics, the report
    a run returns holds one finding per subtopic, entry [i] being the
    finding of subtopic [i] (what its researcher returned, or its error
    placeholder), in the splitter's order, whatever the order in which the
    researcher tasks completed. *)
Theorem run_findings_in_splitter_order topic_ style tone callback as_completed w
    text rest data a report w' :
  splitter_replies w = text :: rest ->
  json_loads text = Some data ->
  parse_analysis data = Ok a ->
  analysis_subtopics a ≠ [] ->
  as_completed ≡ₚ seq 0 (length (analysis_subtopics a)) ->
  run topic_ style tone callback as_completed w = (Ok report, w') ->
  subtopic_findings report = imap (finding_of w) (analysis_subtopics a)
  ∧ length (subtopic_findings report) = length (analysis_subtopics a)
  ∧ subtopic <$> subtopic_findings report = name <$> analysis_subtopics a.
Proof.
  intros Hs Hd Hp Hne Hperm H.
  apply run_inv in H as (a' & fs & r0 & w1 & w2 & w3 & w4 & p0 & p1 & p2 & p3
                           & _ & _ & _ & _ & Ha & _ & Hfs & Hr0 & Hloop & _).
  rewrite (analyze_topic_run _ _ text rest data a) in Ha by done.
  injection Ha as <- Hw1.
  destruct (research_in_parallel_spec topic_ (analysis_subtopics a) callback
              as_completed (grow p1 w1) Hperm) as (l & Hrun & _).
  rewrite Hrun in Hfs. injection Hfs as <- _.
  apply synthesize_inv in Hr0 as [(sd & Hb) _].
  destruct (build_report_fields _ _ _ _ Hb) as (_ & Hf & _).
  assert (subtopic_findings report = subtopic_findings r0) as ->.
  { destruct (enable_critic self && bool_decide (is_Some (critic self))).
    - unfold _run_critic_loop in Hloop. by apply critic_loop_frame in Hloop as [? _].
    - by injection Hloop as <- _. }
  rewrite Hf.
  assert (imap (finding_of (grow p1 w1)) (analysis_subtopics a)
          = imap (finding_of w) (analysis_subtopics a)) as ->.
  { apply imap_ext. intros i st _. apply finding_of_sessions. by rewrite <- Hw1. }
  split; [done|]. split; [apply length_imap|].
  rewrite fmap_imap. rewrite <- (imap_const name).
  apply imap_ext. intros i st _. simpl. apply finding_of_subtopic.
Qed.

Lemma count_calls_none c l :
  Forall (fun e => ∀ x, e = Called x -> c x = false) l -> count_calls c l = 0%nat.
Proof.
  unfold count_calls, calls. induction 1 as [|e l He _ IH]; [done|].
  destruct e as [x|p m]; simpl; [|done].
  rewrite filter_cons. destruct (decide (c x = true)) as [Hc|]; [|done].
  by rewrite (He x eq_refl) in Hc.
Qed.

Lemma count_calls_progress c l : Forall is_progress l -> count_calls c l = 0%nat.
Proof.
  intros H. apply count_calls_none. eapply Forall_impl; [done|].
  by intros [x|p m] He y [= <-].
Qed.

Lemma count_calls_research c l :
  (∀ i, c (ResearchSubtopic i) = false) ->
  Forall (fun e => is_progress e ∨ ∃ i, e = Called (ResearchSubtopic i)) l ->
  count_calls c l = 0%nat.
Proof.
  intros Hc H. apply count_calls_none. eapply Forall_impl; [done|].
  intros e [He|[i ->]] y Hy; [by destruct e|]. by injection Hy as <-.
Qed.

(** C10: an orchestrator built with the critic enabled and a revision
    budget of zero or less never runs the body of the critic loop: the loop
    hands back the report it was given and leaves the world untouched, so a
    run returns the report the synthesizer built, with no review attached
    and a revision count of 0, and neither the critic nor a revision was
    called during the run. *)
Theorem run_without_revision_budget n1 n2 n3 N strictness topic_ style tone
    callback as_completed w report w' :
  self = new_orchestrator n1 n2 n3 true N strictness ->
  N <= 0 ->
  run topic_ style tone callback as_completed w = (Ok report, w') ->
  (∀ r0 w0, _run_critic_loop r0 style tone callback w0 = (Ok r0, w0))
  ∧ (∃ fs w2 w3, synthesize topic_ fs style tone w2 = (Ok report, w3))
  ∧ critic_review report = None
  ∧ revision_count report = 0
  ∧ ∃ l, trace w' = trace w ++ l
         ∧ count_calls is_review l = 0%nat ∧ count_calls is_revise l = 0%nat.
Proof.
  intros Hself HN H.
  assert (max_revisions self <= 0) as Hmax by (by rewrite Hself).
  split; [intros r0 w0; by apply run_critic_loop_no_budget|].
  apply run_inv in H as (a & fs & r0 & w1 & w2 & w3 & w4 & p0 & p1 & p2 & p3
                           & Hp0 & Hp1 & Hp2 & Hp3 & Ha & _ & Hfs & Hr0 & Hloop & ->).
  assert (report = r0 ∧ w4 = w3) as [-> ->].
  { destruct (enable_critic self && bool_decide (is_Some (critic self))).
    - rewrite run_critic_loop_no_budget in Hloop by done. by injection Hloop as <- <-.
    - by injection Hloop as <- <-. }
  split; [eauto|].
  destruct (synthesize_inv _ _ _ _ _ _ _ Hr0) as [(sd & Hb) Ht3].
  destruct (build_report_fields _ _ _ _ Hb) as (_ & _ & _ & _ & Hcount & Hcr).
  split; [done|]. split; [done|].
  destruct (research_in_parallel_total topic_ (analysis_subtopics a) callback
              as_completed (grow p1 w1)) as (fs' & l & Hrun & Hl).
  rewrite Hrun in Hfs. injection Hfs as _ <-.
  apply analyze_topic_trace in Ha as [Ht1 _].
  exists (p0 ++ [Called AnalyzeTopic] ++ p1 ++ l ++ p2 ++ [Called Synthesize] ++ p3).
  split.
  { unfold grow, set_trace in *. simpl in *. rewrite Ht3, Ht1.
    by rewrite <- !app_assoc. }
  rewrite !count_calls_app.
  rewrite !(count_calls_progress _ p0), !(count_calls_progress _ p1),
    !(count_calls_progress _ p2), !(count_calls_progress _ p3) by done.
  by rewrite !(count_calls_research _ l) by done.
Qed.

(** X20: a run stops with an error, before any research, synthesis or
    review, when the splitter returns no subtopic. *)
Lemma run_aborts_without_subtopics topic_ style tone callback as_completed w
    text rest data a :
  splitter_replies w = text :: rest ->
  json_loads text = Some data ->
  parse_analysis data = Ok a ->
  analysis_subtopics a = [] ->
  ∃ w' l, run topic_ style tone callback as_completed w
          = (Raise (Exn ValueError "Topic splitter failed to generate subtopics"), w')
          ∧ trace w' = trace w ++ l
          ∧ calls l = [AnalyzeTopic].
Proof.
  intros Hs Hd Hp Ha. unfold run, bind. rewrite update_progress_grow.
  erewrite analyze_topic_run; [|exact Hs|exact Hd|exact Hp]. rewrite Ha.
  eexists _, _. split; [done|]. split.
  - unfold grow, set_trace. simpl. by rewrite <- app_assoc.
  - by destruct callback.
Qed.

Lemma result_map_encoded {A B} (f : json -> result B) (enc : A -> json)
    (dec : A -> B) (l : list A) :
  (∀ x, f (enc x) = Ok (dec x)) -> result_map f (enc <$> l) = Ok (dec <$> l).
Proof.
  intros H. induction l as [|x l IH]; [done|].
  rewrite fmap_cons. cbn [result_map]. rewrite H. cbn [result_bind].
  by rewrite IH.
Qed.

Lemma result_map_as_str l : result_map as_str (JStr <$> l) = Ok l.
Proof.
  rewrite (result_map_encoded as_str JStr id) by done. by rewrite list_fmap_id.
Qed.

Lemma key_finding_of_fields p : key_finding_of (insight_json p) = Ok (insight_filled p).
Proof.
  destruct p as [[f|] [c|]]; unfold key_finding_of, insight_filled; simpl;
    by rewrite ?result_map_as_str.
Qed.

Lemma subtopic_of_fields p : subtopic_of (subtopic_json p) = Ok (subtopic_filled p).
Proof.
  destruct p as [[n|] [d|] [q|]]; unfold subtopic_of, subtopic_filled; simpl;
    by rewrite ?result_map_as_str.
Qed.

Lemma source_of_fields p : source_of (source_json p) = Ok (source_filled p).
Proof.
  by destruct p as [[t|] [u|] [sn|] [sc|] [wm|]].
Qed.

Lemma issue_of_fields p : issue_of (issue_json p) = Ok (issue_filled p).
Proof.
  by destruct p as [[c|] [sv|] [d|] [l|] [sg|]].
Qed.

Lemma parse_analysis_fields p : parse_analysis (splitter_json p) = Ok (splitter_filled p).
Proof.
  destruct p as [[a|] [sts|]]; unfold parse_analysis, splitter_filled; simpl;
    by rewrite ?(result_map_encoded _ _ _ _ subtopic_of_fields).
Qed.

Lemma parse_review_fields p : parse_review (review_json p) = Ok (review_filled p).
Proof.
  destruct p as [[d|] [sc|] [iss|] [st|] [ri|]];
    unfold parse_review, review_filled; simpl;
    rewrite ?(result_map_encoded _ _ _ _ issue_of_fields); simpl;
    by rewrite ?result_map_as_str.
Qed.

Lemma build_report_fields_missing topic_ findings p :
  _build_report topic_ findings (synthesis_json p)
  = Ok (synthesis_filled topic_ findings p).
Proof.
  destruct p as [[es|] [ins|] [cp|] [cg|] [top|]];
    unfold _build_report, synthesis_filled; simpl;
    rewrite ?(result_map_encoded _ _ _ _ key_finding_of_fields); simpl;
    rewrite <- ?fmap_take, ?(result_map_encoded _ _ _ _ source_of_fields); simpl;
    by rewrite ?result_map_as_str.
Qed.

Lemma parse_findings_fields agent_id st hits analysis_text queries_used p :
  extract_result_data analysis_text = research_json p ->
  _parse_findings agent_id st hits analysis_text queries_used
  = Ok (research_filled agent_id st hits analysis_text queries_used p).
Proof.
  intros H. unfold _parse_findings, research_filled. rewrite H.
  destruct p as [[s|] [ins|] [n|]]; simpl;
    rewrite ?(result_map_encoded _ _ _ _ key_finding_of_fields); simpl;
    try (destruct ins as [|i0 ins]); destruct hits as [|h hits]; done.
Qed.

Lemma extract_result_data_not_json analysis_text :
  not_json analysis_text -> extract_result_data analysis_text = research_json no_fields.
Proof.
  unfold not_json, extract_result_data. cbn zeta.
  intros [H|[H|H]].
  - by rewrite bool_decide_eq_false_2 by lia.
  - rewrite (bool_decide_eq_false_2 (_ > _)) by lia. by rewrite andb_false_r.
  - rewrite H. by destruct (_ && _).
Qed.

(** C5 (as amended): a reply that is a JSON object of the expected shape
    with fields missing, at any level, is completed with the documented
    defaults by each of the splitter, the researcher, the synthesizer and
    the critic, and nothing is raised; a final message that is not JSON is
    recovered by the researcher, which falls back to the same defaults; at
    the splitter, the synthesizer and the critic, which ask the model for a
    JSON object, a reply that is not JSON makes the decoder's error leave the
    agent. *)
Theorem parsing_recovery :
  (∀ topic_ w text rest p,
     splitter_replies w = text :: rest ->
     json_loads text = Some (splitter_json p) ->
     (analyze_topic topic_ w).1 = Ok (splitter_filled p))
  ∧ (∀ w i st hits text queries_used p,
       sessions w i = SessionEnds hits text queries_used ->
       extract_result_data text = research_json p ->
       research_subtopic w i st
       = Ok (research_filled (agent_id_of i) st hits text queries_used p))
  ∧ (∀ topic_ findings style tone w text rest p,
       synthesizer_replies w = text :: rest ->
       json_loads text = Some (synthesis_json p) ->
       (synthesize topic_ findings style tone w).1
       = Ok (synthesis_filled topic_ findings p))
  ∧ (∀ report w text rest p,
       critic_replies w = text :: rest ->
       json_loads text = Some (review_json p) ->
       (review report w).1 = Ok (review_filled p))
  ∧ (∀ w i st hits text queries_used,
       sessions w i = SessionEnds hits text queries_used ->
       not_json text ->
       research_subtopic w i st
       = Ok (research_filled (agent_id_of i) st hits text queries_used no_fields))
  ∧ (∀ topic_ w text rest,
       splitter_replies w = text :: rest ->
       json_loads text = None ->
       (analyze_topic topic_ w).1
       = Raise (Exn JSONDecodeError "invalid JSON document"))
  ∧ (∀ topic_ findings style tone w text rest,
       synthesizer_replies w = text :: rest ->
       json_loads text = None ->
       (synthesize topic_ findings style tone w).1
       = Raise (Exn JSONDecodeError "invalid JSON document"))
  ∧ (∀ report w text rest,
       critic_replies w = text :: rest ->
       json_loads text = None ->
       (review report w).1 = Raise (Exn JSONDecodeError "invalid JSON document")).
Proof.
  repeat split.
  - intros topic_ w text rest p Hs Hd.
    by rewrite (analyze_topic_run _ _ _ _ _ _ Hs Hd (parse_analysis_fields p)).
  - intros w i st hits text qs p Hw Hx. unfold research_subtopic. rewrite Hw.
    by apply parse_findings_fields.
  - intros topic_ findings style tone w text rest p Hs Hd.
    unfold synthesize, bind. rewrite emit_grow. unfold chat, lift, loads. simpl.
    rewrite Hs. simpl. rewrite Hd. simpl. by rewrite build_report_fields_missing.
  - intros report w text rest p Hs Hd.
    by rewrite (review_run _ _ _ _ _ _ Hs Hd (parse_review_fields p)).
  - intros w i st hits text qs Hw Hx. unfold research_subtopic. rewrite Hw.
    by apply parse_findings_fields, extract_result_data_not_json.
  - intros topic_ w text rest Hs Hd.
    unfold analyze_topic, bind. rewrite emit_grow. unfold chat, lift, loads. simpl.
    rewrite Hs. simpl. by rewrite Hd.
  - intros topic_ findings style tone w text rest Hs Hd.
    unfold synthesize, bind. rewrite emit_grow. unfold chat, lift, loads. simpl.
    rewrite Hs. simpl. by rewrite Hd.
  - intros report w text rest Hs Hd.
    unfold review, bind. rewrite emit_grow. unfold chat, lift, loads. simpl.
    rewrite Hs. simpl. by rewrite Hd.
Qed.


(** ** Further properties of the critic loop *)

Lemma bind_inv {A B} (m : M A) (k : A -> M B) w res w' :
  bind m k w = (res, w') ->
  (∃ a w1, m w = (Ok a, w1) ∧ k a w1 = (res, w'))
  ∨ (∃ e, m w = (Raise e, w') ∧ res = Raise e).
Proof.
  unfold bind. destruct (m w) as [[a|e] w1]; [eauto|].
  intros [= <- <-]. eauto.
Qed.

Lemma review_trace report w res w' :
  review report w = (res, w') -> trace w' = trace w ++ [Called Review].
Proof.
  unfold review, bind. rewrite emit_grow. unfold chat, lift. simpl.
  destruct (critic_replies w); simpl; by intros [= <- <-].
Qed.

Lemma revise_trace report instructions style tone w res w' :
  revise report instructions style tone w = (res, w') ->
  trace w' = trace w ++ [Called Revise].
Proof.
  unfold revise, bind. rewrite emit_grow. unfold chat, lift. simpl.
  destruct (synthesizer_replies w); simpl; by intros [= <- <-].
Qed.

Lemma critic_review_of_trace report w res w' :
  critic_review_of report w = (res, w') ->
  ∃ l, trace w' = trace w ++ l ∧ (l = [] ∨ l = [Called Review])
       ∧ (is_ok res = true -> l = [Called Review]).
Proof.
  unfold critic_review_of. destruct (critic self).
  - intros H. apply review_trace in H. exists [Called Review]. auto.
  - intros [= <- <-]. exists []. rewrite app_nil_r. split_and!; [done|by left|done].
Qed.

Lemma count_calls_nil c : count_calls c [] = 0%nat.
Proof. done. Qed.

Lemma count_calls_single c x :
  count_calls c [Called x] = if c x then 1%nat else 0%nat.
Proof.
  unfold count_calls, calls. simpl. rewrite filter_cons.
  destruct (c x); by destruct (decide _).
Qed.

(** What one run of the loop does to the trace and to the counters of the
    report, whatever the critic and the synthesizer reply. *)
Lemma critic_loop_trace style tone callback fuel :
  ∀ i current w res w',
    fuel = Z.to_nat (max_revisions self - i) ->
    critic_loop style tone callback fuel i current w = (res, w') ->
    ∃ l, trace w' = trace w ++ l
         ∧ (count_calls is_review l ≤ fuel)%nat
         ∧ (count_calls is_revise l ≤ pred fuel)%nat
         ∧ (count_calls is_revise l ≤ count_calls is_review l)%nat
         ∧ ∀ r', res = Ok r' ->
             revision_count r' = revision_count current
                                 + Z.of_nat (count_calls is_revise l)
             ∧ (critic_review current = None ->
                ∀ rv, critic_review r' = Some rv ->
                      iteration rv = i + Z.of_nat (count_calls is_review l)
                      ∧ (decision rv = "APPROVED"
                         ∨ decision rv = "REVISION_NEEDED"
                           ∧ iteration rv = max_revisions self)).
Proof.
  induction fuel as [|fuel IH]; intros i current w res w' Hfuel H.
  - cbn [critic_loop] in H.
    assert ((res, w') = (Ok current, w)) as [= -> ->].
    { destruct (bool_decide _); by injection H as <- <-. }
    exists []. rewrite app_nil_r. split; [done|]. do 3 (split; [done|]).
    intros r' [= <-]. rewrite count_calls_nil. split; [simpl; lia|].
    intros Hnone rv Hrv. congruence.
  - cbn [critic_loop] in H. rewrite bool_decide_eq_true_2 in H by lia.
    unfold bind at 1 in H. rewrite update_progress_grow in H.
    set (p1 := reviewing callback (i + 1)) in *.
    change (if callback then _ else []) with p1 in H.
    assert (∀ c, count_calls c p1 = 0%nat) as Hp1.
    { intros c. unfold p1, reviewing. apply count_calls_if_progress. }
    apply bind_inv in H as [(rv & w2 & Hrv & H)|(e & Hrv & ->)].
    2:{ apply critic_review_of_trace in Hrv as (l & Htr & Hl & _).
        exists (p1 ++ l). split.
        { rewrite Htr. unfold grow, set_trace. simpl. by rewrite app_assoc. }
        rewrite !count_calls_app, !Hp1.
        destruct Hl as [-> | ->]; rewrite ?count_calls_nil, ?count_calls_single;
          simpl; (do 3 (split; [lia|])); done. }
    apply critic_review_of_trace in Hrv as (l0 & Htr2 & _ & Hl0).
    rewrite (Hl0 eq_refl) in Htr2. clear l0 Hl0.
    cbn zeta in H.
    change (decision (set_iteration (i + 1) rv)) with (decision rv) in H.
    assert (trace w2 = trace w ++ p1 ++ [Called Review]) as Htw2.
    { rewrite Htr2. unfold grow, set_trace. simpl. by rewrite <- app_assoc. }
    destruct (String.eqb (decision rv) "APPROVED") eqn:Happ.
    { apply String.eqb_eq in Happ.
      unfold bind in H. rewrite update_progress_grow in H. injection H as <- <-.
      eexists (p1 ++ [Called Review] ++ _). split.
      { unfold grow, set_trace. simpl. by rewrite Htw2, <- !app_assoc. }
      rewrite !count_calls_app, !Hp1, !count_calls_if_progress, !count_calls_single.
      simpl.
      do 3 (split; [lia|]).
      intros r' [= <-]. simpl. split; [lia|].
      intros _ rv0 [= <-]. simpl. split; [lia|by left]. }
    destruct (String.eqb (decision rv) "REVISION_NEEDED") eqn:Hrev.
    2:{ apply IH in H as (l & Htr & Hr1 & Hr2 & Hr3 & Hok); [|lia].
        exists (p1 ++ [Called Review] ++ l). split.
        { by rewrite Htr, Htw2, <- !app_assoc. }
        rewrite !count_calls_app, !Hp1, !count_calls_single. simpl.
        do 3 (split; [lia|]).
        intros r' Hr'. destruct (Hok r' Hr') as [Hcount Hit].
        split; [done|]. intros Hnone rv0 Hrv0.
        destruct (Hit Hnone rv0 Hrv0) as [-> Hdec]. split; [lia|done]. }
    apply String.eqb_eq in Hrev.
    destruct (bool_decide (i + 1 >= max_revisions self)) eqn:Hlast.
    { apply bool_decide_eq_true_1 in Hlast.
      unfold bind in H. rewrite update_progress_grow in H. injection H as <- <-.
      eexists (p1 ++ [Called Review] ++ _). split.
      { unfold grow, set_trace. simpl. by rewrite Htw2, <- !app_assoc. }
      rewrite !count_calls_app, !Hp1, !count_calls_if_progress, !count_calls_single.
      simpl.
      do 3 (split; [lia|]).
      intros r' [= <-]. simpl. split; [lia|].
      intros _ rv0 [= <-]. simpl. split; [lia|]. right. split; [done|lia]. }
    apply bool_decide_eq_false_1 in Hlast.
    unfold bind at 1 in H. rewrite update_progress_grow in H.
    set (p2 := revising callback (i + 1)) in *.
    change (if callback then _ else []) with p2 in H.
    assert (∀ c, count_calls c p2 = 0%nat) as Hp2.
    { intros c. unfold p2, revising. apply count_calls_if_progress. }
    apply bind_inv in H as [(revised & w4 & Hrevise & H)|(e & Hrevise & ->)].
    2:{ apply revise_trace in Hrevise.
        exists (p1 ++ [Called Review] ++ p2 ++ [Called Revise]). split.
        { rewrite Hrevise. unfold grow, set_trace. simpl.
          by rewrite Htw2, <- !app_assoc. }
        rewrite !count_calls_app, !Hp1, !Hp2, !count_calls_single. simpl.
        do 3 (split; [lia|]). done. }
    pose proof (revise_trace _ _ _ _ _ _ _ Hrevise) as Htw4.
    apply revise_inv in Hrevise as (data & built & Hb & ->).
    destruct (build_report_fields _ _ _ _ Hb) as (_ & _ & _ & _ & _ & Hnone).
    apply IH in H as (l & Htr & Hr1 & Hr2 & Hr3 & Hok); [|lia].
    exists (p1 ++ [Called Review] ++ p2 ++ [Called Revise] ++ l). split.
    { rewrite Htr, Htw4. unfold grow, set_trace. simpl.
      by rewrite Htw2, <- !app_assoc. }
    rewrite !count_calls_app, !Hp1, !Hp2, !count_calls_single. simpl.
    do 3 (split; [lia|]).
    intros r' Hr'. destruct (Hok r' Hr') as [Hcount Hit].
    split; [rewrite Hcount; simpl; lia|]. intros _ rv0 Hrv0.
    destruct (Hit Hnone rv0 Hrv0) as [-> Hdec]. split; [lia|done].
Qed.

(** X1: whatever the critic and the synthesizer reply, and whether the loop
    returns or raises, it asks for at most [max_revisions] reviews and at
    most [max_revisions - 1] revisions, and never for more revisions than
    reviews. *)
Theorem run_critic_loop_budget report style tone callback w res w' :
  _run_critic_loop report style tone callback w = (res, w') ->
  ∃ l, trace w' = trace w ++ l
       ∧ Z.of_nat (count_calls is_review l) <= Z.max 0 (max_revisions self)
       ∧ Z.of_nat (count_calls is_revise l) <= Z.max 0 (max_revisions self - 1)
       ∧ (count_calls is_revise l ≤ count_calls is_review l)%nat.
Proof.
  unfold _run_critic_loop. intros H.
  apply critic_loop_trace in H as (l & Htr & H1 & H2 & H3 & _); [|f_equal; lia].
  exists l. split; [done|]. split; [lia|]. split; [lia|done].
Qed.

(** The loop when the critic approves after [k] requests for revision. *)
Lemma critic_loop_approval style tone callback s k :
  ∀ extra i current w cs c crest ss srest,
    critic self = Some s ->
    i + Z.of_nat k < max_revisions self ->
    critic_replies w = cs ++ c :: crest -> length cs = k ->
    Forall (review_reply "REVISION_NEEDED") cs ->
    review_reply "APPROVED" c ->
    synthesizer_replies w = ss ++ srest -> length ss = k ->
    Forall synthesis_reply ss ->
    ∃ r' w' rv l,
      critic_loop style tone callback (S (k + extra)) i current w = (Ok r', w')
      ∧ trace w' = trace w ++ l
      ∧ count_calls is_revise l = k ∧ count_calls is_review l = S k
      ∧ revision_count r' = revision_count current + Z.of_nat k
      ∧ critic_review r' = Some rv ∧ iteration rv = i + Z.of_nat k + 1
      ∧ decision rv = "APPROVED"
      ∧ subtopic_findings r' = subtopic_findings current
      ∧ critic_replies w' = crest ∧ synthesizer_replies w' = srest.
Proof.
  induction k as [|k IH]; intros extra i current w cs c crest ss srest
    Hcritic Hi Hcs Hlen Hall Hc Hss Hlens Halls.
  - destruct cs; [|done]. destruct ss; [|done]. simpl in Hcs, Hss.
    destruct Hc as (data & rv & Hd & Hp & Hdec).
    rewrite (critic_loop_iteration _ _ _ s _ i current w c crest data rv)
      by (done || lia).
    rewrite Hdec. cbn zeta. simpl String.eqb. cbv iota.
    eexists _, _, (set_iteration (i + 1) rv), _.
    split; [done|]. split.
    { unfold grow, set_trace. simpl. rewrite <- !app_assoc. done. }
    unfold reviewing, approved.
    repeat split; try done; try (by destruct callback); simpl; lia.
  - destruct cs as [|c0 cs]; [done|]. destruct ss as [|sy ss]; [done|].
    apply Forall_cons in Hall as [(data & rv & Hd & Hp & Hdec) Hall].
    apply Forall_cons in Halls as [Hsy Halls].
    simpl in Hcs, Hss, Hlen, Hlens.
    rewrite (critic_loop_iteration _ _ _ s _ i current w c0 (cs ++ c :: crest) data rv)
      by (done || lia).
    rewrite Hdec. cbn zeta. simpl String.eqb. cbv iota.
    rewrite bool_decide_eq_false_2 by lia.
    match goal with |- context [bind _ _ ?w0] => set (w1 := w0) end.
    destruct (revise_run current (revision_instructions rv) style tone w1 sy
                (ss ++ srest) Hss Hsy) as (built & Hb & Hrev).
    unfold bind. rewrite Hrev.
    set (revised := set_revision_count (revision_count current + 1) built).
    set (w2 := set_replies SynthesizerRole (ss ++ srest) (grow [Called Revise] w1)).
    destruct (IH extra (i + 1) revised w2 cs c crest ss srest) as
      (r' & w' & rv' & l & Hrun & Htr & Hnrev & Hnrew & Hcount & Hcr & Hit & Hdc
         & Hfind & Hcrep & Hsrep); try done; try lia.
    destruct (build_report_fields _ _ _ _ Hb) as (Ht & Hf & _).
    exists r', w', rv', (reviewing callback (i + 1) ++ [Called Review]
                          ++ revising callback (i + 1) ++ [Called Revise] ++ l).
    split; [done|]. split.
    { rewrite Htr. unfold w2, w1, grow, set_trace. simpl.
      rewrite <- !app_assoc. done. }
    rewrite !count_calls_app, Hnrev, Hnrew.
    unfold reviewing, revising. rewrite !count_calls_if_progress.
    repeat split; try done.
    + rewrite Hcount. unfold revised. simpl. lia.
    + rewrite Hit. lia.
    + by rewrite Hfind.
Qed.

(** X2: when the critic asks for a revision [k] times and then approves,
    within the budget, the loop revises exactly [k] times, reviews [k + 1]
    times, and returns a report that counts [k] revisions more, carries the
    approving review with iteration [k + 1] and leaves the replies after it
    unread. *)
Theorem critic_loop_stops_at_approval report style tone callback w s k
    cs c crest ss srest :
  critic self = Some s ->
  Z.of_nat k < max_revisions self ->
  critic_replies w = cs ++ c :: crest -> length cs = k ->
  Forall (review_reply "REVISION_NEEDED") cs ->
  review_reply "APPROVED" c ->
  synthesizer_replies w = ss ++ srest -> length ss = k ->
  Forall synthesis_reply ss ->
  ∃ r' w' rv l,
    _run_critic_loop report style tone callback w = (Ok r', w')
    ∧ trace w' = trace w ++ l
    ∧ count_calls is_revise l = k ∧ count_calls is_review l = S k
    ∧ revision_count r' = revision_count report + Z.of_nat k
    ∧ critic_review r' = Some rv ∧ iteration rv = Z.of_nat k + 1
    ∧ decision rv = "APPROVED"
    ∧ subtopic_findings r' = subtopic_findings report
    ∧ critic_replies w' = crest ∧ synthesizer_replies w' = srest.
Proof.
  intros Hcritic Hk Hcs Hlen Hall Hc Hss Hlens Halls.
  unfold _run_critic_loop.
  replace (Z.to_nat (max_revisions self))
    with (S (k + (Z.to_nat (max_revisions self) - S k)))%nat by lia.
  destruct (critic_loop_approval style tone callback s k
              (Z.to_nat (max_revisions self) - S k) 0 report w
              cs c crest ss srest) as
    (r' & w' & rv & l & Hrun & Htr & Hnrev & Hnrew & Hcount & Hcr & Hit & Hrest);
    try done; try lia.
  destruct Hrest as (Hfs & Hdec & Hcrest & Hsrest).
  exists r', w', rv, l. rewrite Hrun. by split_and!.
Qed.

(** The loop when no review carries a decision it knows. *)
Lemma critic_loop_unknown style tone callback s fuel :
  ∀ i current w cs crest,
    critic self = Some s ->
    i + Z.of_nat fuel = max_revisions self ->
    critic_replies w = cs ++ crest -> length cs = fuel ->
    Forall unknown_review_reply cs ->
    ∃ w' l,
      critic_loop style tone callback fuel i current w = (Ok current, w')
      ∧ trace w' = trace w ++ l
      ∧ count_calls is_revise l = 0%nat ∧ count_calls is_review l = fuel
      ∧ critic_replies w' = crest
      ∧ synthesizer_replies w' = synthesizer_replies w.
Proof.
  induction fuel as [|fuel IH]; intros i current w cs crest
    Hcritic Hi Hcs Hlen Hall.
  - destruct cs; [|done]. simpl in Hcs. cbn [critic_loop].
    rewrite bool_decide_eq_false_2 by lia.
    exists w, []. rewrite app_nil_r. by split_and!.
  - destruct cs as [|c cs]; [done|].
    apply Forall_cons in Hall as [(data & rv & Hd & Hp & Hna & Hnr) Hall].
    simpl in Hcs, Hlen.
    rewrite (critic_loop_iteration _ _ _ s fuel i current w c (cs ++ crest) data rv)
      by (done || lia).
    cbn zeta.
    rewrite (proj2 (String.eqb_neq _ _) Hna), (proj2 (String.eqb_neq _ _) Hnr).
    match goal with |- context [critic_loop _ _ _ _ _ _ ?w0] => set (w1 := w0) end.
    destruct (IH (i + 1) current w1 cs crest) as
      (w' & l & Hrun & Htr & Hnrev & Hnrew & Hcrep & Hsrep); try done; try lia.
    exists w', (reviewing callback (i + 1) ++ [Called Review] ++ l).
    split; [done|]. split.
    { rewrite Htr. unfold w1, grow, set_trace. simpl. by rewrite <- !app_assoc. }
    rewrite !count_calls_app, Hnrev, Hnrew.
    unfold reviewing. rewrite !count_calls_if_progress, !count_calls_single.
    by split_and!.
Qed.

(** X3: a review whose decision is neither APPROVED nor REVISION_NEEDED is
    dropped: when all [max_revisions] reviews are of that kind, the loop
    spends its whole budget on reviews, never revises, and returns the
    report exactly as it was given, with no review attached to it. *)
Theorem critic_loop_ignores_unknown_decisions report style tone callback w s
    cs crest :
  critic self = Some s ->
  Z.of_nat (length cs) = max_revisions self ->
  critic_replies w = cs ++ crest ->
  Forall unknown_review_reply cs ->
  ∃ w' l,
    _run_critic_loop report style tone callback w = (Ok report, w')
    ∧ trace w' = trace w ++ l
    ∧ count_calls is_revise l = 0%nat
    ∧ count_calls is_review l = length cs.
Proof.
  intros Hcritic Hlen Hcs Hall. unfold _run_critic_loop.
  destruct (critic_loop_unknown style tone callback s (length cs) 0 report w
              cs crest) as (w' & l & Hrun & Htr & Hnrev & Hnrew & _);
    try done.
  exists w', l. replace (Z.to_nat (max_revisions self)) with (length cs) by lia.
  by split_and!.
Qed.

(** ** Further properties of a run *)

Lemma calls_progress l : Forall is_progress l -> calls l = [].
Proof.
  unfold calls. induction 1 as [|e l He _ IH]; [done|].
  by destruct e.
Qed.

Lemma calls_submissions i n :
  calls (submissions i n) = ResearchSubtopic <$> seq i n.
Proof.
  unfold calls, submissions. revert i. induction n as [|n IH]; intros i; [done|].
  simpl. f_equal. apply IH.
Qed.

Lemma research_in_parallel_calls topic_ (sts : list Subtopic) callback as_completed w :
  ∃ fs l, _research_in_parallel topic_ sts callback as_completed w = (Ok fs, grow l w)
          ∧ calls l = ResearchSubtopic <$> seq 0 (length sts).
Proof.
  unfold _research_in_parallel, bind.
  destruct (submit_from_spec sts 0 ∅ w) as (m & -> & _).
  set (w1 := grow (submissions 0 (length sts)) w).
  destruct (collect_spec m (length sts) callback as_completed [] 0 w1)
    as (l & -> & Hl).
  eexists _, (submissions 0 (length sts) ++ l). unfold ret, w1. rewrite grow_grow.
  split; [done|].
  by rewrite calls_app, calls_submissions, (calls_progress l), app_nil_r.
Qed.

Lemma build_report_top_sources topic_ findings data r :
  _build_report topic_ findings data = Ok r -> (length (top_sources r) ≤ 5)%nat.
Proof.
  unfold _build_report. intros H.
  apply result_bind_ok in H as (ins & _ & H).
  apply result_bind_ok in H as (items & _ & H).
  apply result_bind_ok in H as (insights & _ & H).
  apply result_bind_ok in H as (tsd & _ & H).
  apply result_bind_ok in H as (first5 & Hslice & H).
  apply result_bind_ok in H as (items5 & Hiter & H).
  apply result_bind_ok in H as (top & Htop & H).
  repeat (apply result_bind_ok in H as (? & _ & H)).
  injection H as <-. simpl.
  rewrite (result_map_length _ _ _ Htop).
  destruct tsd; try done; simpl in Hslice; injection Hslice as <-;
    simpl in Hiter; injection Hiter as <-.
  - destruct (String.substring 0 5 s) as [|a s']; [simpl; lia|].
    by simpl in Htop.
  - rewrite length_take. lia.
Qed.

Lemma build_report_built topic_ findings data r :
  _build_report topic_ findings data = Ok r -> built_report r.
Proof.
  intros H. destruct (build_report_fields _ _ _ _ H) as (_ & Hf & Hs & Ha & _).
  split_and!.
  - by rewrite Hs, Hf.
  - by rewrite Ha, Hf.
  - by eapply build_report_top_sources.
Qed.

Lemma critic_loop_built style tone callback fuel :
  ∀ i current w r' w',
    built_report current ->
    critic_loop style tone callback fuel i current w = (Ok r', w') ->
    built_report r'.
Proof.
  induction fuel as [|fuel IH]; intros i current w r' w' Hinv H.
  - cbn [critic_loop] in H. destruct (bool_decide _); by injection H as <- _.
  - cbn [critic_loop] in H. destruct (bool_decide (i < _)); [|by injection H as <- _].
    apply bind_ok in H as (_ & w1 & _ & H).
    apply bind_ok in H as (rv & w2 & _ & H). cbn zeta in H.
    destruct (String.eqb _ "APPROVED").
    { apply bind_ok in H as (_ & w3 & _ & H). by injection H as <- _. }
    destruct (String.eqb _ "REVISION_NEEDED"); [|by apply IH in H].
    destruct (bool_decide _).
    { apply bind_ok in H as (_ & w3 & _ & H). by injection H as <- _. }
    apply bind_ok in H as (_ & w3 & _ & H).
    apply bind_ok in H as (revised & w4 & Hrev & H).
    apply IH in H; [done|].
    apply revise_inv in Hrev as (data & built & Hb & ->).
    by apply build_report_built in Hb.
Qed.

(** The shape of a run that returns a report. *)
Lemma run_structure topic_ style tone callback as_completed w report w' :
  run topic_ style tone callback as_completed w = (Ok report, w') ->
  ∃ a fs data r0 w3 w4 l1 p3,
    analysis_subtopics a ≠ []
    ∧ trace w3 = trace w ++ l1
    ∧ calls l1 = AnalyzeTopic
                 :: (ResearchSubtopic <$> seq 0 (length (analysis_subtopics a)))
                 ++ [Synthesize]
    ∧ _build_report topic_ fs data = Ok r0
    ∧ (if enable_critic self && bool_decide (is_Some (critic self))
       then _run_critic_loop r0 style tone callback
       else ret r0) w3 = (Ok report, w4)
    ∧ trace w' = trace w4 ++ p3 ∧ Forall is_progress p3.
Proof.
  intros H.
  apply run_inv in H as (a & fs & r0 & w1 & w2 & w3 & w4 & p0 & p1 & p2 & p3
                           & Hp0 & Hp1 & Hp2 & Hp3 & Ha & Hne & Hfs & Hr0 & Hloop & ->).
  destruct (research_in_parallel_calls topic_ (analysis_subtopics a) callback
              as_completed (grow p1 w1)) as (fs' & l & Hrun & Hl).
  rewrite Hrun in Hfs. injection Hfs as -> <-.
  apply analyze_topic_trace in Ha as [Ht1 _].
  apply synthesize_inv in Hr0 as [(data & Hb) Ht3].
  exists a, fs, data, r0, w3, w4,
    (p0 ++ [Called AnalyzeTopic] ++ p1 ++ l ++ p2 ++ [Called Synthesize]), p3.
  split_and!; try done.
  - unfold grow, set_trace in *. simpl in *. rewrite Ht3, Ht1.
    by rewrite <- !app_assoc.
  - rewrite !calls_app, !(calls_progress p0), !(calls_progress p1),
      !(calls_progress p2), Hl by done. done.
Qed.

(** X4: in a run that returns a report the agents are called in this order:
    the splitter once, then one researcher per subtopic in the order of the
    subtopics, then the synthesizer once, and after it nothing but the
    critic's reviews and the revisions they ask for. *)
Theorem run_call_order topic_ style tone callback as_completed w report w' :
  run topic_ style tone callback as_completed w = (Ok report, w') ->
  ∃ l n critic_calls,
    trace w' = trace w ++ l
    ∧ (1 ≤ n)%nat
    ∧ calls l = AnalyzeTopic :: (ResearchSubtopic <$> seq 0 n)
                ++ Synthesize :: critic_calls
    ∧ Forall critic_call critic_calls
    ∧ (enable_critic self = false -> critic_calls = []).
Proof.
  intros H.
  apply run_structure in H as (a & fs & data & r0 & w3 & w4 & l1 & p3
                                 & Hne & Ht3 & Hl1 & _ & Hloop & Ht' & Hp3).
  assert (∃ lc, trace w4 = trace w3 ++ lc ∧ Forall critic_call (calls lc)
                ∧ (enable_critic self = false -> calls lc = [])) as
    (lc & Ht4 & Hlc & Hoff).
  { destruct (enable_critic self); simpl in Hloop.
    2:{ injection Hloop as _ <-. exists []. by rewrite app_nil_r. }
    destruct (bool_decide _).
    2:{ injection Hloop as _ <-. exists []. by rewrite app_nil_r. }
    unfold _run_critic_loop in Hloop. clear -Hloop.
    revert Hloop. generalize (Z.to_nat (max_revisions self)) 0 r0 w3.
    intros fuel. induction fuel as [|fuel IH]; intros i current w H.
    - cbn [critic_loop] in H. exists [].
      destruct (bool_decide _); injection H as _ <-; by rewrite app_nil_r.
    - cbn [critic_loop] in H. destruct (bool_decide (i < _)).
      2:{ injection H as _ <-. exists []. by rewrite app_nil_r. }
      unfold bind at 1 in H. rewrite update_progress_grow in H.
      apply bind_ok in H as (rv & w2 & Hrv & H).
      apply critic_review_of_trace in Hrv as (l0 & Htr2 & _ & Hl0).
      rewrite (Hl0 eq_refl) in Htr2. clear l0 Hl0. cbn zeta in H.
      match type of Htr2 with context [grow ?p w] => set (p1 := p) in * end.
      assert (calls p1 = []) as Hp1 by (subst p1; by destruct callback).
      destruct (String.eqb _ "APPROVED").
      { unfold bind in H. rewrite update_progress_grow in H. injection H as _ <-.
        eexists (p1 ++ [Called Review] ++ _). split.
        { unfold grow, set_trace in *. simpl in *. by rewrite Htr2, <- !app_assoc. }
        rewrite !calls_app, Hp1. destruct callback; simpl;
          (split; [repeat constructor; by left|done]). }
      destruct (String.eqb _ "REVISION_NEEDED").
      2:{ apply IH in H as (lc & Htr & Hlc & _).
          exists (p1 ++ [Called Review] ++ lc). split.
          { unfold grow, set_trace in *. simpl in *.
            by rewrite Htr, Htr2, <- !app_assoc. }
          rewrite !calls_app, Hp1. simpl. split; [|done].
          constructor; [by left|done]. }
      destruct (bool_decide _).
      { unfold bind in H. rewrite update_progress_grow in H. injection H as _ <-.
        eexists (p1 ++ [Called Review] ++ _). split.
        { unfold grow, set_trace in *. simpl in *. by rewrite Htr2, <- !app_assoc. }
        rewrite !calls_app, Hp1. destruct callback; simpl;
          (split; [repeat constructor; by left|done]). }
      unfold bind at 1 in H. rewrite update_progress_grow in H.
      apply bind_ok in H as (revised & w5 & Hrevise & H).
      apply revise_trace in Hrevise.
      apply IH in H as (lc & Htr & Hlc & _).
      match type of Hrevise with context [grow ?p w2] => set (p2 := p) in * end.
      assert (calls p2 = []) as Hp2 by (subst p2; by destruct callback).
      exists (p1 ++ [Called Review] ++ p2 ++ [Called Revise] ++ lc). split.
      { unfold grow, set_trace in *. simpl in *.
        by rewrite Htr, Hrevise, Htr2, <- !app_assoc. }
      rewrite !calls_app, Hp1, Hp2. simpl. split; [|done].
      constructor; [by left|]. constructor; [by right|done]. }
  exists (l1 ++ lc ++ p3), (length (analysis_subtopics a)), (calls lc).
  split_and!; try done.
  - by rewrite Ht', Ht4, Ht3, <- !app_assoc.
  - destruct (analysis_subtopics a); [done|simpl; lia].
  - rewrite !calls_app, Hl1, (calls_progress p3), app_nil_r by done.
    simpl. f_equal. rewrite <- app_assoc. done.
Qed.

(** X5: the report a run returns counts as many revisions as the
    synthesizer was asked for during the run, and the review attached to
    it, if any, carries as its iteration the number of reviews the critic
    made. *)
Theorem run_counts_revisions topic_ style tone callback as_completed w report w' :
  run topic_ style tone callback as_completed w = (Ok report, w') ->
  ∃ l, trace w' = trace w ++ l
       ∧ revision_count report = Z.of_nat (count_calls is_revise l)
       ∧ (∀ rv, critic_review report = Some rv ->
                iteration rv = Z.of_nat (count_calls is_review l)).
Proof.
  intros H.
  apply run_structure in H as (a & fs & data & r0 & w3 & w4 & l1 & p3
                                 & Hne & Ht3 & Hl1 & Hb & Hloop & Ht' & Hp3).
  destruct (build_report_fields _ _ _ _ Hb) as (_ & _ & _ & _ & Hcount & Hnone).
  assert (∀ c, (∀ i, c (ResearchSubtopic i) = false) -> c AnalyzeTopic = false ->
               c Synthesize = false -> count_calls c l1 = 0%nat) as Hl1c.
  { intros c Hc1 Hc2 Hc3. unfold count_calls. rewrite Hl1. simpl.
    rewrite filter_cons, Hc2. simpl. rewrite filter_app, filter_cons, Hc3. simpl.
    rewrite length_app. simpl. rewrite Nat.add_0_r.
    clear Hl1. induction (seq 0 _) as [|j js IH]; [done|].
    rewrite fmap_cons, filter_cons.
    destruct (decide _) as [Hj|_]; [by rewrite Hc1 in Hj|done]. }
  destruct (enable_critic self && bool_decide (is_Some (critic self))).
  - unfold _run_critic_loop in Hloop.
    apply critic_loop_trace in Hloop as (lc & Ht4 & _ & _ & _ & Hok); [|f_equal; lia].
    destruct (Hok report eq_refl) as [Hrc Hit].
    exists (l1 ++ lc ++ p3). split; [by rewrite Ht', Ht4, Ht3, <- !app_assoc|].
    rewrite !count_calls_app, !(count_calls_progress _ p3), !Hl1c by done.
    split; [rewrite Hrc, Hcount; lia|].
    intros rv Hrv. destruct (Hit Hnone rv Hrv) as [-> _]. lia.
  - injection Hloop as <- <-.
    exists (l1 ++ p3). split; [by rewrite Ht', Ht3, <- !app_assoc|].
    rewrite !count_calls_app, !(count_calls_progress _ p3), !Hl1c by done.
    split; [by rewrite Hcount|]. intros rv Hrv. congruence.
Qed.

(** X6: every report a run returns is a report as the synthesizer builds
    them: it is about the topic of the run, its subtopic names are those of
    its findings, its sources are the sources of its findings without
    duplicate URLs, and it lists at most five top sources. *)
Theorem run_report_invariants topic_ style tone callback as_completed w report w' :
  run topic_ style tone callback as_completed w = (Ok report, w') ->
  topic report = topic_
  ∧ subtopics report = subtopic <$> subtopic_findings report
  ∧ all_sources report = unique_sources_of (subtopic_findings report)
  ∧ NoDup (url <$> all_sources report)
  ∧ (length (top_sources report) ≤ 5)%nat.
Proof.
  intros H.
  apply run_structure in H as (a & fs & data & r0 & w3 & w4 & l1 & p3
                                 & _ & _ & _ & Hb & Hloop & _).
  assert (built_report report ∧ topic report = topic r0) as [(Hs & Ha & Ht) Htopic].
  { destruct (enable_critic self && bool_decide (is_Some (critic self))).
    - unfold _run_critic_loop in Hloop. split.
      + eapply critic_loop_built; [|done]. by eapply build_report_built.
      + by apply critic_loop_frame in Hloop as [_ ?].
    - injection Hloop as <- _. split; [by eapply build_report_built|done]. }
  destruct (build_report_fields _ _ _ _ Hb) as (Ht0 & _).
  split_and!; try done; [congruence|].
  rewrite Ha, unique_sources_of_spec. apply dedup_spec_NoDup.
Qed.

(** X7: a failing researcher never makes a run fail: with the critic
    switched off, a run returns a report as soon as the splitter's reply
    yields at least one subtopic and the synthesizer's reply yields a
    report, whatever the researchers do and in whatever order they end. *)
Theorem run_survives_researchers topic_ style tone callback as_completed w
    text rest data a stext srest :
  enable_critic self = false ->
  splitter_replies w = text :: rest ->
  json_loads text = Some data ->
  parse_analysis data = Ok a ->
  analysis_subtopics a ≠ [] ->
  synthesizer_replies w = stext :: srest ->
  synthesis_reply stext ->
  ∃ report w', run topic_ style tone callback as_completed w = (Ok report, w').
Proof.
  intros Hoff Hs Hd Hp Hne Hsy (sdata & Hsd & Hok).
  unfold run. unfold bind at 1. rewrite update_progress_grow.
  unfold bind at 1. erewrite analyze_topic_run; [|exact Hs|exact Hd|exact Hp].
  destruct (analysis_subtopics a) as [|st sts] eqn:Hsts; [done|].
  unfold bind at 1. rewrite update_progress_grow.
  match goal with |- context [_research_in_parallel _ _ _ _] =>
    unfold bind at 1 end.
  match goal with |- context [_research_in_parallel ?t ?s ?c ?o ?w0] =>
    destruct (research_in_parallel_total t s c o w0) as (fs & l & -> & _) end.
  unfold bind at 1. rewrite update_progress_grow.
  unfold bind at 1. unfold synthesize at 1. unfold bind at 1. rewrite emit_grow.
  unfold bind at 1. unfold chat, lift, loads. simpl. rewrite Hsy. simpl.
  rewrite Hsd. simpl.
  rewrite (build_report_ok_indep "" [] topic_ fs) in Hok.
  destruct (_build_report topic_ fs sdata) as [r0|] eqn:Hb; [|done].
  rewrite Hoff. simpl. unfold bind, ret. rewrite update_progress_grow. eauto.
Qed.

(** ** The sequential path *)

Lemma research_each_ok callback n (sts : list Subtopic) :
  ∀ i acc w,
    (∀ k st, sts !! k = Some st -> is_ok (research_subtopic w (i + k) st) = true) ->
    ∃ l, research_each callback n i sts acc w
         = (Ok (acc ++ imap (fun k st => finding_of w (i + k) st) sts), grow l w)
         ∧ calls l = ResearchSubtopic <$> seq i (length sts).
Proof.
  induction sts as [|st sts IH]; intros i acc w Hok; simpl.
  - exists []. by rewrite grow_nil, app_nil_r.
  - unfold bind at 1. rewrite update_progress_grow.
    unfold bind at 1. rewrite emit_grow, grow_grow.
    match goal with |- context [grow ?p w] => set (p1 := p) end.
    unfold bind at 1.
    rewrite (research_subtopic_sessions (grow p1 w) w) by done.
    pose proof (Hok 0%nat st eq_refl) as H0. rewrite Nat.add_0_r in H0.
    destruct (research_subtopic w i st) as [res|e] eqn:Hres; [|done].
    destruct (IH (S i) (acc ++ [res]) (grow p1 w)) as (l & Hrun & Hl).
    { intros k st' Hk. rewrite (research_subtopic_sessions (grow p1 w) w) by done.
      replace (S i + k)%nat with (i + S k)%nat by lia. by apply (Hok (S k)). }
    exists (p1 ++ l). rewrite Hrun, grow_grow, <- app_assoc. split.
    + do 2 f_equal. simpl. f_equal.
      unfold finding_of at 2. rewrite Nat.add_0_r, Hres. f_equal.
      apply imap_ext. intros k st' _. simpl.
      rewrite (finding_of_sessions (grow p1 w) w) by done.
      f_equal. lia.
    + rewrite calls_app, Hl. subst p1. by destruct callback.
Qed.

Lemma research_each_raises callback n (pre : list Subtopic) st post e :
  ∀ i acc w,
    (∀ k st', pre !! k = Some st' -> is_ok (research_subtopic w (i + k) st') = true) ->
    research_subtopic w (i + length pre) st = Raise e ->
    ∃ l, research_each callback n i (pre ++ st :: post) acc w = (Raise e, grow l w)
         ∧ calls l = ResearchSubtopic <$> seq i (S (length pre)).
Proof.
  induction pre as [|st0 pre IH]; intros i acc w Hok He; simpl.
  - unfold bind at 1. rewrite update_progress_grow.
    unfold bind at 1. rewrite emit_grow, grow_grow.
    match goal with |- context [grow ?p w] => set (p1 := p) end.
    unfold bind at 1.
    rewrite (research_subtopic_sessions (grow p1 w) w) by done.
    simpl in He. rewrite Nat.add_0_r in He. rewrite He.
    exists p1. split; [done|]. subst p1. by destruct callback.
  - unfold bind at 1. rewrite update_progress_grow.
    unfold bind at 1. rewrite emit_grow, grow_grow.
    match goal with |- context [grow ?p w] => set (p1 := p) end.
    unfold bind at 1.
    rewrite (research_subtopic_sessions (grow p1 w) w) by done.
    pose proof (Hok 0%nat st0 eq_refl) as H0. rewrite Nat.add_0_r in H0.
    destruct (research_subtopic w i st0) as [res|e0] eqn:Hres; [|done].
    destruct (IH (S i) (acc ++ [res]) (grow p1 w)) as (l & Hrun & Hl).
    { intros k st' Hk. rewrite (research_subtopic_sessions (grow p1 w) w) by done.
      replace (S i + k)%nat with (i + S k)%nat by lia. by apply (Hok (S k)). }
    { rewrite (research_subtopic_sessions (grow p1 w) w) by done.
      simpl in He. replace (S i + length pre)%nat with (i + S (length pre))%nat by lia. done. }
    exists (p1 ++ l). rewrite Hrun, grow_grow. split; [done|].
    rewrite calls_app, Hl. subst p1. by destruct callback.
Qed.

Lemma synthesize_replies topic_ findings style tone w1 w2 :
  synthesizer_replies w1 = synthesizer_replies w2 ->
  (synthesize topic_ findings style tone w1).1
  = (synthesize topic_ findings style tone w2).1.
Proof.
  intros H. unfold synthesize, bind. rewrite !emit_grow. unfold chat, lift. simpl.
  rewrite H. by destruct (synthesizer_replies w2).
Qed.

(** X8: the sequential path does not contain a researcher's failure: the
    first researcher that raises ends [run_sequential] with that very
    exception; the researchers of the later subtopics and the synthesizer
    are never called. *)
Theorem run_sequential_stops_at_failure topic_ style tone callback w
    text rest data a pre st post e :
  splitter_replies w = text :: rest ->
  json_loads text = Some data ->
  parse_analysis data = Ok a ->
  analysis_subtopics a = pre ++ st :: post ->
  (∀ k st', pre !! k = Some st' -> is_ok (research_subtopic w k st') = true) ->
  research_subtopic w (length pre) st = Raise e ->
  ∃ w' l,
    run_sequential topic_ style tone callback w = (Raise e, w')
    ∧ trace w' = trace w ++ l
    ∧ calls l = AnalyzeTopic :: (ResearchSubtopic <$> seq 0 (S (length pre))).
Proof.
  intros Hs Hd Hp Ha Hok He.
  unfold run_sequential. unfold bind at 1. rewrite update_progress_grow.
  unfold bind at 1. erewrite analyze_topic_run; [|exact Hs|exact Hd|exact Hp].
  rewrite Ha.
  match goal with |- context [research_each ?c ?n ?i ?s ?acc] =>
    unfold bind at 1 end.
  match goal with |- context [research_each ?c ?n 0%nat _ [] ?w0] =>
    destruct (research_each_raises c n pre st post e 0%nat [] w0)
      as (l & -> & Hl) end.
  { intros k st' Hk. rewrite <- (Hok k st' Hk). by f_equal. }
  { rewrite <- He. by apply research_subtopic_sessions. }
  eexists _, _. split; [done|]. split.
  - unfold grow, set_trace. simpl. by rewrite <- !app_assoc.
  - rewrite !calls_app, Hl. by destruct callback.
Qed.

Lemma run_sequential_result topic_ style tone callback w text rest data a :
  splitter_replies w = text :: rest ->
  json_loads text = Some data ->
  parse_analysis data = Ok a ->
  (∀ k st, analysis_subtopics a !! k = Some st ->
           is_ok (research_subtopic w k st) = true) ->
  (run_sequential topic_ style tone callback w).1
  = (synthesize topic_ (imap (finding_of w) (analysis_subtopics a)) style tone w).1.
Proof.
  intros Hs Hd Hp Hok. unfold run_sequential.
  unfold bind at 1. rewrite update_progress_grow.
  unfold bind at 1. rewrite (analyze_topic_run topic_ _ text rest data a) by done.
  unfold bind at 1.
  match goal with |- context [research_each ?c ?n 0%nat ?s [] ?w0] =>
    destruct (research_each_ok c n s 0%nat [] w0) as (l2 & -> & _);
    [|set (ws := w0) in *] end.
  { intros k st' Hk. rewrite <- (Hok k st' Hk). by f_equal. }
  assert (imap (fun k st => finding_of ws (0 + k) st) (analysis_subtopics a)
          = imap (finding_of w) (analysis_subtopics a)) as ->.
  { apply imap_ext. intros k st' _. simpl. by apply finding_of_sessions. }
  simpl app.
  unfold bind at 1. rewrite update_progress_grow.
  unfold bind at 1.
  match goal with |- context [synthesize ?t ?f ?s1 ?s2 ?w1] =>
    rewrite (surjective_pairing (synthesize t f s1 s2 w1));
    rewrite (synthesize_replies t f s1 s2 w1 w) by done
  end.
  destruct (synthesize _ _ _ _ w).1; [|done].
  unfold bind, ret. by rewrite update_progress_grow.
Qed.

Lemma run_result topic_ style tone callback as_completed w text rest data a :
  enable_critic self = false ->
  splitter_replies w = text :: rest ->
  json_loads text = Some data ->
  parse_analysis data = Ok a ->
  analysis_subtopics a ≠ [] ->
  as_completed ≡ₚ seq 0 (length (analysis_subtopics a)) ->
  (run topic_ style tone callback as_completed w).1
  = (synthesize topic_ (imap (finding_of w) (analysis_subtopics a)) style tone w).1.
Proof.
  intros Hoff Hs Hd Hp Hne Hperm. unfold run.
  unfold bind at 1. rewrite update_progress_grow.
  unfold bind at 1. rewrite (analyze_topic_run topic_ _ text rest data a) by done.
  destruct (analysis_subtopics a) as [|st sts] eqn:Hsts; [done|]. rewrite <- Hsts in *.
  unfold bind at 1. rewrite update_progress_grow.
  unfold bind at 1.
  match goal with |- context [_research_in_parallel ?t ?s ?c ?o ?w0] =>
    destruct (research_in_parallel_spec t s c o w0 Hperm) as (l1 & -> & _);
    set (wp := w0) in * end.
  assert (imap (finding_of wp) (analysis_subtopics a)
          = imap (finding_of w) (analysis_subtopics a)) as ->.
  { apply imap_ext. intros k st' _. by apply finding_of_sessions. }
  unfold bind at 1. rewrite update_progress_grow.
  unfold bind at 1.
  match goal with |- context [synthesize ?t ?f ?s1 ?s2 ?w1] =>
    rewrite (surjective_pairing (synthesize t f s1 s2 w1));
    rewrite (synthesize_replies t f s1 s2 w1 w) by done
  end.
  destruct (synthesize _ _ _ _ w).1; [|done].
  rewrite Hoff. simpl. unfold bind, ret. by rewrite update_progress_grow.
Qed.

(** X9: when the splitter yields at least one subtopic, every researcher
    returns and the critic is switched off, the parallel and the sequential
    path give the same result on the same replies, a report or the
    exception of the synthesizer, whatever the order in which the parallel
    researchers end.  (Without a subtopic the two paths differ: [run]
    raises and [run_sequential] synthesizes from an empty list.) *)
Theorem run_agrees_with_run_sequential topic_ style tone callback as_completed w
    text rest data a :
  enable_critic self = false ->
  splitter_replies w = text :: rest ->
  json_loads text = Some data ->
  parse_analysis data = Ok a ->
  analysis_subtopics a ≠ [] ->
  as_completed ≡ₚ seq 0 (length (analysis_subtopics a)) ->
  (∀ k st, analysis_subtopics a !! k = Some st ->
           is_ok (research_subtopic w k st) = true) ->
  (run topic_ style tone callback as_completed w).1
  = (run_sequential topic_ style tone callback w).1.
Proof.
  intros Hoff Hs Hd Hp Hne Hperm Hok.
  erewrite run_result, run_sequential_result; done.
Qed.

(** ** Failures that a run does not contain *)

(** A run whose splitter yields subtopics, up to the call of the
    synthesizer. *)
Lemma run_until_synthesis topic_ style tone callback as_completed w
    text rest data a :
  splitter_replies w = text :: rest ->
  json_loads text = Some data ->
  parse_analysis data = Ok a ->
  analysis_subtopics a ≠ [] ->
  ∃ fs l w3,
    run topic_ style tone callback as_completed w
    = (report <- synthesize topic_ fs style tone ;;
       report <-
         (if enable_critic self && bool_decide (is_Some (critic self))
          then _run_critic_loop report style tone callback
          else ret report) ;;
       update_progress callback 1.0%Q "Research complete!" ;;
       ret report)%M w3
    ∧ trace w3 = trace w ++ l
    ∧ calls l = AnalyzeTopic
                :: (ResearchSubtopic <$> seq 0 (length (analysis_subtopics a)))
    ∧ synthesizer_replies w3 = synthesizer_replies w
    ∧ critic_replies w3 = critic_replies w.
Proof.
  intros Hs Hd Hp Hne.
  unfold run. unfold bind at 1. rewrite update_progress_grow.
  unfold bind at 1. rewrite (analyze_topic_run topic_ _ text rest data a) by done.
  destruct (analysis_subtopics a) as [|st sts] eqn:Hsts; [done|]. rewrite <- Hsts.
  unfold bind at 1. rewrite update_progress_grow.
  unfold bind at 1.
  match goal with |- context [_research_in_parallel ?t ?s ?c ?o ?w0] =>
    destruct (research_in_parallel_calls t s c o w0) as (fs & l & -> & Hl) end.
  unfold bind at 1. rewrite update_progress_grow.
  eexists fs,
    ((if callback
      then [Progress 0.1%Q "Analyzing topic and generating subtopics..."]
      else [])
     ++ [Called AnalyzeTopic]
     ++ (if callback
         then [Progress 0.2%Q
                 ("Generated " +:+ pretty (length (analysis_subtopics a))
                    +:+ " subtopics. Starting research...")]
         else [])
     ++ l
     ++ (if callback
         then [Progress 0.7%Q "Synthesizing findings into final report..."]
         else [])), _.
  split; [reflexivity|]. split_and!; try done.
  - unfold grow, set_trace. simpl. rewrite <- !app_assoc. reflexivity.
  - rewrite !calls_app, Hl. destruct callback; simpl; by rewrite app_nil_r.
Qed.

(** X10: a failure of the synthesizer is not contained: when its
    completion request fails, or its reply is not JSON, the run ends with
    that exception after the splitter and every researcher have been
    called, and the critic is never called. *)
Theorem run_stops_at_synthesizer_failure topic_ style tone callback as_completed w
    text rest data a e :
  splitter_replies w = text :: rest ->
  json_loads text = Some data ->
  parse_analysis data = Ok a ->
  analysis_subtopics a ≠ [] ->
  (synthesizer_replies w = []
   ∧ e = Exn APIError "the completion request failed")
  ∨ (∃ stext srest, synthesizer_replies w = stext :: srest
                    ∧ json_loads stext = None
                    ∧ e = Exn JSONDecodeError "invalid JSON document") ->
  ∃ w' l,
    run topic_ style tone callback as_completed w = (Raise e, w')
    ∧ trace w' = trace w ++ l
    ∧ calls l = AnalyzeTopic
                :: (ResearchSubtopic <$> seq 0 (length (analysis_subtopics a)))
                ++ [Synthesize].
Proof.
  intros Hs Hd Hp Hne Hfail.
  destruct (run_until_synthesis topic_ style tone callback as_completed w
              text rest data a) as (fs & l & w3 & -> & Htr & Hl & Hsy & _);
    try done.
  unfold bind at 1. unfold synthesize, bind. rewrite emit_grow.
  unfold chat, lift, loads. simpl. rewrite Hsy.
  destruct Hfail as [[-> ->]|(stext & srest & -> & Hnone & ->)]; simpl.
  - eexists _, (l ++ [Called Synthesize]). split; [done|]. simpl.
    rewrite Htr, calls_app, Hl, <- app_assoc. done.
  - rewrite Hnone. simpl.
    eexists _, (l ++ [Called Synthesize]). split; [done|]. simpl.
    rewrite Htr, calls_app, Hl, <- app_assoc. done.
Qed.

(** X11: a failure of the critic is not contained either: with the critic
    enabled and a budget of at least one review, a run whose synthesizer
    has built a report ends with the critic's exception, and the report is
    lost, when the critic's completion request fails or its reply is not
    JSON. *)
Theorem run_stops_at_critic_failure topic_ style tone callback as_completed w
    text rest data a stext srest s e :
  enable_critic self = true ->
  critic self = Some s ->
  0 < max_revisions self ->
  splitter_replies w = text :: rest ->
  json_loads text = Some data ->
  parse_analysis data = Ok a ->
  analysis_subtopics a ≠ [] ->
  synthesizer_replies w = stext :: srest ->
  synthesis_reply stext ->
  (critic_replies w = []
   ∧ e = Exn APIError "the completion request failed")
  ∨ (∃ c crest, critic_replies w = c :: crest
                ∧ json_loads c = None
                ∧ e = Exn JSONDecodeError "invalid JSON document") ->
  ∃ w' l,
    run topic_ style tone callback as_completed w = (Raise e, w')
    ∧ trace w' = trace w ++ l
    ∧ calls l = AnalyzeTopic
                :: (ResearchSubtopic <$> seq 0 (length (analysis_subtopics a)))
                ++ [Synthesize; Review].
Proof.
  intros Hon Hcritic Hmax Hs Hd Hp Hne Hsy (sdata & Hsd & Hok) Hfail.
  destruct (run_until_synthesis topic_ style tone callback as_completed w
              text rest data a) as (fs & l & w3 & -> & Htr & Hl & Hsy3 & Hc3);
    try done.
  unfold bind at 1. unfold synthesize at 1. unfold bind at 1. rewrite emit_grow.
  unfold bind at 1. unfold chat, lift, loads. simpl. rewrite Hsy3, Hsy. simpl.
  rewrite Hsd. simpl.
  rewrite (build_report_ok_indep "" [] topic_ fs) in Hok.
  destruct (_build_report topic_ fs sdata) as [r0|] eqn:Hb; [|done].
  rewrite Hon, Hcritic. simpl. unfold bind at 1.
  unfold _run_critic_loop.
  replace (Z.to_nat (max_revisions self))
    with (S (Z.to_nat (max_revisions self) - 1)) by lia.
  cbn [critic_loop]. rewrite bool_decide_eq_true_2 by lia.
  unfold bind at 1. rewrite update_progress_grow.
  unfold bind at 1. unfold critic_review_of. rewrite Hcritic.
  unfold review. unfold bind at 1. rewrite emit_grow.
  unfold bind at 1. unfold chat. simpl. rewrite Hc3.
  destruct Hfail as [[-> ->]|(c & crest & -> & Hnone & ->)]; simpl.
  - eexists _, (l ++ [Called Synthesize]
                   ++ (if callback
                       then [Progress (critic_progress (0 + 1))
                               ("Critic reviewing report (iteration "
                                  +:+ pretty (0 + 1) +:+ ")...")]
                       else [])
                   ++ [Called Review]).
    split; [done|]. simpl. rewrite Htr, <- !app_assoc.
    split; [done|]. rewrite calls_app, Hl. by destruct callback.
  - unfold bind, lift, loads. rewrite Hnone. simpl.
    eexists _, (l ++ [Called Synthesize]
                   ++ (if callback
                       then [Progress (critic_progress (0 + 1))
                               ("Critic reviewing report (iteration "
                                  +:+ pretty (0 + 1) +:+ ")...")]
                       else [])
                   ++ [Called Review]).
    split; [done|]. simpl. rewrite Htr, <- !app_assoc.
    split; [done|]. rewrite calls_app, Hl. by destruct callback.
Qed.

(** ** The researcher's parsing *)

Lemma result_map_ok_length {A B} (f : A -> result B) l bs :
  result_map f l = Ok bs -> length bs = length l.
Proof.
  revert bs. induction l as [|a l IH]; intros bs; simpl.
  - by intros [= <-].
  - intros H. apply result_bind_ok in H as (b & _ & H).
    apply result_bind_ok in H as (bs' & Hbs & [= <-]).
    simpl. f_equal. by apply IH.
Qed.

(** X12: whatever the final message of a researcher holds, findings that
    are returned carry the name of the subtopic, one source per search
    result in the order of the results, and at least one insight as soon as
    there is a source: when the message yields no insight, a single
    fallback insight cites the URLs of the first three sources; without
    any source the insights are those of the message, possibly none. *)
Theorem parse_findings_insights agent_id st hits analysis_text queries_used f :
  _parse_findings agent_id st hits analysis_text queries_used = Ok f ->
  subtopic f = name st
  ∧ sources f = source_of_hit <$> hits
  ∧ (hits ≠ [] -> key_insights f ≠ [])
  ∧ ∃ v items parsed,
      py_get (extract_result_data analysis_text) "key_insights" (JArr []) = Ok v
      ∧ py_iter v = Ok items
      ∧ result_map key_finding_of items = Ok parsed
      ∧ length parsed = length items
      ∧ (parsed ≠ [] ∨ hits = [] -> key_insights f = parsed)
      ∧ (parsed = [] -> hits ≠ [] ->
         ∃ text, key_insights f
                 = [ {| finding := text;
                        citations := url <$> take 3 (sources f) |} ]).
Proof.
  unfold _parse_findings. intros H.
  apply result_bind_ok in H as (v & Hv & H).
  apply result_bind_ok in H as (items & Hitems & H).
  apply result_bind_ok in H as (parsed & Hparsed & H).
  apply result_bind_ok in H as (insights & Hins & H).
  apply result_bind_ok in H as (s & _ & H).
  apply result_bind_ok in H as (notes & _ & H).
  apply result_bind_ok in H as (s' & _ & H).
  apply result_bind_ok in H as (notes' & _ & [= <-]).
  cbn [subtopic sources key_insights].
  split; [done|]. split; [done|].
  assert (hits ≠ [] -> insights ≠ []) as Hne.
  { intros Hh. destruct parsed as [|p parsed], hits as [|h hits]; try done.
    - apply result_bind_ok in Hins as (t & _ & Hins).
      apply result_bind_ok in Hins as (t' & _ & [= <-]). done.
    - by injection Hins as <-. }
  split; [done|].
  exists v, items, parsed. split_and!; try done.
  - by eapply result_map_ok_length.
  - intros Hor. destruct parsed as [|p parsed], hits as [|h hits];
      try (by injection Hins as <-). by destruct Hor.
  - intros -> Hh. destruct hits as [|h hits]; [done|].
    apply result_bind_ok in Hins as (t & _ & Hins).
    apply result_bind_ok in Hins as (t' & _ & [= <-]).
    exists t'. do 2 f_equal. rewrite <- fmap_take, <- list_fmap_compose.
    done.
Qed.

(** ** The search for the JSON document in a final message *)

Lemma find_from_none c s i j :
  find_from c s i = -1 -> 0 <= i -> find_from c s j = -1.
Proof.
  revert i j. induction s as [|a s IH]; intros i j; simpl; [done|].
  destruct (Ascii.eqb a c); [lia|]. intros H Hi. apply (IH (i + 1)); [done|lia].
Qed.

Lemma find_from_app c s1 s2 i :
  find_from c s1 0 = -1 ->
  find_from c (s1 +:+ s2) i = find_from c s2 (i + Z.of_nat (String.length s1)).
Proof.
  revert i. induction s1 as [|a s1 IH]; intros i; simpl.
  - intros _. f_equal. lia.
  - destruct (Ascii.eqb a c); [lia|]. intros H.
    rewrite IH by (by apply (find_from_none c s1 (0 + 1))). f_equal. lia.
Qed.

Lemma rfind_from_app c s1 s2 i last :
  rfind_from c (s1 +:+ s2) i last
  = rfind_from c s2 (i + Z.of_nat (String.length s1)) (rfind_from c s1 i last).
Proof.
  revert i last. induction s1 as [|a s1 IH]; intros i last; simpl.
  - f_equal. lia.
  - rewrite IH. f_equal. lia.
Qed.

Lemma rfind_from_last c s i last :
  0 <= i -> last < i -> last <= rfind_from c s i last.
Proof.
  revert i last. induction s as [|a s IH]; intros i last Hi Hl; simpl; [lia|].
  destruct (Ascii.eqb a c).
  - etrans; [|apply IH]; lia.
  - apply IH; lia.
Qed.

Lemma rfind_from_none c s i last j last' :
  rfind_from c s i last = last -> 0 <= i -> last < i ->
  rfind_from c s j last' = last'.
Proof.
  revert i last j last'. induction s as [|a s IH]; intros i last j last'; simpl;
    [done|].
  destruct (Ascii.eqb a c).
  - intros H Hi Hl. pose proof (rfind_from_last c s (i + 1) i). lia.
  - intros H Hi Hl. apply (IH (i + 1) last); [done|lia|lia].
Qed.

Lemma substring_app_prefix s2 s3 :
  String.substring 0 (String.length s2) (s2 +:+ s3) = s2.
Proof.
  induction s2 as [|b s2 IH]; simpl; [by destruct s3|]. by rewrite IH.
Qed.

Lemma substring_app_middle s1 s2 s3 :
  String.substring (String.length s1) (String.length s2) (s1 +:+ s2 +:+ s3) = s2.
Proof.
  induction s1 as [|a s1 IH]; [exact (substring_app_prefix s2 s3)|exact IH].
Qed.

Lemma length_append s1 s2 :
  String.length (s1 +:+ s2) = (String.length s1 + String.length s2)%nat.
Proof. induction s1 as [|a s1 IH]; simpl; [done|]. by rewrite IH. Qed.

(** X13: the researcher reads the JSON document out of the prose around
    it: when no opening brace comes before the document and no closing
    brace after it, the text from the first opening brace to the last
    closing brace is the document, and it is that text the decoder is given;
    what the decoder rejects counts as the empty object. *)
Theorem extract_result_data_span pre body post :
  str_find open_brace pre = -1 ->
  str_rfind close_brace post = -1 ->
  let doc := String open_brace (body +:+ String close_brace EmptyString) in
  extract_result_data (pre +:+ doc +:+ post)
  = match json_loads doc with Some v => v | None => JObj [] end.
Proof.
  intros Hpre Hpost doc. unfold extract_result_data.
  assert (str_find open_brace (pre +:+ doc +:+ post)
          = Z.of_nat (String.length pre)) as ->.
  { unfold str_find in *. rewrite find_from_app by done. subst doc. simpl.
    rewrite ?Ascii.eqb_refl. lia. }
  assert (str_rfind close_brace (pre +:+ doc +:+ post) + 1
          = Z.of_nat (String.length pre) + Z.of_nat (String.length doc)) as ->.
  { unfold str_rfind in *. rewrite !rfind_from_app.
    rewrite (rfind_from_none close_brace post 0 (-1)) by (done || lia).
    subst doc. change (String open_brace (body +:+ String close_brace EmptyString))
      with (String open_brace EmptyString +:+ (body +:+ String close_brace EmptyString)).
    rewrite !rfind_from_app. simpl rfind_from at 1.
    rewrite ?Ascii.eqb_refl.
    rewrite !length_append. simpl String.length. lia. }
  rewrite bool_decide_eq_true_2 by lia.
  rewrite bool_decide_eq_true_2 by (subst doc; simpl; lia).
  simpl andb. cbv iota. unfold str_slice.
  rewrite Nat2Z.id.
  replace (Z.to_nat (Z.of_nat (String.length pre) + Z.of_nat (String.length doc)
                     - Z.of_nat (String.length pre)))
    with (String.length doc) by lia.
  by rewrite substring_app_middle.
Qed.

(** ** The topic splitter's second entry point *)

Lemma raise_agrees (e : exn) :
  (∀ sts, @Raise (list Subtopic) e = Ok sts
          ↔ ∃ a, @Raise analysis e = Ok a ∧ analysis_subtopics a = sts)
  ∧ (∀ e', @Raise (list Subtopic) e = Raise e' ↔ @Raise analysis e = Raise e').
Proof.
  split.
  - intros sts. split; [done|]. by intros (a & ? & _).
  - intros e'. split; by intros [= <-].
Qed.

(** X14: [split_topic] and [analyze_topic] agree: on the same pending
    replies, [split_topic] returns the subtopics of the analysis that
    [analyze_topic] returns, raises what it raises, and uses up the same
    reply. *)
Theorem split_topic_agrees topic_ w :
  (∀ sts, (split_topic topic_ w).1 = Ok sts
          ↔ ∃ a, (analyze_topic topic_ w).1 = Ok a ∧ analysis_subtopics a = sts)
  ∧ (∀ e, (split_topic topic_ w).1 = Raise e ↔ (analyze_topic topic_ w).1 = Raise e)
  ∧ splitter_replies (split_topic topic_ w).2
    = splitter_replies (analyze_topic topic_ w).2.
Proof.
  unfold split_topic, analyze_topic, bind. rewrite emit_grow.
  unfold chat, lift, loads. simpl.
  destruct (splitter_replies w) as [|text rest] eqn:Hs; simpl.
  { split; [apply raise_agrees|split; [apply raise_agrees|done]]. }
  destruct (json_loads text) as [data|]; simpl.
  2:{ split; [apply raise_agrees|split; [apply raise_agrees|done]]. }
  unfold parse_analysis, parse_subtopics.
  destruct (py_get data "subtopics" (JArr [])) as [v|e0] eqn:Hv; simpl.
  2:{ split; [apply raise_agrees|split; [apply raise_agrees|done]]. }
  destruct (py_iter v) as [items|e0]; simpl.
  2:{ split; [apply raise_agrees|split; [apply raise_agrees|done]]. }
  destruct (result_map subtopic_of items) as [sts0|e0]; simpl.
  2:{ split; [apply raise_agrees|split; [apply raise_agrees|done]]. }
  destruct data; try done. simpl.
  split; [|split; [|done]].
  - intros sts. split.
    + intros [= <-]. eauto.
    + by intros (a & [= <-] & <-).
  - intros e. split; intros; discriminate.
Qed.

(** ** The web search tool *)

Lemma search_result_of_spec item r :
  search_result_of item = Ok r -> search_result_for item r.
Proof.
  unfold search_result_of, search_result_for.
  destruct item; try done. simpl. intros [= <-]. eauto.
Qed.

Lemma search_results_spec items rs :
  result_map search_result_of items = Ok rs -> Forall2 search_result_for items rs.
Proof.
  revert rs. induction items as [|item items IH]; intros rs; simpl.
  - intros [= <-]. constructor.
  - intros H. apply result_bind_ok in H as (r & Hr & H).
    apply result_bind_ok in H as (rs' & Hrs & [= <-]).
    constructor; [by apply search_result_of_spec|by apply IH].
Qed.

Lemma search_result_for_shape item r :
  search_result_for item r -> search_result_shape r.
Proof. intros (fields & _ & ->). unfold search_result_shape. eauto. Qed.

Lemma web_search_shape query k rs :
  web_search query k = Ok rs -> Forall search_result_shape rs.
Proof.
  unfold web_search. intros H. apply result_bind_ok in H as (tool & _ & H).
  unfold search in H.
  destruct (client_search tool query k) as [response|e0]; simpl in H; [|done].
  destruct (py_get response "results" (JArr [])) as [results|e0]; simpl in H;
    [|done].
  destruct (py_iter results) as [items|e0]; simpl in H; [|done].
  destruct (result_map search_result_of items) as [rs'|e0] eqn:Hm; simpl in H;
    [|done].
  injection H as <-. apply search_results_spec in Hm.
  induction Hm; constructor; [by eapply search_result_for_shape|done].
Qed.

Lemma new_WebSearchTool_spec :
  match TAVILY_API_KEY with
  | Some key =>
      if bool_decide (key = "")
      then new_WebSearchTool None
           = Raise (Exn ValueError "TAVILY_API_KEY not found in environment variables")
      else new_WebSearchTool None = Ok key
  | None => new_WebSearchTool None
            = Raise (Exn ValueError "TAVILY_API_KEY not found in environment variables")
  end.
Proof.
  unfold new_WebSearchTool, py_or. destruct TAVILY_API_KEY as [key|]; [|done].
  by destruct (bool_decide (key = "")).
Qed.

(** X15: [web_search] raises two kinds of exception only.  Without a key
    in the environment it raises the [ValueError] of the constructor, which
    the tool does not wrap; with a key, everything that goes wrong, in the
    client or in the reading of its response, leaves as a [RuntimeError]
    whose message is [Web search failed: ] followed by the message of the
    original exception. *)
Theorem web_search_failures query k e :
  web_search query k = Raise e ->
  match TAVILY_API_KEY with
  | Some key =>
      if bool_decide (key = "")
      then e = Exn ValueError "TAVILY_API_KEY not found in environment variables"
      else ∃ e0, e = Exn RuntimeError ("Web search failed: " +:+ exn_str e0)
                 ∧ (client_search key query k = Raise e0
                    ∨ ∃ response, client_search key query k = Ok response
                                  ∧ (exn_class e0 = AttributeError
                                     ∨ exn_class e0 = TypeError))
  | None => e = Exn ValueError "TAVILY_API_KEY not found in environment variables"
  end.
Proof.
  unfold web_search. pose proof new_WebSearchTool_spec as Hk.
  destruct TAVILY_API_KEY as [key|]; [|rewrite Hk; simpl; by intros [= <-]].
  destruct (bool_decide (key = "")); rewrite Hk; simpl; [by intros [= <-]|].
  unfold search.
  destruct (client_search key query k) as [response|e0] eqn:Hc; simpl.
  2:{ intros [= <-]. eauto. }
  destruct (py_get response "results" (JArr [])) as [results|e0] eqn:Hr; simpl.
  2:{ intros [= <-]. exists e0. split; [done|]. right. exists response.
      split; [done|]. destruct response; simplify_eq/=; by left. }
  destruct (py_iter results) as [items|e0] eqn:Hi; simpl.
  2:{ intros [= <-]. exists e0. split; [done|]. right. exists response.
      split; [done|]. destruct results; simplify_eq/=; by right. }
  destruct (result_map search_result_of items) as [rs|e0] eqn:Hm; simpl; [done|].
  intros [= <-]. exists e0. split; [done|]. right. exists response.
  split; [done|]. left. clear -Hm.
  revert Hm. induction items as [|item items IH]; simpl; [done|].
  destruct (search_result_of item) as [r|e1] eqn:Hr; simpl.
  - destruct (result_map search_result_of items); simpl; [done|].
    intros [= <-]. by apply IH.
  - intros [= <-]. unfold search_result_of in Hr.
    destruct item; simplify_eq/=; done.
Qed.

(** X16: the results [web_search] returns are the entries of the client's
    response, one dict per entry and in their order, none dropped: the
    number asked for is left to the client.  Every dict has the four keys
    [title], [url], [snippet] and [score], the snippet being the [content]
    of the entry, and a key the entry lacks gets the empty string, or 0.0
    for the score. *)
Theorem web_search_results query k rs :
  web_search query k = Ok rs ->
  ∃ key response results items,
    TAVILY_API_KEY = Some key ∧ key ≠ ""
    ∧ client_search key query k = Ok response
    ∧ py_get response "results" (JArr []) = Ok results
    ∧ py_iter results = Ok items
    ∧ Forall2 search_result_for items rs
    ∧ length rs = length items
    ∧ Forall search_result_shape rs.
Proof.
  unfold web_search. pose proof new_WebSearchTool_spec as Hk.
  destruct TAVILY_API_KEY as [key|]; [|by rewrite Hk].
  destruct (bool_decide (key = "")) eqn:Hkey; rewrite Hk; simpl; [done|].
  apply bool_decide_eq_false in Hkey.
  unfold search.
  destruct (client_search key query k) as [response|e0] eqn:Hc; simpl; [|done].
  destruct (py_get response "results" (JArr [])) as [results|e0] eqn:Hr; simpl;
    [|done].
  destruct (py_iter results) as [items|e0] eqn:Hi; simpl; [|done].
  destruct (result_map search_result_of items) as [rs'|e0] eqn:Hm; simpl; [|done].
  intros [= <-]. apply search_results_spec in Hm.
  exists key, response, results, items. split_and!; try done.
  - symmetry. by eapply Forall2_length.
  - clear -Hm. induction Hm; constructor; [by eapply search_result_for_shape|done].
Qed.

(** ** The researcher's tool loop *)

Lemma call_tools_spec max_sources tcs :
  ∀ all_sources queries_used all_sources' queries_used',
    call_tools max_sources tcs all_sources queries_used
    = Ok (all_sources', queries_used') ->
    ∃ found asked,
      all_sources' = all_sources ++ found
      ∧ queries_used' = queries_used ++ asked
      ∧ length asked = length (web_search_calls tcs)
      ∧ Forall search_result_shape found.
Proof.
  induction tcs as [|tc tcs IH]; intros srcs qs srcs' qs'; simpl.
  - intros [= <- <-]. exists [], []. by rewrite !app_nil_r.
  - unfold web_search_calls. rewrite filter_cons.
    destruct (String.eqb (function_name tc) "web_search") eqn:Hname.
    + apply String.eqb_eq in Hname. rewrite decide_True by done.
      intros H. apply result_bind_ok in H as (args & _ & H).
      apply result_bind_ok in H as (query & _ & H).
      apply result_bind_ok in H as (k & _ & H).
      apply result_bind_ok in H as (res & Hres & H).
      apply IH in H as (found & asked & -> & -> & Hlen & Hshape).
      apply web_search_shape in Hres.
      exists (res ++ found), (query :: asked). rewrite <- !app_assoc.
      split_and!; try done.
      * simpl. by rewrite Hlen.
      * by apply Forall_app.
    + apply String.eqb_neq in Hname. rewrite decide_False by done.
      apply IH.
Qed.

Lemma agent_loop_spec max_sources pending :
  ∀ response all_sources queries_used all_sources' queries_used' final_message,
    agent_loop max_sources pending response all_sources queries_used
    = Ok (all_sources', queries_used', final_message) ->
    ∃ answered final rest found asked,
      response :: pending = answered ++ final :: rest
      ∧ Forall (fun c => tool_calls c ≠ []) answered
      ∧ tool_calls final = []
      ∧ final_message = content final
      ∧ all_sources' = all_sources ++ found
      ∧ queries_used' = queries_used ++ asked
      ∧ length asked = length (web_search_calls (answered ≫= tool_calls))
      ∧ Forall search_result_shape found.
Proof.
  induction pending as [|next pending IH];
    intros response srcs qs srcs' qs' text; simpl.
  - destruct (tool_calls response) as [|tc tcs] eqn:Htc.
    + intros [= <- <- <-]. exists [], response, [], [], [].
      by rewrite !app_nil_r.
    + by destruct (call_tools _ _ _ _) as [[? ?]|].
  - destruct (tool_calls response) as [|tc tcs] eqn:Htc.
    + intros [= <- <- <-]. exists [], response, (next :: pending), [], [].
      by rewrite !app_nil_r.
    + destruct (call_tools max_sources (tc :: tcs) srcs qs) as [[srcs1 qs1]|]
        eqn:Hcalls; [|done].
      apply call_tools_spec in Hcalls as (found1 & asked1 & -> & -> & Hlen1 & Hs1).
      intros H.
      apply IH in H as (answered & final & rest & found & asked & Heq & Hall
                          & Hfinal & -> & -> & -> & Hlen & Hs).
      exists (response :: answered), final, rest, (found1 ++ found),
        (asked1 ++ asked).
      rewrite Heq, <- !app_assoc. split_and!; try done.
      * constructor; [by rewrite Htc|done].
      * rewrite bind_cons, Htc. unfold web_search_calls in *.
        rewrite filter_app, !length_app. by rewrite Hlen1, Hlen.
      * by apply Forall_app.
Qed.

(** X17: a session of a researcher that ends well ends at the first
    completion without tool calls, whose content is the final message;
    the completions after it are not asked for.  It records one query per
    [web_search] call of the completions before, calls of other tools being
    ignored, and every source it hands to [_parse_findings] has the four
    keys of a search result, so that reading its [url] cannot fail. *)
Theorem research_session_outcome max_sources completions
    all_sources queries_used final_message :
  research_session max_sources completions
  = Ok (all_sources, queries_used, final_message) ->
  ∃ answered final rest,
    completions = answered ++ final :: rest
    ∧ Forall (fun c => tool_calls c ≠ []) answered
    ∧ tool_calls final = []
    ∧ final_message = content final
    ∧ length queries_used = length (web_search_calls (answered ≫= tool_calls))
    ∧ Forall search_result_shape all_sources.
Proof.
  unfold research_session. destruct completions as [|response pending]; [done|].
  intros H.
  apply agent_loop_spec in H as (answered & final & rest & found & asked & Heq
                                   & Hall & Hfinal & -> & -> & -> & Hlen & Hs).
  exists answered, final, rest. by split_and!.
Qed.

(** ** The progress of the sequential path *)

Lemma sequential_progress_mono n i j :
  (i ≤ j)%nat -> (0 < n)%nat ->
  (sequential_progress n i <= sequential_progress n j)%Q.
Proof.
  intros Hij Hn. unfold sequential_progress.
  apply Qplus_le_r. unfold Qdiv. apply Qmult_le_compat_r.
  - apply Qmult_le_l; [reflexivity|]. rewrite <- Zle_Qle. lia.
  - apply Qinv_le_0_compat. change 0%Q with (inject_Z 0). rewrite <- Zle_Qle. lia.
Qed.

Lemma sequential_progress_bounds n i :
  (i ≤ n)%nat -> (0 < n)%nat ->
  (0.2 <= sequential_progress n i)%Q ∧ (sequential_progress n i <= 0.8)%Q.
Proof.
  intros Hi Hn. unfold sequential_progress.
  assert (0 < inject_Z (Z.of_nat n))%Q as Hpos.
  { change 0%Q with (inject_Z 0). rewrite <- Zlt_Qlt. lia. }
  assert (0 <= 0.6 * inject_Z (Z.of_nat i) / inject_Z (Z.of_nat n))%Q as H0.
  { apply Qle_shift_div_l; [done|]. rewrite Qmult_0_l.
    apply Qmult_le_0_compat; [done|]. change 0%Q with (inject_Z 0).
    rewrite <- Zle_Qle. lia. }
  assert (0.6 * inject_Z (Z.of_nat i) / inject_Z (Z.of_nat n) <= 0.6)%Q as H1.
  { apply Qle_shift_div_r; [done|]. apply Qmult_le_l; [reflexivity|].
    rewrite <- Zle_Qle. lia. }
  split; lra.
Qed.

Lemma nondecreasing_prefix l1 l2 :
  nondecreasing (l1 ++ l2) = true -> nondecreasing l1 = true.
Proof.
  induction l1 as [|p [|q l1] IH]; simpl; try done.
  intros [H1 H2]%andb_prop. rewrite H1. simpl. by apply IH.
Qed.

Lemma nondecreasing_cons p l :
  (match l with [] => True | q :: _ => (p <= q)%Q end) ->
  nondecreasing l = true ->
  nondecreasing (p :: l) = true.
Proof.
  destruct l as [|q l]; simpl; [done|].
  intros Hpq Hl. rewrite Hl, andb_true_r. by apply Qle_bool_iff.
Qed.

Lemma nondecreasing_seq (f : nat -> Q) (tail : list Q) i k :
  (∀ j, (i ≤ j)%nat -> (S j < i + k)%nat -> (f j <= f (S j))%Q) ->
  (∀ q, head tail = Some q -> (0 < k)%nat -> (f (i + k - 1)%nat <= q)%Q) ->
  nondecreasing tail = true ->
  nondecreasing ((f <$> seq i k) ++ tail) = true.
Proof.
  revert i. induction k as [|k IH]; intros i Hstep Hlast Htail; [done|].
  cbn [seq fmap list_fmap app].
  apply nondecreasing_cons.
  - destruct k as [|k]; simpl.
    + destruct tail as [|q tail]; [done|].
      specialize (Hlast q eq_refl ltac:(lia)).
      by replace (i + 1 - 1)%nat with i in Hlast by lia.
    + apply Hstep; lia.
  - apply IH; [| |done].
    + intros j Hj Hj'. apply Hstep; lia.
    + intros q Hq Hk. specialize (Hlast q Hq ltac:(lia)).
      by replace (S i + k - 1)%nat with (i + S k - 1)%nat by lia.
Qed.

Lemma within_unit_interval_prefix l1 l2 :
  within_unit_interval (l1 ++ l2) = true -> within_unit_interval l1 = true.
Proof.
  unfold within_unit_interval. rewrite forallb_app. by intros [? _]%andb_prop.
Qed.

Lemma sequential_progress_values_ok n :
  nondecreasing (sequential_progress_values n) = true
  ∧ within_unit_interval (sequential_progress_values n) = true.
Proof.
  unfold sequential_progress_values. split.
  - apply nondecreasing_cons.
    + destruct n as [|n]; [done|]. simpl.
      destruct (sequential_progress_bounds (S n) 0) as [H _]; [lia|lia|]. lra.
    + apply nondecreasing_seq; [| |done].
      * intros j _ Hj. apply sequential_progress_mono; lia.
      * intros q [= <-] Hn.
        by destruct (sequential_progress_bounds n (0 + n - 1)) as [_ H]; [lia|lia|].
  - unfold within_unit_interval. simpl. rewrite forallb_app. simpl.
    rewrite andb_true_r. apply forallb_forall. intros p Hp.
    apply in_map_iff in Hp as (i & <- & Hi). apply in_seq in Hi.
    destruct (sequential_progress_bounds n i) as [H1 H2]; [lia|lia|].
    apply andb_true_iff. split; apply Qle_bool_iff; lra.
Qed.

Lemma research_each_progress callback n sts :
  ∀ i acc w r w',
    research_each callback n i sts acc w = (r, w') ->
    ∃ k l, (k ≤ length sts)%nat
           ∧ (is_ok r = true -> k = length sts)
           ∧ trace w' = trace w ++ l
           ∧ progress_values l
             = if callback then sequential_progress n <$> seq i k else [].
Proof.
  induction sts as [|st sts IH]; intros i acc w r w'; simpl.
  - intros [= <- <-]. exists 0%nat, []. rewrite app_nil_r.
    split_and!; try done. by destruct callback.
  - unfold bind at 1. rewrite update_progress_grow.
    unfold bind at 1. rewrite emit_grow, grow_grow.
    match goal with |- context [grow ?p w] => set (p1 := p) end.
    unfold bind at 1.
    destruct (research_subtopic (grow p1 w) i st) as [res|e].
    + intros H. apply IH in H as (k & l & Hk & Hok & -> & Hl).
      exists (S k), (p1 ++ l). split; [simpl; lia|].
      split; [intros Hr; by rewrite Hok|].
      split; [simpl; by rewrite <- app_assoc|].
      rewrite progress_values_app, Hl. subst p1. by destruct callback.
    + intros [= <- <-]. exists 1%nat, p1. split; [simpl; lia|].
      split; [done|]. split; [done|]. subst p1. by destruct callback.
Qed.

Lemma analyze_topic_grow topic_ l w :
  (analyze_topic topic_ (grow l w)).1 = (analyze_topic topic_ w).1.
Proof.
  unfold analyze_topic, bind. rewrite !emit_grow. unfold chat, lift. simpl.
  by destruct (splitter_replies w).
Qed.

Lemma synthesize_trace topic_ findings style tone w res w' :
  synthesize topic_ findings style tone w = (res, w') ->
  trace w' = trace w ++ [Called Synthesize].
Proof.
  unfold synthesize, bind. rewrite emit_grow. unfold chat, lift. simpl.
  destruct (synthesizer_replies w); simpl; by intros [= <- <-].
Qed.

(** X18: unlike the parallel path, the sequential path reports a progress
    that never decreases and stays between 0 and 1, however the run ends:
    what is reported is an initial part of 0.1, then 0.2 + 0.6 i / n before
    subtopic [i] of [n] is researched, then 0.8 and 1.0; all of it when the
    run returns a report. *)
Theorem run_sequential_progress topic_ style tone callback w res w' :
  run_sequential topic_ style tone callback w = (res, w') ->
  ∃ l n,
    trace w' = trace w ++ l
    ∧ progress_values l `prefix_of` sequential_progress_values n
    ∧ (callback = true -> is_ok res = true ->
       progress_values l = sequential_progress_values n)
    ∧ nondecreasing (progress_values l) = true
    ∧ within_unit_interval (progress_values l) = true.
Proof.
  intros H.
  assert (∃ l n, trace w' = trace w ++ l
                 ∧ progress_values l `prefix_of` sequential_progress_values n
                 ∧ (callback = true -> is_ok res = true ->
                    progress_values l = sequential_progress_values n))
    as (l & n & Htr & [rest Hpre] & Hall).
  2:{ exists l, n. split; [done|]. split; [by exists rest|]. split; [done|].
      destruct (sequential_progress_values_ok n) as [Hn Hu].
      rewrite Hpre in Hn, Hu.
      split; [by eapply nondecreasing_prefix|by eapply within_unit_interval_prefix]. }
  unfold run_sequential in H.
  apply bind_inv in H as [(u & w1 & H0 & H)|(e & H0 & _)];
    rewrite update_progress_grow in H0; [injection H0 as <- <-|done].
  match type of H with context [grow ?p w] => set (p0 := p) in * end.
  apply bind_inv in H as [(a & w2 & Ha & H)|(e & Ha & ->)];
    apply analyze_topic_trace in Ha as [Ht2 _].
  2:{ exists (p0 ++ [Called AnalyzeTopic]), 0%nat. simpl in Ht2.
      rewrite Ht2, <- app_assoc. split; [done|]. split; [|done].
      rewrite progress_values_app. subst p0. destruct callback; simpl.
      - by exists [0.8%Q; 1.0%Q].
      - apply prefix_nil. }
  simpl in Ht2.
  cbv zeta in H.
  apply bind_inv in H as [(fs & w3 & Hfs & H)|(e & Hfs & ->)];
    apply research_each_progress in Hfs as (k & l3 & Hk & Hok & Ht3 & Hl3).
  2:{ exists (p0 ++ [Called AnalyzeTopic] ++ l3), (length (analysis_subtopics a)).
      rewrite Ht3, Ht2, <- !app_assoc. split; [done|]. split; [|done].
      rewrite !progress_values_app, Hl3. subst p0. destruct callback; simpl.
      - unfold sequential_progress_values. apply prefix_cons.
        exists ((sequential_progress (length (analysis_subtopics a))
                   <$> seq k (length (analysis_subtopics a) - k))
                  ++ [0.8%Q; 1.0%Q]).
        rewrite app_assoc, <- fmap_app, <- seq_app. do 3 f_equal. lia.
      - apply prefix_nil. }
  specialize (Hok eq_refl). subst k.
  apply bind_inv in H as [(u & w4 & H0 & H)|(e & H0 & _)];
    rewrite update_progress_grow in H0; [injection H0 as <- <-|done].
  match type of H with context [grow ?p w3] => set (p4 := p) in * end.
  apply bind_inv in H as [(report & w5 & Hsy & H)|(e & Hsy & ->)];
    apply synthesize_trace in Hsy as Ht5; simpl in Ht5.
  2:{ exists (p0 ++ [Called AnalyzeTopic] ++ l3 ++ p4 ++ [Called Synthesize]),
        (length (analysis_subtopics a)).
      rewrite Ht5, Ht3, Ht2, <- !app_assoc. split; [done|]. split; [|done].
      rewrite !progress_values_app, Hl3. subst p0 p4. destruct callback; simpl.
      - unfold sequential_progress_values. apply prefix_cons.
        apply prefix_app. by exists [1.0%Q].
      - apply prefix_nil. }
  apply bind_inv in H as [(u & w6 & H0 & H)|(e & H0 & _)];
    rewrite update_progress_grow in H0; [injection H0 as <- <-|done].
  injection H as <- <-.
  exists (p0 ++ [Called AnalyzeTopic] ++ l3 ++ p4 ++ [Called Synthesize]
             ++ (if callback then [Progress 1.0%Q "Complete!"] else [])),
    (length (analysis_subtopics a)).
  split; [simpl; by rewrite Ht5, Ht3, Ht2, <- !app_assoc|].
  rewrite !progress_values_app, Hl3. subst p0 p4. destruct callback; simpl.
  - unfold sequential_progress_values. by split.
  - split; [apply prefix_nil|done].
Qed.

(** ** The progress of the parallel path *)

Lemma within_unit_interval_Forall l :
  Forall unit_interval l -> within_unit_interval l = true.
Proof.
  unfold within_unit_interval. induction 1 as [|p l [H0 H1] _ IH]; [done|].
  simpl. rewrite IH, andb_true_r. apply andb_true_iff.
  split; by apply Qle_bool_iff.
Qed.

Lemma research_progress_bounds c n :
  0 <= c <= Z.of_nat n -> (0 < n)%nat ->
  (0.2 <= research_progress c n)%Q ∧ (research_progress c n <= 0.8)%Q.
Proof.
  intros Hc Hn. unfold research_progress.
  assert (0 < inject_Z (Z.of_nat n))%Q as Hpos.
  { change 0%Q with (inject_Z 0). rewrite <- Zlt_Qlt. lia. }
  assert (0 <= 0.6 * inject_Z c / inject_Z (Z.of_nat n))%Q as H0.
  { apply Qle_shift_div_l; [done|]. rewrite Qmult_0_l.
    apply Qmult_le_0_compat; [done|]. change 0%Q with (inject_Z 0).
    rewrite <- Zle_Qle. lia. }
  assert (0.6 * inject_Z c / inject_Z (Z.of_nat n) <= 0.6)%Q as H1.
  { apply Qle_shift_div_r; [done|]. apply Qmult_le_l; [reflexivity|].
    rewrite <- Zle_Qle. lia. }
  split; lra.
Qed.

Lemma critic_progress_bounds i :
  0 <= i <= max_revisions self ->
  (0.8 <= critic_progress i)%Q ∧ (critic_progress i <= 0.95)%Q.
Proof.
  intros Hi. unfold critic_progress.
  assert (0 < inject_Z (max_revisions self + 1))%Q as Hpos.
  { change 0%Q with (inject_Z 0). rewrite <- Zlt_Qlt. lia. }
  assert (0 <= 0.15 * inject_Z i / inject_Z (max_revisions self + 1))%Q as H0.
  { apply Qle_shift_div_l; [done|]. rewrite Qmult_0_l.
    apply Qmult_le_0_compat; [done|]. change 0%Q with (inject_Z 0).
    rewrite <- Zle_Qle. lia. }
  assert (0.15 * inject_Z i / inject_Z (max_revisions self + 1) <= 0.15)%Q as H1.
  { apply Qle_shift_div_r; [done|]. apply Qmult_le_l; [reflexivity|].
    rewrite <- Zle_Qle. lia. }
  split; lra.
Qed.

Lemma progress_values_if (callback : bool) (p : Q) (message : string) :
  unit_interval p ->
  Forall unit_interval
    (progress_values (if callback then [Progress p message] else [])).
Proof. intros Hp. destruct callback; simpl; [by constructor|constructor]. Qed.

Lemma collect_progress futures n callback as_completed :
  ∀ acc completed w,
    0 <= completed ->
    completed + Z.of_nat (length as_completed) <= Z.of_nat n ->
    ∃ res l, collect futures n callback as_completed acc completed w
             = (res, grow l w)
             ∧ Forall unit_interval (progress_values l).
Proof.
  induction as_completed as [|future rest IH]; intros acc completed w H0 Hn; simpl.
  - exists (Ok acc), []. by rewrite grow_nil.
  - simpl in Hn. destruct (futures !! future) as [[idx st]|]; [|apply IH; lia].
    unfold bind at 1, future_result.
    destruct (research_subtopic w future st) as [found|e].
    + unfold bind at 1. rewrite update_progress_grow.
      match goal with |- context [grow ?l0 w] => set (l1 := l0) end.
      destruct (IH (acc ++ [(idx, found)]) (completed + 1) (grow l1 w))
        as (res & l & -> & Hl); [lia|lia|].
      exists res, (l1 ++ l). rewrite grow_grow. split; [done|].
      rewrite progress_values_app. apply Forall_app. split; [|done].
      apply progress_values_if.
      destruct (research_progress_bounds (completed + 1) n) as [Hlo Hhi];
        [lia|lia|]. split; lra.
    + apply IH; lia.
Qed.

Lemma research_in_parallel_progress topic_ (sts : list Subtopic) callback
    as_completed w :
  (length as_completed ≤ length sts)%nat ->
  ∃ fs l, _research_in_parallel topic_ sts callback as_completed w
          = (Ok fs, grow l w)
          ∧ Forall unit_interval (progress_values l).
Proof.
  intros Hlen.
  destruct (research_in_parallel_total topic_ sts callback as_completed w)
    as (fs & l0 & Hrun & _).
  unfold _research_in_parallel in *. unfold bind at 1 in Hrun. unfold bind at 1.
  destruct (submit_from_spec sts 0 ∅ w) as (m & Hm & _).
  rewrite Hm in *. unfold bind at 1 in Hrun. unfold bind at 1.
  destruct (collect_progress m (length sts) callback as_completed [] 0
              (grow (submissions 0 (length sts)) w)) as (res & l & Hc & Hl);
    [lia|lia|].
  rewrite Hc in *. destruct res as [found|e]; [|done].
  unfold ret. rewrite grow_grow. eexists _, _. split; [done|].
  rewrite progress_values_app. apply Forall_app. split; [|done].
  unfold submissions. clear. generalize 0%nat.
  induction (length sts) as [|n IH]; intros i; simpl; [constructor|apply IH].
Qed.

Lemma critic_loop_progress style tone callback fuel :
  ∀ i current w res w',
    0 <= i ->
    critic_loop style tone callback fuel i current w = (res, w') ->
    ∃ l, trace w' = trace w ++ l ∧ Forall unit_interval (progress_values l).
Proof.
  induction fuel as [|fuel IH]; intros i current w res w' Hi H.
  - cbn [critic_loop] in H. exists []. rewrite app_nil_r. split; [|constructor].
    destruct (bool_decide _); by injection H as _ <-.
  - cbn [critic_loop] in H.
    destruct (bool_decide (i < max_revisions self)) eqn:Hlt.
    2:{ injection H as _ <-. exists []. rewrite app_nil_r. by split. }
    apply bool_decide_eq_true_1 in Hlt.
    assert (unit_interval (critic_progress (i + 1))) as Hcp.
    { destruct (critic_progress_bounds (i + 1)) as [Hlo Hhi]; [lia|]. split; lra. }
    assert (unit_interval 0.95%Q) as H95 by (split; lra).
    unfold bind at 1 in H. rewrite update_progress_grow in H.
    match type of H with context [grow ?p w] => set (p1 := p) in * end.
    assert (Forall unit_interval (progress_values p1)) as Hp1
      by (by apply progress_values_if).
    apply bind_inv in H as [(rv & w2 & Hrv & H)|(e & Hrv & _)];
      apply critic_review_of_trace in Hrv as (l0 & Htr2 & Hl0 & _).
    2:{ exists (p1 ++ l0). split.
        { rewrite Htr2. simpl. by rewrite app_assoc. }
        rewrite progress_values_app. apply Forall_app. split; [done|].
        destruct Hl0 as [-> | ->]; simpl; constructor. }
    assert (trace w2 = trace w ++ p1 ++ l0) as Htw2.
    { rewrite Htr2. simpl. by rewrite <- app_assoc. }
    assert (Forall unit_interval (progress_values l0)) as Hpl0.
    { destruct Hl0 as [-> | ->]; simpl; constructor. }
    cbn zeta in H.
    change (decision (set_iteration (i + 1) rv)) with (decision rv) in H.
    destruct (String.eqb (decision rv) "APPROVED").
    { unfold bind in H. rewrite update_progress_grow in H. injection H as _ <-.
      eexists (p1 ++ l0 ++ _). split.
      { simpl. by rewrite Htw2, <- !app_assoc. }
      rewrite !progress_values_app. repeat (apply Forall_app; split); try done.
      by apply progress_values_if. }
    destruct (String.eqb (decision rv) "REVISION_NEEDED").
    2:{ apply IH in H as (l & Htr & Hl); [|lia].
        exists (p1 ++ l0 ++ l). split; [by rewrite Htr, Htw2, <- !app_assoc|].
        rewrite !progress_values_app. by repeat (apply Forall_app; split). }
    destruct (bool_decide (i + 1 >= max_revisions self)).
    { unfold bind in H. rewrite update_progress_grow in H. injection H as _ <-.
      eexists (p1 ++ l0 ++ _). split.
      { simpl. by rewrite Htw2, <- !app_assoc. }
      rewrite !progress_values_app. repeat (apply Forall_app; split); try done.
      by apply progress_values_if. }
    unfold bind at 1 in H. rewrite update_progress_grow in H.
    match type of H with context [grow ?p w2] => set (p2 := p) in * end.
    assert (Forall unit_interval (progress_values p2)) as Hp2
      by (by apply progress_values_if).
    apply bind_inv in H as [(revised & w4 & Hrevise & H)|(e & Hrevise & _)];
      apply revise_trace in Hrevise; simpl in Hrevise.
    2:{ exists (p1 ++ l0 ++ p2 ++ [Called Revise]). split.
        { by rewrite Hrevise, Htw2, <- !app_assoc. }
        rewrite !progress_values_app.
        repeat (apply Forall_app; split); first [done|constructor]. }
    apply IH in H as (l & Htr & Hl); [|lia].
    exists (p1 ++ l0 ++ p2 ++ [Called Revise] ++ l). split.
    { by rewrite Htr, Hrevise, Htw2, <- !app_assoc. }
    rewrite !progress_values_app.
    repeat (apply Forall_app; split); first [done|constructor].
Qed.

(** X19: every progress value a run reports lies between 0 and 1, however
    the run ends, whatever the splitter, the researchers, the synthesizer
    and the critic reply, and in whatever order the researchers complete:
    [as_completed] is any order in which the tasks submitted for the
    subtopics complete, each of them once. *)
Theorem run_progress_within_unit_interval topic_ style tone callback
    as_completed w res w' :
  (∀ a, (analyze_topic topic_ w).1 = Ok a ->
        as_completed ≡ₚ seq 0 (length (analysis_subtopics a))) ->
  run topic_ style tone callback as_completed w = (res, w') ->
  ∃ l, trace w' = trace w ++ l
       ∧ within_unit_interval (progress_values l) = true.
Proof.
  intros Hcompleted H.
  assert (unit_interval 0.1%Q ∧ unit_interval 0.2%Q ∧ unit_interval 0.7%Q
          ∧ unit_interval 1.0%Q) as (H01 & H02 & H07 & H10)
    by (unfold unit_interval; split_and!; lra).
  assert (∃ l, trace w' = trace w ++ l ∧ Forall unit_interval (progress_values l))
    as (l & Htr & Hl);
    [|exists l; split; [done|by apply within_unit_interval_Forall]].
  unfold run in H. unfold bind at 1 in H. rewrite update_progress_grow in H.
  match type of H with context [grow ?p w] => set (p0 := p) in * end.
  assert (Forall unit_interval (progress_values p0)) as Hp0
    by (by apply progress_values_if).
  apply bind_inv in H as [(a & w1 & Ha & H)|(e & Ha & _)].
  2:{ apply analyze_topic_trace in Ha as [Ht _].
      exists (p0 ++ [Called AnalyzeTopic]). split.
      { rewrite Ht. simpl. by rewrite <- app_assoc. }
      rewrite progress_values_app. apply Forall_app. by split. }
  assert (as_completed ≡ₚ seq 0 (length (analysis_subtopics a))) as Hperm.
  { apply Hcompleted. by rewrite <- (analyze_topic_grow topic_ p0 w), Ha. }
  apply analyze_topic_trace in Ha as [Ht1' _].
  assert (trace w1 = trace w ++ p0 ++ [Called AnalyzeTopic]) as Ht1.
  { rewrite Ht1'. simpl. by rewrite <- app_assoc. }
  clear Ht1'.
  apply Permutation_length in Hperm. rewrite length_seq in Hperm.
  destruct (analysis_subtopics a) as [|st sts] eqn:Hsts.
  { injection H as _ <-. exists (p0 ++ [Called AnalyzeTopic]). split; [done|].
    rewrite progress_values_app. apply Forall_app. by split. }
  rewrite <- Hsts in *.
  unfold bind at 1 in H. rewrite update_progress_grow in H.
  match type of H with context [grow ?p w1] => set (p1 := p) in * end.
  assert (Forall unit_interval (progress_values p1)) as Hp1
    by (by apply progress_values_if).
  unfold bind at 1 in H.
  destruct (research_in_parallel_progress topic_ (analysis_subtopics a) callback
              as_completed (grow p1 w1)) as (fs & l2 & Hrun & Hl2); [lia|].
  rewrite Hrun in H.
  unfold bind at 1 in H. rewrite update_progress_grow in H.
  match type of H with context [grow ?p (grow l2 _)] => set (p2 := p) in * end.
  assert (Forall unit_interval (progress_values p2)) as Hp2
    by (by apply progress_values_if).
  apply bind_inv in H as [(report & w3 & Hsy & H)|(e & Hsy & _)];
    apply synthesize_trace in Hsy; simpl in Hsy; rewrite Ht1 in Hsy.
  2:{ exists (p0 ++ [Called AnalyzeTopic] ++ p1 ++ l2 ++ p2 ++ [Called Synthesize]).
      split; [by rewrite Hsy, <- !app_assoc|].
      rewrite !progress_values_app.
      repeat (apply Forall_app; split); first [done|constructor]. }
  assert (∃ lc wc rc,
            (if enable_critic self && bool_decide (is_Some (critic self))
             then _run_critic_loop report style tone callback
             else ret report) w3 = (rc, wc)
            ∧ trace wc = trace w3 ++ lc
            ∧ Forall unit_interval (progress_values lc)) as
    (lc & wc & rc & Hloop & Htc & Hlc).
  { destruct (enable_critic self && bool_decide (is_Some (critic self))).
    - destruct (_run_critic_loop report style tone callback w3) as [rc wc] eqn:Hc.
      unfold _run_critic_loop in Hc.
      apply critic_loop_progress in Hc as (lc & Htc & Hlc); [|lia].
      by exists lc, wc, rc.
    - exists [], w3, (Ok report). rewrite app_nil_r. by split_and!. }
  apply bind_inv in H as [(final & w4 & Hloop' & H)|(e & Hloop' & _)];
    rewrite Hloop in Hloop'; injection Hloop' as -> ->.
  2:{ exists (p0 ++ [Called AnalyzeTopic] ++ p1 ++ l2 ++ p2 ++ [Called Synthesize]
                 ++ lc).
      split; [by rewrite Htc, Hsy, <- !app_assoc|].
      rewrite !progress_values_app.
      repeat (apply Forall_app; split); first [done|constructor]. }
  unfold bind in H. rewrite update_progress_grow in H. injection H as _ <-.
  eexists (p0 ++ [Called AnalyzeTopic] ++ p1 ++ l2 ++ p2 ++ [Called Synthesize]
              ++ lc ++ _).
  split; [simpl; by rewrite Htc, Hsy, <- !app_assoc|].
  rewrite !progress_values_app.
  repeat (apply Forall_app; split);
    first [done|by apply progress_values_if|constructor].
Qed.

End Pipeline.

(** ** The statements at work on the sample data *)

Lemma sample_order : [2; 0; 1]%nat ≡ₚ seq 0 3.
Proof.
  simpl. etrans; [apply Permutation_swap|]. apply perm_skip, Permutation_swap.
Qed.

(** Two findings that share a URL yield three sources, the shared one once. *)
Lemma build_report_all_sources_witness :
  ∃ r,
    _build_report "t0" "gpt" "Renewable energy storage" sample_batch (JObj []) = Ok r
    ∧ all_sources r
      = [sample_source "https://example.org/a" "A";
         sample_source "https://example.org/b" "B";
         sample_source "https://example.org/c" "C"]
    ∧ NoDup (url <$> all_sources r).
Proof.
  eexists. split; [vm_compute; reflexivity|]. split; [reflexivity|].
  match goal with
  | |- NoDup (url <$> all_sources ?r) =>
      destruct (build_report_all_sources "t0" "gpt"
                  "Renewable energy storage" sample_batch (JObj []) r)
        as (_ & H & _); [reflexivity|exact H]
  end.
Defined.

(** Researcher 2 of three fails; the tasks complete in the order 3, 1, 2. *)
Lemma research_in_parallel_contains_failure_witness :
  ∃ fs w',
    _research_in_parallel sample_loads "t0" "gpt" "Renewable energy storage"
      sample_subtopics true [2; 0; 1]%nat (sample_world [] [] []) = (Ok fs, w')
    ∧ length fs = 3%nat
    ∧ ∃ f, fs !! 1%nat = Some f ∧ sources f = [] ∧ key_insights f = []
           ∧ metadata f = [("error", JStr "Web search failed: timeout")].
Proof.
  destruct (research_in_parallel_contains_failure sample_loads "t0" "gpt"
              "Renewable energy storage" sample_subtopics true [2; 0; 1]%nat
              (sample_world [] [] []) 1%nat (sample_subtopic "Grid-scale deployment")
              (Exn RuntimeError "Web search failed: timeout"))
    as (fs & w' & Hrun & Hlen & (f & Hf & _ & Hs & Hk & Hm & _) & _).
  - exact sample_order.
  - reflexivity.
  - reflexivity.
  - exists fs, w'. split; [exact Hrun|]. split; [exact Hlen|].
    exists f. by repeat split.
Defined.

(** A researcher that raises an exception without a text leaves a
    placeholder whose error entry is empty. *)
Lemma research_in_parallel_empty_error_text :
  ∃ fs w',
    _research_in_parallel sample_loads "t0" "gpt" "Renewable energy storage"
      [sample_subtopic "Cost trends"] true [0]%nat silent_world = (Ok fs, w')
    ∧ ∃ f, fs !! 0%nat = Some f
           ∧ sources f = [] ∧ key_insights f = []
           ∧ metadata f = [("error", JStr "")]
           ∧ assoc "error" (metadata f) = Some (JStr "").
Proof.
  eexists _, _. split; [vm_compute; reflexivity|].
  eexists. split; [reflexivity|]. by split_and!.
Qed.


Lemma sample_review_reply d text data :
  sample_loads text = Some data ->
  (∃ rv, parse_review 1 data = Ok rv ∧ decision rv = d) ->
  review_reply sample_loads 1 d text.
Proof. intros Hd (rv & Hp & Hdec). by exists data, rv. Qed.

(** A budget of two reviews and a critic that is never satisfied. *)
Lemma critic_loop_exhausts_budget_witness :
  ∃ r' w',
    _run_critic_loop sample_loads "t0" "gpt" 1
      (new_orchestrator 3 8 3 true 2 "balanced") (sample_report 0)
      "Technical" "Neutral" true
      (sample_world [] ["{}"] [needs_revision_text; needs_revision_text])
    = (Ok r', w')
    ∧ count_calls is_revise (trace w') = 1%nat
    ∧ revision_count r' = 1
    ∧ iteration <$> critic_review r' = Some 2.
Proof.
  destruct (critic_loop_exhausts_budget sample_loads "t0" "gpt" 1
              (new_orchestrator 3 8 3 true 2 "balanced") (sample_report 0)
              "Technical" "Neutral" true
              (sample_world [] ["{}"] [needs_revision_text; needs_revision_text])
              "balanced" 2 [needs_revision_text; needs_revision_text] []
              ["{}"] [])
    as (r' & w' & rv & l & Hrun & Htr & Hrev & _ & Hcount & Hcr & Hit & _).
  - reflexivity.
  - reflexivity.
  - lia.
  - reflexivity.
  - reflexivity.
  - repeat constructor;
      (eapply sample_review_reply; [reflexivity|eexists; split; reflexivity]).
  - reflexivity.
  - reflexivity.
  - repeat constructor. eexists. split; reflexivity.
  - exists r', w'. split; [exact Hrun|]. rewrite Htr, Hcr, Hcount. simpl.
    split; [lia|]. split; [reflexivity|]. by rewrite Hit.
Defined.

(** With a budget of one review, a report that already counts one revision
    comes back with a count of 1, not of [N - 1 = 0]. *)
Lemma critic_loop_count_counterexample :
  ∃ r' w',
    _run_critic_loop sample_loads "t0" "gpt" 1
      (new_orchestrator 3 8 3 true 1 "balanced") (sample_report 1)
      "Technical" "Neutral" true (sample_world [] [] [needs_revision_text])
    = (Ok r', w')
    ∧ decision <$> critic_review r' = Some "REVISION_NEEDED"
    ∧ count_calls is_revise (trace w') = 0%nat
    ∧ revision_count r' = 1
    ∧ revision_count r' ≠ 1 - 1.
Proof.
  eexists _, _. split; [vm_compute; reflexivity|].
  split; [reflexivity|]. split; [reflexivity|]. split; [reflexivity|]. simpl. lia.
Qed.

(** A budget of three reviews; the critic approves the first revision. *)
Lemma critic_loop_early_exit_witness :
  ∃ r' w',
    _run_critic_loop sample_loads "t0" "gpt" 1
      (new_orchestrator 3 8 3 true 3 "balanced") (sample_report 0)
      "Technical" "Neutral" true
      (sample_world [] ["{}"] [needs_revision_text; "{}"])
    = (Ok r', w')
    ∧ count_calls is_revise (trace w') = 1%nat
    ∧ iteration <$> critic_review r' = Some 2.
Proof.
  destruct (critic_loop_early_exit sample_loads "t0" "gpt" 1
              (new_orchestrator 3 8 3 true 3 "balanced") (sample_report 0)
              "Technical" "Neutral" true
              (sample_world [] ["{}"] [needs_revision_text; "{}"])
              "balanced" needs_revision_text "{}" [] "{}" [])
    as (r' & w' & rv & l & Hrun & Htr & Hrev & _ & Hcr & Hit & _).
  - reflexivity.
  - reflexivity.
  - reflexivity.
  - eapply sample_review_reply; [reflexivity|eexists; split; reflexivity].
  - eapply sample_review_reply; [reflexivity|eexists; split; reflexivity].
  - reflexivity.
  - eexists. split; reflexivity.
  - exists r', w'. split; [exact Hrun|]. rewrite Htr, Hcr. simpl.
    split; [exact Hrev|]. by rewrite Hit.
Defined.

(** Three subtopics whose researchers complete in the order 3, 1, 2. *)
Lemma run_findings_in_splitter_order_witness :
  ∃ report w',
    run sample_loads "t0" "gpt" 1 (new_orchestrator 3 8 3 true 2 "balanced")
      "Renewable energy storage" "Technical" "Neutral" true [2; 0; 1]%nat
      (sample_world [three_subtopics_text] ["{}"] ["{}"]) = (Ok report, w')
    ∧ length (subtopic_findings report) = 3%nat
    ∧ subtopic <$> subtopic_findings report
      = ["Battery chemistry"; "Grid-scale deployment"; "Cost trends"].
Proof.
  evaluate_run res w' Hrun.
  eexists _, _. split; [reflexivity|].
  destruct (run_findings_in_splitter_order sample_loads "t0" "gpt" 1
              (new_orchestrator 3 8 3 true 2 "balanced")
              "Renewable energy storage" "Technical" "Neutral" true
              [2; 0; 1]%nat
              (sample_world [three_subtopics_text] ["{}"] ["{}"])
              three_subtopics_text []
              (JObj [("subtopics",
                      JArr [JObj [("name", JStr "Battery chemistry")];
                            JObj [("name", JStr "Grid-scale deployment")];
                            JObj [("name", JStr "Cost trends")]])])
              {| main_topic_analysis := JStr "";
                 analysis_subtopics := sample_subtopics |}
              _ _ eq_refl eq_refl eq_refl ltac:(discriminate) sample_order Hrun)
    as (_ & Hlen & Hnames).
  split; [exact Hlen|exact Hnames].
Defined.

(** The critic is enabled and the budget is zero. *)
Lemma run_without_revision_budget_witness :
  ∃ report w',
    run sample_loads "t0" "gpt" 1 (new_orchestrator 3 8 3 true 0 "balanced")
      "Renewable energy storage" "Technical" "Neutral" true [0]%nat
      (sample_world [one_subtopic_text] ["{}"] [needs_revision_text])
    = (Ok report, w')
    ∧ critic_review report = None
    ∧ revision_count report = 0
    ∧ critic_replies w' = [needs_revision_text].
Proof.
  evaluate_run res w' Hrun.
  eexists _, _. split; [reflexivity|].
  destruct (run_without_revision_budget sample_loads "t0" "gpt" 1
              (new_orchestrator 3 8 3 true 0 "balanced") 3 8 3 0 "balanced"
              "Renewable energy storage" "Technical" "Neutral" true [0]%nat
              (sample_world [one_subtopic_text] ["{}"] [needs_revision_text])
              _ _ eq_refl ltac:(lia) Hrun)
    as (_ & _ & Hcr & Hcount & _).
  split; [exact Hcr|]. split; [exact Hcount|reflexivity].
Defined.

(** The empty object makes the critic approve with a score of 7; a message
    without braces makes the researcher fall back on its text. *)
Lemma parsing_recovery_witness :
  (review sample_loads 1 (sample_report 0) (sample_world [] [] ["{}"])).1
  = Ok {| decision := "APPROVED"; overall_score := 7; issues_found := [];
          strengths := []; revision_instructions := ""; iteration := 1 |}
  ∧ ∃ f, research_subtopic sample_loads "t0" "gpt" (sample_world [] [] [])
           0 (sample_subtopic "Cost trends") = Ok f
         ∧ summary f = "No structured answer.".
Proof.
  destruct (parsing_recovery sample_loads "t0" "gpt" 1)
    as (_ & _ & _ & Hreview & Hresearch & _).
  split.
  - apply (Hreview (sample_report 0) (sample_world [] [] ["{}"]) "{}" []
             {| rev_decision := None; rev_overall_score := None;
                rev_issues_found := None; rev_strengths := None;
                rev_revision_instructions := None |});
      reflexivity.
  - eexists. split.
    + apply (Hresearch (sample_world [] [] []) 0%nat (sample_subtopic "Cost trends")
               [sample_hit "https://example.org/shared";
                sample_hit "https://example.org/0"]
               "No structured answer." ["storage"]); [reflexivity|].
      left. reflexivity.
    + reflexivity.
Defined.

(** A synthesizer reply that is not JSON stops the whole run. *)
Lemma run_raises_on_malformed_synthesis :
  (run sample_loads "t0" "gpt" 1 (new_orchestrator 3 8 3 true 2 "balanced")
     "Renewable energy storage" "Technical" "Neutral" true [0]%nat
     (sample_world [one_subtopic_text] ["I cannot answer in JSON."] ["{}"])).1
  = Raise (Exn JSONDecodeError "invalid JSON document").
Proof. vm_compute. reflexivity. Qed.

(** C6: one subtopic whose researcher succeeds: the callback sees 0.8 when
    the research completes and 0.7 when the synthesis starts. *)
Example run_progress_decreases :
  let t := trace (run sample_loads "t0" "gpt" 1
                    (new_orchestrator 3 8 3 true 2 "balanced")
                    "Renewable energy storage" "Technical" "Neutral" true [0]%nat
                    (sample_world [one_subtopic_text] ["{}"] ["{}"])).2 in
  Qred <$> progress_values t
  = [(1 # 10); (1 # 5); (4 # 5); (7 # 10); (17 # 20); (19 # 20); 1]%Q
  ∧ nondecreasing (progress_values t) = false
  ∧ within_unit_interval (progress_values t) = true.
Proof. vm_compute. repeat split; reflexivity. Qed.

(** C7: when the splitter returns no subtopic, [run] stops with an error
    after the splitter's call, whereas [run_sequential] goes on, calls the
    synthesizer with no findings and returns its report. *)
Example run_sequential_ignores_missing_subtopics :
  (∃ w', run sample_loads "t0" "gpt" 1 (new_orchestrator 3 8 3 true 2 "balanced")
           "Renewable energy storage" "Technical" "Neutral" true []
           (sample_world [no_subtopics_text] ["{}"] ["{}"])
         = (Raise (Exn ValueError "Topic splitter failed to generate subtopics"), w')
         ∧ calls (trace w') = [AnalyzeTopic])
  ∧ (∃ report w',
       run_sequential sample_loads "t0" "gpt" "Renewable energy storage"
         "Technical" "Neutral" true
         (sample_world [no_subtopics_text] ["{}"] ["{}"]) = (Ok report, w')
       ∧ calls (trace w') = [AnalyzeTopic; Synthesize]
       ∧ subtopic_findings report = []).
Proof.
  split.
  - eexists. split; [vm_compute; reflexivity|reflexivity].
  - eexists _, _. split; [vm_compute; reflexivity|]. split; reflexivity.
Qed.

(** ** The further statements at work on the sample data *)

(** A budget of two reviews and a critic that is never satisfied. *)
Lemma run_critic_loop_budget_witness :
  ∃ res w',
    _run_critic_loop sample_loads "t0" "gpt" 1
      (new_orchestrator 3 8 3 true 2 "balanced") (sample_report 0)
      "Technical" "Neutral" true
      (sample_world [] ["{}"] [needs_revision_text; needs_revision_text])
    = (res, w')
    ∧ ∃ l, trace w' = l
           ∧ Z.of_nat (count_calls is_review l) <= 2
           ∧ Z.of_nat (count_calls is_revise l) <= 1.
Proof.
  evaluate_run res w' Hrun.
  eexists _, _. split; [reflexivity|].
  destruct (run_critic_loop_budget sample_loads "t0" "gpt" 1
              (new_orchestrator 3 8 3 true 2 "balanced") (sample_report 0)
              "Technical" "Neutral" true
              (sample_world [] ["{}"] [needs_revision_text; needs_revision_text])
              _ _ Hrun)
    as (l & Htr & Hreview & Hrevise & _).
  exists l. split; [exact Htr|]. split; [exact Hreview|exact Hrevise].
Defined.

(** A budget of three reviews; the critic approves the second revision and
    its fourth reply is never asked for. *)
Lemma critic_loop_stops_at_approval_witness :
  ∃ r' w',
    _run_critic_loop sample_loads "t0" "gpt" 1
      (new_orchestrator 3 8 3 true 3 "balanced") (sample_report 0)
      "Technical" "Neutral" true
      (sample_world [] ["{}"; "{}"; "{}"]
         [needs_revision_text; needs_revision_text; "{}"; needs_revision_text])
    = (Ok r', w')
    ∧ revision_count r' = 2
    ∧ iteration <$> critic_review r' = Some 3
    ∧ critic_replies w' = [needs_revision_text]
    ∧ synthesizer_replies w' = ["{}"].
Proof.
  destruct (critic_loop_stops_at_approval sample_loads "t0" "gpt" 1
              (new_orchestrator 3 8 3 true 3 "balanced") (sample_report 0)
              "Technical" "Neutral" true
              (sample_world [] ["{}"; "{}"; "{}"]
                 [needs_revision_text; needs_revision_text; "{}";
                  needs_revision_text])
              "balanced" 2%nat [needs_revision_text; needs_revision_text] "{}"
              [needs_revision_text] ["{}"; "{}"] ["{}"])
    as (r' & w' & rv & l & Hrun & _ & _ & _ & Hcount & Hcr & Hit & _ & _ & Hc & Hs).
  - reflexivity.
  - simpl. lia.
  - reflexivity.
  - reflexivity.
  - repeat constructor;
      (eapply sample_review_reply; [reflexivity|eexists; split; reflexivity]).
  - eapply sample_review_reply; [reflexivity|eexists; split; reflexivity].
  - reflexivity.
  - reflexivity.
  - repeat constructor; (eexists; split; reflexivity).
  - exists r', w'. split; [exact Hrun|]. rewrite Hcr, Hcount. simpl.
    split; [reflexivity|]. split; [by rewrite Hit|]. split; [exact Hc|exact Hs].
Defined.

Lemma extended_unknown_reply :
  unknown_review_reply extended_loads 1 undecided_text.
Proof.
  eexists _, _. split; [reflexivity|]. split; [reflexivity|]. split; discriminate.
Qed.

(** A budget of two reviews and a critic that answers NEEDS_WORK. *)
Lemma critic_loop_ignores_unknown_decisions_witness :
  ∃ w' l,
    _run_critic_loop extended_loads "t0" "gpt" 1
      (new_orchestrator 3 8 3 true 2 "balanced") (sample_report 0)
      "Technical" "Neutral" true
      (sample_world [] ["{}"] [undecided_text; undecided_text; "{}"])
    = (Ok (sample_report 0), w')
    ∧ trace w' = l
    ∧ count_calls is_revise l = 0%nat
    ∧ count_calls is_review l = 2%nat.
Proof.
  destruct (critic_loop_ignores_unknown_decisions extended_loads "t0" "gpt" 1
              (new_orchestrator 3 8 3 true 2 "balanced") (sample_report 0)
              "Technical" "Neutral" true
              (sample_world [] ["{}"] [undecided_text; undecided_text; "{}"])
              "balanced" [undecided_text; undecided_text] ["{}"])
    as (w' & l & Hrun & Htr & Hrevise & Hreview).
  - reflexivity.
  - reflexivity.
  - reflexivity.
  - repeat constructor; exact extended_unknown_reply.
  - exists w', l. split; [exact Hrun|]. split; [exact Htr|].
    split; [exact Hrevise|exact Hreview].
Defined.

(** Three subtopics; the critic asks for one revision and then approves. *)
Lemma run_call_order_witness :
  ∃ report w',
    run sample_loads "t0" "gpt" 1 (new_orchestrator 3 8 3 true 2 "balanced")
      "Renewable energy storage" "Technical" "Neutral" true [2; 0; 1]%nat
      (sample_world [three_subtopics_text] ["{}"; "{}"]
         [needs_revision_text; "{}"]) = (Ok report, w')
    ∧ ∃ n critic_calls,
        calls (trace w')
        = AnalyzeTopic :: (ResearchSubtopic <$> seq 0 n)
          ++ Synthesize :: critic_calls
        ∧ Forall critic_call critic_calls.
Proof.
  evaluate_run res w' Hrun.
  eexists _, _. split; [reflexivity|].
  destruct (run_call_order sample_loads "t0" "gpt" 1
              (new_orchestrator 3 8 3 true 2 "balanced")
              "Renewable energy storage" "Technical" "Neutral" true
              [2; 0; 1]%nat
              (sample_world [three_subtopics_text] ["{}"; "{}"]
                 [needs_revision_text; "{}"]) _ _ Hrun)
    as (l & n & critic_calls & Htr & _ & Hcalls & Hcritic & _).
  exists n, critic_calls. split; [|exact Hcritic].
  rewrite <- Hcalls. f_equal. exact Htr.
Defined.

(** One subtopic; the critic asks for one revision and then approves. *)
Lemma run_counts_revisions_witness :
  ∃ report w',
    run sample_loads "t0" "gpt" 1 (new_orchestrator 3 8 3 true 2 "balanced")
      "Renewable energy storage" "Technical" "Neutral" true [0]%nat
      (sample_world [one_subtopic_text] ["{}"; "{}"]
         [needs_revision_text; "{}"]) = (Ok report, w')
    ∧ revision_count report = Z.of_nat (count_calls is_revise (trace w'))
    ∧ revision_count report = 1.
Proof.
  evaluate_run res w' Hrun.
  eexists _, _. split; [reflexivity|].
  destruct (run_counts_revisions sample_loads "t0" "gpt" 1
              (new_orchestrator 3 8 3 true 2 "balanced")
              "Renewable energy storage" "Technical" "Neutral" true [0]%nat
              (sample_world [one_subtopic_text] ["{}"; "{}"]
                 [needs_revision_text; "{}"]) _ _ Hrun)
    as (l & Htr & Hcount & _).
  split; [|reflexivity]. rewrite Hcount. do 2 f_equal. symmetry. exact Htr.
Defined.

(** Three subtopics, two of whose researchers return a shared source. *)
Lemma run_report_invariants_witness :
  ∃ report w',
    run sample_loads "t0" "gpt" 1 (new_orchestrator 3 8 3 true 2 "balanced")
      "Renewable energy storage" "Technical" "Neutral" true [2; 0; 1]%nat
      (sample_world [three_subtopics_text] ["{}"] ["{}"]) = (Ok report, w')
    ∧ NoDup (url <$> all_sources report)
    ∧ length (all_sources report) = 3%nat.
Proof.
  evaluate_run res w' Hrun.
  eexists _, _. split; [reflexivity|].
  destruct (run_report_invariants sample_loads "t0" "gpt" 1
              (new_orchestrator 3 8 3 true 2 "balanced")
              "Renewable energy storage" "Technical" "Neutral" true
              [2; 0; 1]%nat
              (sample_world [three_subtopics_text] ["{}"] ["{}"]) _ _ Hrun)
    as (_ & _ & _ & Hnodup & _).
  split; [exact Hnodup|reflexivity].
Defined.

(** Researcher 2 of three fails and the critic is switched off. *)
Lemma run_survives_researchers_witness :
  ∃ report w',
    run sample_loads "t0" "gpt" 1 (new_orchestrator 3 8 3 false 2 "balanced")
      "Renewable energy storage" "Technical" "Neutral" true [2; 0; 1]%nat
      (sample_world [three_subtopics_text] ["{}"] []) = (Ok report, w').
Proof.
  apply (run_survives_researchers sample_loads "t0" "gpt" 1
           (new_orchestrator 3 8 3 false 2 "balanced")
           "Renewable energy storage" "Technical" "Neutral" true [2; 0; 1]%nat
           (sample_world [three_subtopics_text] ["{}"] [])
           three_subtopics_text []
           (JObj [("subtopics",
                   JArr [JObj [("name", JStr "Battery chemistry")];
                         JObj [("name", JStr "Grid-scale deployment")];
                         JObj [("name", JStr "Cost trends")]])])
           {| main_topic_analysis := JStr "";
              analysis_subtopics := sample_subtopics |}
           "{}" []); try reflexivity.
  - discriminate.
  - eexists. split; reflexivity.
Defined.

(** Researcher 2 of three fails on the sequential path. *)
Lemma run_sequential_stops_at_failure_witness :
  ∃ w' l,
    run_sequential sample_loads "t0" "gpt" "Renewable energy storage"
      "Technical" "Neutral" true
      (sample_world [three_subtopics_text] ["{}"] [])
    = (Raise (Exn RuntimeError "Web search failed: timeout"), w')
    ∧ trace w' = l
    ∧ calls l = [AnalyzeTopic; ResearchSubtopic 0; ResearchSubtopic 1].
Proof.
  destruct (run_sequential_stops_at_failure sample_loads "t0" "gpt"
              "Renewable energy storage" "Technical" "Neutral" true
              (sample_world [three_subtopics_text] ["{}"] [])
              three_subtopics_text []
              (JObj [("subtopics",
                      JArr [JObj [("name", JStr "Battery chemistry")];
                            JObj [("name", JStr "Grid-scale deployment")];
                            JObj [("name", JStr "Cost trends")]])])
              {| main_topic_analysis := JStr "";
                 analysis_subtopics := sample_subtopics |}
              [sample_subtopic "Battery chemistry"]
              (sample_subtopic "Grid-scale deployment")
              [sample_subtopic "Cost trends"]
              (Exn RuntimeError "Web search failed: timeout"))
    as (w' & l & Hrun & Htr & Hcalls); try reflexivity.
  - intros [|k] st' Hk; [|destruct k; discriminate].
    injection Hk as <-. reflexivity.
  - exists w', l. split; [exact Hrun|]. split; [exact Htr|exact Hcalls].
Defined.

(** Three subtopics whose researchers all return, completing in the order
    3, 1, 2; the critic is switched off. *)
Lemma run_agrees_with_run_sequential_witness :
  (run sample_loads "t0" "gpt" 1 (new_orchestrator 3 8 3 false 2 "balanced")
     "Renewable energy storage" "Technical" "Neutral" true [2; 0; 1]%nat
     (returning_world [three_subtopics_text] ["{}"] [])).1
  = (run_sequential sample_loads "t0" "gpt" "Renewable energy storage"
       "Technical" "Neutral" true
       (returning_world [three_subtopics_text] ["{}"] [])).1.
Proof.
  apply (run_agrees_with_run_sequential sample_loads "t0" "gpt" 1
           (new_orchestrator 3 8 3 false 2 "balanced")
           "Renewable energy storage" "Technical" "Neutral" true [2; 0; 1]%nat
           (returning_world [three_subtopics_text] ["{}"] [])
           three_subtopics_text []
           (JObj [("subtopics",
                   JArr [JObj [("name", JStr "Battery chemistry")];
                         JObj [("name", JStr "Grid-scale deployment")];
                         JObj [("name", JStr "Cost trends")]])])
           {| main_topic_analysis := JStr "";
              analysis_subtopics := sample_subtopics |}).
  - reflexivity.
  - reflexivity.
  - reflexivity.
  - reflexivity.
  - discriminate.
  - exact sample_order.
  - intros [|[|[|k]]] st' Hk; try discriminate; injection Hk as <-; reflexivity.
Defined.

(** The splitter returns an empty list of subtopics. *)
Lemma run_aborts_without_subtopics_witness :
  ∃ w' l,
    run sample_loads "t0" "gpt" 1 (new_orchestrator 3 8 3 true 2 "balanced")
      "Renewable energy storage" "Technical" "Neutral" true []
      (sample_world [no_subtopics_text] ["{}"] ["{}"])
    = (Raise (Exn ValueError "Topic splitter failed to generate subtopics"), w')
    ∧ trace w' = l
    ∧ calls l = [AnalyzeTopic].
Proof.
  apply (run_aborts_without_subtopics sample_loads "t0" "gpt" 1
           (new_orchestrator 3 8 3 true 2 "balanced")
           "Renewable energy storage" "Technical" "Neutral" true []
           (sample_world [no_subtopics_text] ["{}"] ["{}"])
           no_subtopics_text [] (JObj [("subtopics", JArr [])])
           {| main_topic_analysis := JStr ""; analysis_subtopics := [] |});
    reflexivity.
Defined.

(** The synthesizer answers in prose. *)
Lemma run_stops_at_synthesizer_failure_witness :
  ∃ w' l,
    run sample_loads "t0" "gpt" 1 (new_orchestrator 3 8 3 true 2 "balanced")
      "Renewable energy storage" "Technical" "Neutral" true [0]%nat
      (sample_world [one_subtopic_text] ["I cannot answer in JSON."] ["{}"])
    = (Raise (Exn JSONDecodeError "invalid JSON document"), w')
    ∧ trace w' = l
    ∧ calls l = [AnalyzeTopic; ResearchSubtopic 0; Synthesize].
Proof.
  apply (run_stops_at_synthesizer_failure sample_loads "t0" "gpt" 1
           (new_orchestrator 3 8 3 true 2 "balanced")
           "Renewable energy storage" "Technical" "Neutral" true [0]%nat
           (sample_world [one_subtopic_text] ["I cannot answer in JSON."] ["{}"])
           one_subtopic_text []
           (JObj [("subtopics", JArr [JObj [("name", JStr "Cost trends")]])])
           {| main_topic_analysis := JStr "";
              analysis_subtopics := [sample_subtopic "Cost trends"] |});
    try reflexivity.
  - discriminate.
  - right. eexists _, _. split; [reflexivity|]. split; reflexivity.
Defined.

(** The critic's completion request fails. *)
Lemma run_stops_at_critic_failure_witness :
  ∃ w' l,
    run sample_loads "t0" "gpt" 1 (new_orchestrator 3 8 3 true 2 "balanced")
      "Renewable energy storage" "Technical" "Neutral" true [0]%nat
      (sample_world [one_subtopic_text] ["{}"] [])
    = (Raise (Exn APIError "the completion request failed"), w')
    ∧ trace w' = l
    ∧ calls l = [AnalyzeTopic; ResearchSubtopic 0; Synthesize; Review].
Proof.
  apply (run_stops_at_critic_failure sample_loads "t0" "gpt" 1
           (new_orchestrator 3 8 3 true 2 "balanced")
           "Renewable energy storage" "Technical" "Neutral" true [0]%nat
           (sample_world [one_subtopic_text] ["{}"] [])
           one_subtopic_text []
           (JObj [("subtopics", JArr [JObj [("name", JStr "Cost trends")]])])
           {| main_topic_analysis := JStr "";
              analysis_subtopics := [sample_subtopic "Cost trends"] |}
           "{}" [] "balanced");
    try reflexivity.
  - discriminate.
  - eexists. split; reflexivity.
  - left. split; reflexivity.
Defined.

(** Four search results and a final message whose document holds a summary
    but no insight. *)
Lemma parse_findings_insights_witness :
  ∃ f,
    _parse_findings researcher_loads "t0" "gpt" "Researcher 1"
      (sample_subtopic "Cost trends")
      [sample_hit "https://example.org/1"; sample_hit "https://example.org/2";
       sample_hit "https://example.org/3"; sample_hit "https://example.org/4"]
      ("Here is what I found: " +:+ summary_text +:+ " Thanks.") ["storage"]
    = Ok f
    ∧ length (sources f) = 4%nat
    ∧ key_insights f ≠ [].
Proof.
  eexists. split; [vm_compute; reflexivity|].
  match goal with
  | |- length (sources ?f) = _ ∧ _ =>
      destruct (parse_findings_insights researcher_loads "t0" "gpt" "Researcher 1"
                  (sample_subtopic "Cost trends")
                  [sample_hit "https://example.org/1";
                   sample_hit "https://example.org/2";
                   sample_hit "https://example.org/3";
                   sample_hit "https://example.org/4"]
                  ("Here is what I found: " +:+ summary_text +:+ " Thanks.")
                  ["storage"] f eq_refl)
        as (_ & Hsources & Hinsights & _)
  end.
  split; [by rewrite Hsources|]. apply Hinsights. discriminate.
Defined.

(** A document between two sentences. *)
Lemma extract_result_data_span_witness :
  extract_result_data researcher_loads
    ("Here is what I found: " +:+ summary_text +:+ " Thanks.")
  = JObj [("summary", JStr "Costs fall.")].
Proof.
  exact (extract_result_data_span researcher_loads "Here is what I found: "
           (quoted "summary" +:+ ": " +:+ quoted "Costs fall.") " Thanks."
           eq_refl eq_refl).
Defined.

(** The client fails on a query it does not know. *)
Lemma web_search_failures_witness :
  ∃ e0,
    web_search (Some "tvly-key") sample_client (JStr "fusion") (JInt 8)
    = Raise (Exn RuntimeError ("Web search failed: " +:+ exn_str e0))
    ∧ exn_str e0 = "rate limit exceeded".
Proof.
  pose proof (web_search_failures (Some "tvly-key") sample_client
                (JStr "fusion") (JInt 8)
                (Exn RuntimeError "Web search failed: rate limit exceeded")
                eq_refl) as H.
  cbn in H. destruct H as (e0 & He & [Hc|(response & Hc & _)]); [|discriminate].
  exists e0. injection Hc as <-. split; reflexivity.
Defined.

(** The client answers with a complete entry and a bare one. *)
Lemma web_search_results_witness :
  ∃ rs,
    web_search (Some "tvly-key") sample_client (JStr "storage") (JInt 1) = Ok rs
    ∧ length rs = 2%nat
    ∧ Forall search_result_shape rs.
Proof.
  eexists. split; [vm_compute; reflexivity|]. split; [reflexivity|].
  match goal with
  | |- Forall _ ?rs =>
      destruct (web_search_results (Some "tvly-key") sample_client
                  (JStr "storage") (JInt 1) rs eq_refl)
        as (_ & _ & _ & _ & _ & _ & _ & _ & _ & _ & _ & H); exact H
  end.
Defined.

(** One search, one call of an unknown tool, then the answer. *)
Lemma research_session_outcome_witness :
  ∃ all_sources queries_used,
    research_session researcher_loads (Some "tvly-key") sample_client 8
      sample_completions
    = Ok (all_sources, queries_used, "No structured answer.")
    ∧ length queries_used = 1%nat
    ∧ Forall search_result_shape all_sources.
Proof.
  eexists _, _. split; [vm_compute; reflexivity|]. split; [reflexivity|].
  match goal with
  | |- Forall _ ?srcs =>
      destruct (research_session_outcome researcher_loads (Some "tvly-key")
                  sample_client 8 sample_completions srcs
                  [JStr "storage"] "No structured answer." eq_refl)
        as (_ & _ & _ & _ & _ & _ & _ & _ & H); exact H
  end.
Defined.

(** One subtopic, researched in sequence. *)
Lemma run_sequential_progress_witness :
  ∃ res w',
    run_sequential sample_loads "t0" "gpt" "Renewable energy storage"
      "Technical" "Neutral" true (sample_world [one_subtopic_text] ["{}"] [])
    = (res, w')
    ∧ nondecreasing (progress_values (trace w')) = true
    ∧ within_unit_interval (progress_values (trace w')) = true.
Proof.
  evaluate_run res w' Hrun.
  eexists _, _. split; [reflexivity|].
  destruct (run_sequential_progress sample_loads "t0" "gpt"
              "Renewable energy storage" "Technical" "Neutral" true
              (sample_world [one_subtopic_text] ["{}"] []) _ _ Hrun)
    as (l & n & Htr & _ & _ & Hmono & Hunit).
  simpl in Htr. rewrite <- Htr in Hmono, Hunit. split; [exact Hmono|exact Hunit].
Defined.

(** Three subtopics, one failing researcher and one revision. *)
Lemma run_progress_within_unit_interval_witness :
  ∃ res w',
    run sample_loads "t0" "gpt" 1 (new_orchestrator 3 8 3 true 2 "balanced")
      "Renewable energy storage" "Technical" "Neutral" true [2; 0; 1]%nat
      (sample_world [three_subtopics_text] ["{}"; "{}"]
         [needs_revision_text; "{}"]) = (res, w')
    ∧ within_unit_interval (progress_values (trace w')) = true.
Proof.
  evaluate_run res w' Hrun.
  eexists _, _. split; [reflexivity|].
  assert (∀ a,
            (analyze_topic sample_loads "Renewable energy storage"
               (sample_world [three_subtopics_text] ["{}"; "{}"]
                  [needs_revision_text; "{}"])).1 = Ok a ->
            [2; 0; 1]%nat ≡ₚ seq 0 (length (analysis_subtopics a))) as Hcompleted.
  { intros a Ha. vm_compute in Ha. injection Ha as <-. exact sample_order. }
  destruct (run_progress_within_unit_interval sample_loads "t0" "gpt" 1
              (new_orchestrator 3 8 3 true 2 "balanced")
              "Renewable energy storage" "Technical" "Neutral" true
              [2; 0; 1]%nat
              (sample_world [three_subtopics_text] ["{}"; "{}"]
                 [needs_revision_text; "{}"])
              _ _ Hcompleted Hrun)
    as (l & Htr & Hunit).
  simpl in Htr. rewrite <- Htr in Hunit. exact Hunit.
Defined.
